(** * Spreadsheet Operation Engine: a shallow embedding

    The development follows the Python sources

      - backend/services/excel_operations.py   (class ExcelOperations)
      - backend/services/multi_sheet_handler.py
      - backend/services/full_data_agent.py    (_handle_merge_files_operation)

    Python values are embedded as an inductive type of JSON-like objects,
    pandas DataFrames as row-major tables of nullable cells, openpyxl
    worksheets as grids of styled cells, and exceptions through an explicit
    result type.  A text is the UTF-8 encoding of the Python [str]; a
    number of a table is given exactly.  Library services whose behaviour
    is not fixed by the repository (number parsing, printing and
    rounding, case mapping beyond ASCII, date arithmetic, the sorting
    routine of pandas, the sheet titles of openpyxl) are fields of a
    runtime record that every function of the engine takes as a
    parameter. *)

From Stdlib Require Import List String Ascii Bool Arith ZArith QArith Qcanon.
From Stdlib Require Import Lia Permutation Sorted.
Import ListNotations.

Local Open Scope string_scope.
Local Open Scope list_scope.
Local Open Scope nat_scope.

Set Implicit Arguments.

(** ** Python objects, exceptions *)

(** Outcome of a Python computation: a value, or a raised exception. *)
Inductive res (A : Type) : Type :=
| Ok (a : A)
| Raise.

Arguments Ok {A} a.
Arguments Raise {A}.

Definition bind {A B : Type} (m : res A) (k : A -> res B) : res B :=
  match m with
  | Ok a => k a
  | Raise => Raise
  end.

Notation "x <- m ;; k" := (bind m (fun x => k))
  (at level 61, m at next level, right associativity).

(** A Python [float]: a finite number, an infinity or NaN. *)
Inductive pyfloat : Type :=
| FNum (q : Qc)
| FInf (negative : bool)
| FNaN.

(** The objects an operation specification is made of (the result of
    [json.loads]): a dict keeps its insertion order and has one entry per
    key. *)
#[warnings="-register-all"]
Inductive pyobj : Type :=
| PNone
| PBool (b : bool)
| PInt (z : Z)
| PFloat (f : pyfloat)
| PStr (s : string)
| PList (l : list pyobj)
| PDict (d : list (string * pyobj)).

Definition pydict := list (string * pyobj).

Fixpoint dict_get (k : string) (d : pydict) : option pyobj :=
  match d with
  | [] => None
  | (k', v) :: d' => if String.eqb k k' then Some v else dict_get k d'
  end.

(** [d.get(k, default)] *)
Definition dict_get_default (k : string) (default : pyobj) (d : pydict) : pyobj :=
  match dict_get k d with
  | Some v => v
  | None => default
  end.

(** [k in d] *)
Definition dict_has (k : string) (d : pydict) : bool :=
  match dict_get k d with
  | Some _ => true
  | None => false
  end.

Definition Z2Qc (z : Z) : Qc := Q2Qc (inject_Z z).

Definition qc_eqb (a b : Qc) : bool := Qc_eq_bool a b.

Definition qc_ltb (a b : Qc) : bool :=
  match Qccompare a b with
  | Lt => true
  | _ => false
  end.

Definition qc_leb (a b : Qc) : bool :=
  match Qccompare a b with
  | Gt => false
  | _ => true
  end.

(** The comparisons of two floats: every comparison with NaN is false. *)
Definition fl_ltb (a b : pyfloat) : bool :=
  match a, b with
  | FNaN, _ | _, FNaN => false
  | FNum p, FNum q => qc_ltb p q
  | FInf true, FInf true => false
  | FInf true, _ => true
  | _, FInf true => false
  | FInf false, _ => false
  | FNum _, FInf false => true
  end.

Definition fl_eqb (a b : pyfloat) : bool :=
  match a, b with
  | FNum p, FNum q => qc_eqb p q
  | FInf x, FInf y => Bool.eqb x y
  | _, _ => false
  end.

Definition fl_leb (a b : pyfloat) : bool := fl_ltb a b || fl_eqb a b.

Definition fl_isnan (a : pyfloat) : bool :=
  match a with
  | FNaN => true
  | _ => false
  end.

(** A whole number that an [int] and a [float] hold alike: at most
    [2^53] in magnitude. *)
Definition qc_small_int (q : Qc) : bool :=
  Pos.eqb (Qden (this q)) 1 && (Z.abs (Qnum (this q)) <=? 2 ^ 53)%Z.

(** Python truth value of an object. *)
Definition truthy (o : pyobj) : bool :=
  match o with
  | PNone => false
  | PBool b => b
  | PInt z => negb (Z.eqb z 0)
  | PFloat f => negb (fl_eqb f (FNum (Z2Qc 0)))
  | PStr s => negb (String.eqb s "")
  | PList l => match l with [] => false | _ => true end
  | PDict d => match d with [] => false | _ => true end
  end.

(** ** Strings *)

Fixpoint string_map (f : ascii -> ascii) (s : string) : string :=
  match s with
  | EmptyString => EmptyString
  | String c s' => String (f c) (string_map f s')
  end.

(** Case mapping of the ASCII letters. *)
Definition lower_ascii (c : ascii) : ascii :=
  let n := nat_of_ascii c in
  if (65 <=? n)%nat && (n <=? 90)%nat then ascii_of_nat (n + 32) else c.

Definition upper_ascii (c : ascii) : ascii :=
  let n := nat_of_ascii c in
  if (97 <=? n)%nat && (n <=? 122)%nat then ascii_of_nat (n - 32) else c.

(** A text all of whose characters are ASCII. *)
Definition is_ascii (s : string) : bool :=
  forallb (fun c => (nat_of_ascii c <? 128)%nat) (list_ascii_of_string s).

(** A byte that continues a character of more than one byte. *)
Definition is_continuation (c : ascii) : bool :=
  let n := nat_of_ascii c in (128 <=? n)%nat && (n <? 192)%nat.

(** [len(s)]: the number of characters. *)
Fixpoint str_len (s : string) : nat :=
  match s with
  | EmptyString => 0
  | String c s' => if is_continuation c then str_len s' else S (str_len s')
  end.

(** The characters of a text, as [for c in s] goes through them. *)
Fixpoint str_chars (s : string) : list string :=
  match s with
  | EmptyString => []
  | String c s' =>
      let next_continues :=
        match s' with
        | String c' _ => is_continuation c'
        | EmptyString => false
        end in
      match str_chars s' with
      | group :: rest =>
          if next_continues then String c group :: rest
          else String c EmptyString :: group :: rest
      | [] => [String c EmptyString]
      end
  end.

(** [sub in s] for two strings *)
Fixpoint str_contains (sub s : string) : bool :=
  if String.prefix sub s then true
  else match s with
       | EmptyString => false
       | String _ s' => str_contains sub s'
       end.

(** [s.endswith(suffix)] *)
Definition endswith (s suffix : string) : bool :=
  let n := String.length s in
  let m := String.length suffix in
  (m <=? n)%nat && String.eqb (String.substring (n - m) m s) suffix.

(** [s[:n]] for [n >= 0]: the first [n] characters, each with all its
    bytes. *)
Fixpoint str_take (n : nat) (s : string) : string :=
  match s with
  | EmptyString => EmptyString
  | String c s' =>
      if is_continuation c then String c (str_take n s')
      else match n with
           | O => EmptyString
           | S n' => String c (str_take n' s')
           end
  end.

Fixpoint take_bytes (n : nat) (s : string) : string :=
  match n, s with
  | S n', String c s' => String c (take_bytes n' s')
  | _, _ => EmptyString
  end.

(** [s[:-n]] for [n > 0], where the last [n] characters are ASCII. *)
Definition str_drop_last (n : nat) (s : string) : string :=
  take_bytes (String.length s - n) s.

(** [s.replace(c, r)] for a one-character [c] and [r] *)
Definition replace_char (c r : ascii) (s : string) : string :=
  string_map (fun x => if Ascii.eqb x c then r else x) s.

(** [s.replace(c, '')] for a one-character [c] *)
Fixpoint remove_char (c : ascii) (s : string) : string :=
  match s with
  | EmptyString => EmptyString
  | String x s' => if Ascii.eqb x c then remove_char c s' else String x (remove_char c s')
  end.

(** ** Tables *)

(** A cell of a table holds text or a finite number; [None] is the
    missing value (NaN, as [read_excel] and [read_csv] leave it).  Python
    compares an [int] and a [float] by their numeric value, so one
    constructor stands for both. *)
Inductive value : Type :=
| VStr (s : string)
| VNum (q : Qc).

Definition cellv := option value.

Definition value_eqb (a b : value) : bool :=
  match a, b with
  | VStr s, VStr t => String.eqb s t
  | VNum p, VNum q => qc_eqb p q
  | _, _ => false
  end.

Definition cellv_eqb (a b : cellv) : bool :=
  match a, b with
  | Some x, Some y => value_eqb x y
  | None, None => true
  | _, _ => false
  end.

(** The dtype of a column, as far as pandas lets it decide an outcome:
    a column of numbers ([int64], [float64]) or a column of objects. *)
Inductive dtype : Type := Numeric | Object.

(** A DataFrame: column labels, the dtype of every column, and rows,
    every row as long as the list of labels.  The row labels (the index)
    are not modelled: the engine only uses them through positions. *)
Record DataFrame : Type := mkDF {
  columns : list string;
  dtypes : list dtype;
  rows : list (list cellv)
}.

(** The table with other rows. *)
Definition with_rows (df : DataFrame) (rs : list (list cellv)) : DataFrame :=
  mkDF (columns df) (dtypes df) rs.

Fixpoint get_loc (column : string) (cols : list string) : option nat :=
  match cols with
  | [] => None
  | c :: cs => if String.eqb column c then Some 0%nat
               else option_map S (get_loc column cs)
  end.

(** [column in df.columns] *)
Definition has_column (column : string) (df : DataFrame) : bool :=
  match get_loc column (columns df) with
  | Some _ => true
  | None => false
  end.

(** The cell of a row at a position; a short row reads as missing. *)
Definition row_get (i : nat) (r : list cellv) : cellv := nth i r None.

(** [df[column]] as the list of its cells, top to bottom. *)
Definition series (column : string) (df : DataFrame) : list cellv :=
  match get_loc column (columns df) with
  | Some i => map (row_get i) (rows df)
  | None => []
  end.

Definition len (df : DataFrame) : nat := List.length (rows df).

(** [df[mask]] for a boolean mask as long as the table. *)
Fixpoint select {A : Type} (mask : list bool) (l : list A) : list A :=
  match mask, l with
  | b :: mask', x :: l' => if b then x :: select mask' l' else select mask' l'
  | _, _ => []
  end.

Definition df_select (mask : list bool) (df : DataFrame) : DataFrame :=
  with_rows df (select mask (rows df)).

(** [df[column].dtype] *)
Definition dtype_of (column : string) (df : DataFrame) : dtype :=
  match get_loc column (columns df) with
  | Some i => nth i (dtypes df) Object
  | None => Object
  end.

(** The comparison operators of a column against an operand. *)
Inductive cmpop : Type := CEq | CNe | CGt | CLt | CGe | CLe.

(** ** The runtime *)

Record PyRuntime : Type := mkRuntime {
  (** [float(s)] for a string: [None] when Python raises [ValueError] *)
  float_of_str : string -> option pyfloat;
  (** [float(x)] for a number beyond the whole numbers up to [2^53]: the
      nearest double, [OverflowError] when there is none *)
  float_round : Qc -> res pyfloat;
  (** [str(x)] for a number *)
  str_of_num : Qc -> string;
  (** [str(o)] for an object of a specification *)
  str_of_obj : pyobj -> string;
  (** [s.lower()], [s.upper()] and [not s.strip()] for a text with
      characters beyond ASCII *)
  str_lower : string -> string;
  str_upper : string -> string;
  str_blank : string -> bool;
  (** [ExcelOperations._check_date_in_month] and
      [_check_date_in_previous_month]: both catch every exception and
      answer with a boolean; they rest on [datetime] and the clock. *)
  check_date_in_month : value -> pyobj -> bool;
  check_date_in_previous_month : value -> pyobj -> bool;
  (** [re.search(pattern, s, re.IGNORECASE) is not None], as
      [Series.str.contains] evaluates it; raises on a malformed pattern. *)
  re_search_nocase : string -> string -> res bool;
  (** [df.sort_values(by=..., ascending=...)] of pandas, called with its
      default sorting algorithm. *)
  sort_values : pyobj -> pyobj -> DataFrame -> res DataFrame;
  (** [series <op> operand] of pandas for an operand that is a list or a
      dict as long as the column, and the comparison numpy makes of a
      number with an operand where doubles are not exact. *)
  compare_listlike : cmpop -> dtype -> list cellv -> pyobj -> res (list bool);
  numpy_compare : cmpop -> Qc -> pyobj -> res bool;
  numpy_isin : Qc -> list pyobj -> bool;
  (** [sum(values)] and [sum(values) / len(values)] of Python on
      floats *)
  py_sum : list pyfloat -> pyfloat;
  py_div : pyfloat -> nat -> pyfloat;
  (** The title openpyxl gives a sheet that pandas creates under a name
      no sheet of the workbook has: the name itself unless it is taken up
      to case; [ValueError] on a title it refuses. *)
  assign_title : list string -> string -> res string
}.

(** [s.lower()] and [s.upper()]: the ASCII letters for a text that is
    ASCII, the runtime beyond. *)
Definition lower (rt : PyRuntime) (s : string) : string :=
  if is_ascii s then string_map lower_ascii s else str_lower rt s.

Definition upper (rt : PyRuntime) (s : string) : string :=
  if is_ascii s then string_map upper_ascii s else str_upper rt s.

(** The characters [str.strip] removes, among the ASCII ones. *)
Definition is_space (c : ascii) : bool :=
  let n := nat_of_ascii c in
  ((9 <=? n) && (n <=? 13)) || ((28 <=? n) && (n <=? 32)).

(** [not s.strip()] *)
Definition blank (rt : PyRuntime) (s : string) : bool :=
  if is_ascii s then forallb is_space (list_ascii_of_string s) else str_blank rt s.

(** [float(x)] for a number of a table or of a specification. *)
Definition float_of_num (rt : PyRuntime) (q : Qc) : res pyfloat :=
  if qc_small_int q then Ok (FNum q) else float_round rt q.
(** ** Conditions on a single cell: [ExcelOperations._check_condition] *)

Module Condition.

Section CheckCondition.

Variable rt : PyRuntime.

(** [value == target] for a cell that is not missing.  [True == 1] and
    [False == 0] in Python. *)
Definition py_eq (v : value) (target : pyobj) : bool :=
  match v, target with
  | VStr s, PStr t => String.eqb s t
  | VNum q, PInt z => qc_eqb q (Z2Qc z)
  | VNum q, PFloat f => fl_eqb (FNum q) f
  | VNum q, PBool b => qc_eqb q (Z2Qc (if b then 1 else 0))
  | _, _ => false
  end.

(** [float(value)] for a cell that is not missing. *)
Definition float_of_value (v : value) : res pyfloat :=
  match v with
  | VNum q => float_of_num rt q
  | VStr s => match float_of_str rt s with
              | Some q => Ok q
              | None => Raise
              end
  end.

(** [float(target)]: [TypeError] on [None], a list or a dict. *)
Definition float_of_obj (target : pyobj) : res pyfloat :=
  match target with
  | PInt z => float_of_num rt (Z2Qc z)
  | PFloat f => Ok f
  | PBool b => Ok (FNum (Z2Qc (if b then 1 else 0)))
  | PStr s => match float_of_str rt s with
              | Some q => Ok q
              | None => Raise
              end
  | PNone | PList _ | PDict _ => Raise
  end.

(** [str(value)] *)
Definition str_of_value (v : value) : string :=
  match v with
  | VStr s => s
  | VNum q => str_of_num rt q
  end.

(** [value in target]: membership in a list, a substring test in a
    string (with [TypeError] when the left operand is not a string), a
    key test in a dict; any other right operand is not iterable. *)
Definition py_in (v : value) (target : pyobj) : res bool :=
  match target with
  | PList l => Ok (existsb (py_eq v) l)
  | PStr t => match v with
              | VStr s => Ok (str_contains s t)
              | VNum _ => Raise
              end
  | PDict d => match v with
               | VStr s => Ok (dict_has s d)
               | VNum _ => Ok false
               end
  | PNone | PBool _ | PInt _ | PFloat _ => Raise
  end.

(** [operator == name] *)
Definition op_is (operator : pyobj) (name : string) : bool :=
  match operator with
  | PStr o => String.eqb o name
  | _ => false
  end.

Definition float_compare (cmp : pyfloat -> pyfloat -> bool) (v : value) (target : pyobj)
  : res pyobj :=
  a <- float_of_value v ;;
  b <- float_of_obj target ;;
  Ok (PBool (cmp a b)).

(** The body of the [try] block.  The result is the Python object the
    function returns: a boolean, or [None] when no branch of the chain of
    [elif] is taken. *)
Definition check_condition_body (cell : cellv) (condition : pyobj) : res pyobj :=
  match condition with
  | PDict d =>
      let operator := dict_get_default "operator" (PStr "==") d in
      let target := dict_get_default "value" PNone d in
      match cell with
      | None => Ok (PBool (op_is operator "is_null"))
      | Some v =>
          if op_is operator "==" then Ok (PBool (py_eq v target))
          else if op_is operator "!=" then Ok (PBool (negb (py_eq v target)))
          else if op_is operator ">" then float_compare (fun a b => fl_ltb b a) v target
          else if op_is operator "<" then float_compare fl_ltb v target
          else if op_is operator ">=" then float_compare (fun a b => fl_leb b a) v target
          else if op_is operator "<=" then float_compare fl_leb v target
          else if op_is operator "contains" then
            Ok (PBool (str_contains (lower rt (str_of_obj rt target))
                                    (lower rt (str_of_value v))))
          else if op_is operator "in" then
            b <- py_in v target ;; Ok (PBool b)
          else if op_is operator "is_null" then Ok (PBool false)
          else if op_is operator "date_in_month" then
            Ok (PBool (check_date_in_month rt v target))
          else if op_is operator "date_in_previous_month" then
            Ok (PBool (check_date_in_previous_month rt v target))
          else Ok PNone
      end
  | _ =>
      match cell with
      | None => Ok (PBool false)
      | Some v => Ok (PBool (py_eq v condition))
      end
  end.

(** [_check_condition]: [except Exception: return False]. *)
Definition _check_condition (cell : cellv) (condition : pyobj) : pyobj :=
  match check_condition_body cell condition with
  | Ok r => r
  | Raise => PBool false
  end.

(** The test [if self._check_condition(value, condition):] of the callers. *)
Definition matches (cell : cellv) (condition : pyobj) : bool :=
  truthy (_check_condition cell condition).

End CheckCondition.

End Condition.

(** ** The operations of pandas the engine calls

    The comparison of a column with a scalar operand follows the dtype
    of the column.  A missing cell compares false (true under [!=]), and
    so does every cell against a missing operand.  A column of numbers
    against a text is unequal everywhere and refuses an ordering with
    [TypeError]; in a column of objects the cells are compared one by
    one, and an ordering between a text and a number raises. *)

Module Pandas.

Section Comparisons.

Variable rt : PyRuntime.

Definition num_cmp (op : cmpop) (a b : Qc) : bool :=
  match op with
  | CEq => qc_eqb a b
  | CNe => negb (qc_eqb a b)
  | CGt => qc_ltb b a
  | CLt => qc_ltb a b
  | CGe => qc_leb b a
  | CLe => qc_leb a b
  end.

Definition fl_cmp (op : cmpop) (a b : pyfloat) : bool :=
  match op with
  | CEq => fl_eqb a b
  | CNe => negb (fl_eqb a b)
  | CGt => fl_ltb b a
  | CLt => fl_ltb a b
  | CGe => fl_leb b a
  | CLe => fl_leb a b
  end.

Definition str_cmp (op : cmpop) (a b : string) : bool :=
  match op with
  | CEq => String.eqb a b
  | CNe => negb (String.eqb a b)
  | CGt => String.ltb b a
  | CLt => String.ltb a b
  | CGe => String.leb b a
  | CLe => String.leb a b
  end.

Definition is_ordering (op : cmpop) : bool :=
  match op with
  | CEq | CNe => false
  | _ => true
  end.

(** The answer for a pair that does not compare: unequal. *)
Definition unequal (op : cmpop) : bool :=
  match op with
  | CNe => true
  | _ => false
  end.

(** A number of a column of objects against a scalar operand: Python
    compares an [int] and a [float] exactly. *)
Definition python_number (op : cmpop) (q : Qc) (target : pyobj) : res bool :=
  match target with
  | PInt z => Ok (num_cmp op q (Z2Qc z))
  | PBool b => Ok (num_cmp op q (Z2Qc (if b then 1 else 0)))
  | PFloat f => Ok (fl_cmp op (FNum q) f)
  | _ => if is_ordering op then Raise else Ok (unequal op)
  end.

(** A number of a column of numbers against a number: numpy compares
    doubles, which is exact as long as the whole numbers involved do not
    exceed [2^53]. *)
Definition numpy_number (op : cmpop) (q : Qc) (target : pyobj) : res bool :=
  match target with
  | PInt z =>
      if (Z.abs z <=? 2 ^ 53)%Z then Ok (num_cmp op q (Z2Qc z))
      else numpy_compare rt op q target
  | PBool b => Ok (num_cmp op q (Z2Qc (if b then 1 else 0)))
  | PFloat (FNum p) =>
      if qc_small_int q || negb (Pos.eqb (Qden (this q)) 1) then Ok (num_cmp op q p)
      else numpy_compare rt op q target
  | PFloat f => Ok (fl_cmp op (FNum q) f)
  | _ => Raise
  end.

Definition compare_cell (op : cmpop) (dt : dtype) (c : cellv) (target : pyobj) : res bool :=
  match c with
  | None => Ok (unequal op)
  | Some (VStr a) =>
      match target with
      | PStr b => Ok (str_cmp op a b)
      | _ => if is_ordering op then Raise else Ok (unequal op)
      end
  | Some (VNum q) =>
      match dt with
      | Numeric => numpy_number op q target
      | Object => python_number op q target
      end
  end.

Fixpoint map_res {A B : Type} (f : A -> res B) (l : list A) : res (list B) :=
  match l with
  | [] => Ok []
  | x :: l' => y <- f x ;; ys <- map_res f l' ;; Ok (y :: ys)
  end.

(** [series <op> value] *)
Definition compare (op : cmpop) (dt : dtype) (s : list cellv) (target : pyobj)
  : res (list bool) :=
  match target with
  | PNone | PFloat FNaN => Ok (map (fun _ => unequal op) s)
  | PList _ | PDict _ => compare_listlike rt op dt s target
  | PStr _ =>
      match dt with
      | Numeric => if is_ordering op then Raise else Ok (map (fun _ => unequal op) s)
      | Object => map_res (fun c => compare_cell op dt c target) s
      end
  | _ => map_res (fun c => compare_cell op dt c target) s
  end.

(** A missing entry of the values of [isin]. *)
Definition is_nan (o : pyobj) : bool :=
  match o with
  | PFloat FNaN => true
  | _ => false
  end.

(** [series.isin(values)]: the operand has to be list-like; a missing
    cell is found among the values when they hold NaN; a whole number
    beyond [2^53] is looked up by numpy after its conversion. *)
Definition isin (s : list cellv) (values : pyobj) : res (list bool) :=
  match values with
  | PList l =>
      Ok (map (fun c => match c with
                        | Some (VNum q) =>
                            if qc_small_int q || negb (Pos.eqb (Qden (this q)) 1)
                            then existsb (Condition.py_eq (VNum q)) l
                            else numpy_isin rt q l
                        | Some v => existsb (Condition.py_eq v) l
                        | None => existsb is_nan l
                        end) s)
  | PDict d =>
      Ok (map (fun c => match c with
                        | Some (VStr k) => dict_has k d
                        | _ => false
                        end) s)
  | _ => Raise
  end.

End Comparisons.

(** [df.head(n)] and [df.tail(n)] on the rows. *)
Definition head {A : Type} (n : Z) (l : list A) : list A :=
  if (0 <=? n)%Z then firstn (Z.to_nat n) l
  else firstn (List.length l - Z.to_nat (- n)) l.

Definition tail {A : Type} (n : Z) (l : list A) : list A :=
  if (n =? 0)%Z then []
  else if (0 <? n)%Z then skipn (List.length l - Z.to_nat n) l
  else skipn (Z.to_nat (- n)) l.

(** [df.drop(df.index[positions])]: the rows at the positions go. *)
Fixpoint drop_positions {A : Type} (positions : list nat) (i : nat) (l : list A) : list A :=
  match l with
  | [] => []
  | x :: l' =>
      if existsb (Nat.eqb i) positions then drop_positions positions (S i) l'
      else x :: drop_positions positions (S i) l'
  end.

End Pandas.

(** ** Row-level operations of a single table: [ExcelOperations] *)

Module ExcelOperations.

Import Pandas.

Section DataOperations.

Variable rt : PyRuntime.

(** The mask [df[column] <operator> value] of both [_apply_filter] and
    [_check_condition_mask]: [Ok None] stands for the Python value [None]
    the functions return when no branch is taken. *)
Definition condition_mask (dt : dtype) (s : list cellv) (condition : pyobj)
  : res (option (list bool)) :=
  match condition with
  | PDict d =>
      let operator := dict_get_default "operator" (PStr "==") d in
      let value := dict_get_default "value" PNone d in
      if Condition.op_is operator "==" then m <- compare rt CEq dt s value ;; Ok (Some m)
      else if Condition.op_is operator "!=" then m <- compare rt CNe dt s value ;; Ok (Some m)
      else if Condition.op_is operator ">" then m <- compare rt CGt dt s value ;; Ok (Some m)
      else if Condition.op_is operator "<" then m <- compare rt CLt dt s value ;; Ok (Some m)
      else if Condition.op_is operator ">=" then m <- compare rt CGe dt s value ;; Ok (Some m)
      else if Condition.op_is operator "<=" then m <- compare rt CLe dt s value ;; Ok (Some m)
      else if Condition.op_is operator "contains" then
        m <- map_res (fun c => re_search_nocase rt (str_of_obj rt value)
                                 match c with
                                 | Some v => Condition.str_of_value rt v
                                 | None => "nan"
                                 end) s ;;
        Ok (Some m)
      else if Condition.op_is operator "in" then m <- isin rt s value ;; Ok (Some m)
      else Ok None
  | _ => m <- compare rt CEq dt s condition ;; Ok (Some m)
  end.

(** [_apply_filter]: the rows of the mask; the table itself when the
    evaluation raises; [None] when the operator is not one of the chain. *)
Definition _apply_filter (df : DataFrame) (column : string) (condition : pyobj)
  : option DataFrame :=
  match condition_mask (dtype_of column df) (series column df) condition with
  | Ok (Some mask) => Some (df_select mask df)
  | Ok None => None
  | Raise => Some df
  end.

(** [_check_condition_mask]: an all-false mask when the evaluation
    raises. *)
Definition _check_condition_mask (dt : dtype) (s : list cellv) (condition : pyobj)
  : option (list bool) :=
  match condition_mask dt s condition with
  | Ok m => m
  | Raise => Some (repeat false (List.length s))
  end.

(** [key in container] for a string key. *)
Definition py_has_key (k : string) (o : pyobj) : res bool :=
  match o with
  | PDict d => Ok (dict_has k d)
  | PList l => Ok (existsb (fun x => match x with PStr s => String.eqb s k | _ => false end) l)
  | PStr s => Ok (str_contains k s)
  | _ => Raise
  end.

(** [container[key]] for a string key: only a dict answers. *)
Definition py_getitem (k : string) (o : pyobj) : res pyobj :=
  match o with
  | PDict d => match dict_get k d with Some v => Ok v | None => Raise end
  | _ => Raise
  end.

(** [[i - 1 for i in row_numbers if 0 < i <= len(df)]] *)
Definition row_number_index (n : nat) (o : pyobj) : res (list nat) :=
  let of_int (z : Z) :=
    if ((0 <? z) && (z <=? Z.of_nat n))%Z then Ok [Z.to_nat (z - 1)] else Ok [] in
  match o with
  | PInt z => of_int z
  | PBool b => of_int (if b then 1 else 0)%Z
  | PFloat f =>
      if fl_ltb (FNum (Z2Qc 0)) f && fl_leb f (FNum (Z2Qc (Z.of_nat n))) then Raise else Ok []
  | _ => Raise
  end.

Definition indices_to_drop (n : nat) (row_numbers : pyobj) : res (list nat) :=
  match row_numbers with
  | PList l => ls <- map_res (row_number_index n) l ;; Ok (List.concat ls)
  | PStr s => if String.eqb s "" then Ok [] else Raise
  | PDict d => match d with [] => Ok [] | _ => Raise end
  | _ => Raise
  end.

(** [column in df.columns] for an arbitrary object: a list or a dict is
    not hashable. *)
Definition py_in_columns (column : pyobj) (df : DataFrame) : res bool :=
  match column with
  | PStr c => Ok (has_column c df)
  | PList _ | PDict _ => Raise
  | _ => Ok false
  end.

Definition column_name (column : pyobj) : string :=
  match column with
  | PStr c => c
  | _ => ""
  end.

Definition step_remove_last_row (operations : pydict) (df : DataFrame) : DataFrame :=
  if truthy (dict_get_default "remove_last_row" PNone operations)
  then if (0 <? len df)%nat then with_rows df (removelast (rows df)) else df
  else df.

Definition step_delete_rows (operations : pydict) (df : DataFrame) : res DataFrame :=
  match dict_get "delete_rows" operations with
  | None => Ok df
  | Some delete_spec =>
      by_numbers <- py_has_key "row_numbers" delete_spec ;;
      if by_numbers then
        row_numbers <- py_getitem "row_numbers" delete_spec ;;
        idx <- indices_to_drop (len df) row_numbers ;;
        match idx with
        | [] => Ok df
        | _ => Ok (with_rows df (drop_positions idx 0 (rows df)))
        end
      else
        has_col <- py_has_key "column" delete_spec ;;
        has_cond <- (if has_col then py_has_key "condition" delete_spec else Ok false) ;;
        if has_cond then
          column <- py_getitem "column" delete_spec ;;
          condition <- py_getitem "condition" delete_spec ;;
          present <- py_in_columns column df ;;
          if present then
            match _check_condition_mask (dtype_of (column_name column) df)
                    (series (column_name column) df) condition with
            | Some mask => Ok (df_select (map negb mask) df)
            | None => Raise
            end
          else Ok df
        else Ok df
  end.

(** The loop over [filter_ops.items()]: once [_apply_filter] has answered
    [None], the next access to [df.columns] raises. *)
Fixpoint filter_loop (items : pydict) (df : option DataFrame) : res (option DataFrame) :=
  match items with
  | [] => Ok df
  | (column, condition) :: items' =>
      match df with
      | None => Raise
      | Some t =>
          if has_column column t then filter_loop items' (_apply_filter t column condition)
          else filter_loop items' df
      end
  end.

Definition step_filter (operations : pydict) (df : DataFrame) : res (option DataFrame) :=
  match dict_get "filter" operations with
  | Some (PDict filter_ops) => filter_loop filter_ops (Some df)
  | _ => Ok (Some df)
  end.

Definition step_sort (operations : pydict) (df : option DataFrame) : res (option DataFrame) :=
  match dict_get "sort" operations with
  | Some (PDict sort_ops) =>
      let by_ := dict_get_default "by" (PList []) sort_ops in
      let ascending := dict_get_default "ascending" (PBool true) sort_ops in
      if truthy by_ then
        match df with
        | Some t => t' <- sort_values rt by_ ascending t ;; Ok (Some t')
        | None => Raise
        end
      else Ok df
  | _ => Ok df
  end.

(** [df.head(n)]: a whole number, or [None] for all rows; the slice
    refuses a boolean. *)
Definition step_top_n (operations : pydict) (df : option DataFrame) : res (option DataFrame) :=
  match dict_get "top_n" operations with
  | None => Ok df
  | Some n =>
      match df, n with
      | Some t, PInt z => Ok (Some (with_rows t (head z (rows t))))
      | Some t, PNone => Ok (Some t)
      | _, _ => Raise
      end
  end.

Definition step_bottom_n (operations : pydict) (df : option DataFrame) : res (option DataFrame) :=
  match dict_get "bottom_n" operations with
  | None => Ok df
  | Some n =>
      match df, n with
      | Some t, PInt z => Ok (Some (with_rows t (tail z (rows t))))
      | Some t, PBool b => Ok (Some (with_rows t (tail (if b then 1 else 0)%Z (rows t))))
      | _, _ => Raise
      end
  end.

(** [_apply_data_operations]: the value returned is a table, or [None]
    when a filter had an unknown operator and nothing ran after it. *)
Definition _apply_data_operations (df : DataFrame) (operations : pydict)
  : res (option DataFrame) :=
  let df1 := step_remove_last_row operations df in
  df2 <- step_delete_rows operations df1 ;;
  df3 <- step_filter operations df2 ;;
  df4 <- step_sort operations df3 ;;
  df5 <- step_top_n operations df4 ;;
  step_bottom_n operations df5.

End DataOperations.

(** ** Worksheets and cosmetic operations *)

(** The value of a worksheet cell: a text or a number, which may be an
    infinity or NaN; an empty cell has none. *)
Inductive wvalue : Type :=
| WStr (s : string)
| WNum (f : pyfloat).

(** A cell of an openpyxl worksheet: its value, the ARGB code of a solid
    fill (if any), the bold flag of its font and its number format. *)
Record cell : Type := mkCell {
  cvalue : option wvalue;
  cfill : option string;
  cbold : bool;
  cnumfmt : string
}.

Definition empty_cell : cell := mkCell None None false "General".

(** Rows from the top; row 1 is the header.  Rows and columns are
    numbered from 1 as in openpyxl. *)
Definition worksheet := list (list cell).

Definition max_row (ws : worksheet) : nat := List.length ws.
Definition max_column (ws : worksheet) : nat := list_max (map (@List.length cell) ws).

(** [ws.cell(row=r, column=c)] read: a cell that does not exist yet
    reads as the empty cell. *)
Definition ws_cell (ws : worksheet) (r c : nat) : cell :=
  nth (c - 1) (nth (r - 1) ws []) empty_cell.

Fixpoint update_nth {A : Type} (d : A) (f : A -> A) (i : nat) (l : list A) : list A :=
  match i, l with
  | O, [] => [f d]
  | O, x :: l' => f x :: l'
  | S i', [] => d :: update_nth d f i' []
  | S i', x :: l' => x :: update_nth d f i' l'
  end.

(** A write through [ws.cell(row=r, column=c)]: the cell is created when
    it does not exist. *)
Definition ws_update (f : cell -> cell) (r c : nat) (ws : worksheet) : worksheet :=
  update_nth [] (update_nth empty_cell f (c - 1)) (r - 1) ws.

Definition set_fill (code : string) (x : cell) : cell :=
  mkCell (cvalue x) (Some code) (cbold x) (cnumfmt x).
Definition set_value (v : option wvalue) (x : cell) : cell :=
  mkCell v (cfill x) (cbold x) (cnumfmt x).
Definition set_bold (x : cell) : cell :=
  mkCell (cvalue x) (cfill x) true (cnumfmt x).
Definition set_numfmt (fmt : string) (x : cell) : cell :=
  mkCell (cvalue x) (cfill x) (cbold x) fmt.

(** [ws.insert_rows(idx)]: an empty row comes before row [idx]. *)
Definition insert_rows (idx : nat) (ws : worksheet) : worksheet :=
  firstn (idx - 1) ws ++ [[]] ++ skipn (idx - 1) ws.

(** The value [dataframe_to_rows] hands to [ws.cell]: a missing value
    stays NaN. *)
Definition row_value (v : cellv) : option wvalue :=
  match v with
  | Some (VStr s) => Some (WStr s)
  | Some (VNum q) => Some (WNum (FNum q))
  | None => Some (WNum FNaN)
  end.

(** The value of a cell that [to_excel] has written and [load_workbook]
    read back: a missing value and an empty text leave the cell empty. *)
Definition saved_value (v : cellv) : option wvalue :=
  match v with
  | Some (VStr s) => if String.eqb s "" then None else Some (WStr s)
  | Some (VNum q) => Some (WNum (FNum q))
  | None => None
  end.

(** The worksheet written from a table through [dataframe_to_rows]: the
    header, then the rows. *)
Definition value_cell (v : cellv) : cell := mkCell (row_value v) None false "General".
Definition sheet_of (header : list cell) (df : DataFrame) : worksheet :=
  header :: map (map value_cell) (rows df).
Definition plain_header (df : DataFrame) : list cell :=
  map (fun c => value_cell (Some (VStr c))) (columns df).

(** The worksheet of a file written by [to_excel]. *)
Definition saved_cell (v : cellv) : cell := mkCell (saved_value v) None false "General".
Definition saved_sheet (header : list cell) (df : DataFrame) : worksheet :=
  header :: map (map saved_cell) (rows df).

(** [ExcelOperations.COLORS] *)
Definition COLORS : list (string * string) :=
  [ ("red", "FFFF0000"); ("green", "FF00FF00"); ("yellow", "FFFFFF00");
    ("blue", "FF0000FF"); ("orange", "FFFFA500"); ("purple", "FF800080");
    ("pink", "FFFFC0CB"); ("cyan", "FF00FFFF"); ("light_green", "FF90EE90");
    ("light_blue", "FFADD8E6"); ("light_yellow", "FFFFFFE0");
    ("light_red", "FFFFCCCB"); ("gray", "FFD3D3D3") ].

Fixpoint assoc (k : string) (l : list (string * string)) : option string :=
  match l with
  | [] => None
  | (k', v) :: l' => if String.eqb k k' then Some v else assoc k l'
  end.

(** [table.get(color, default)]: a list or a dict is not hashable. *)
Definition color_code (table : list (string * string)) (default : string) (color : pyobj)
  : res string :=
  match color with
  | PStr c => Ok (match assoc c table with Some code => code | None => default end)
  | PList _ | PDict _ => Raise
  | _ => Ok default
  end.

Section Formatting.

Variable rt : PyRuntime.

Definition fill_row (code : string) (ncols r : nat) (ws : worksheet) : worksheet :=
  fold_left (fun (w : worksheet) (c : nat) => ws_update (set_fill code) r c w)
            (seq 1 ncols) ws.

(** The loop [for idx, value in enumerate(df[column])] with the fill of a
    whole row where the test holds. *)
Definition fill_rows (code : string) (ncols start : nat) (flags : list bool) (ws : worksheet)
  : worksheet :=
  fold_left (fun (w : worksheet) (p : nat * bool) =>
               if snd p then fill_row code ncols (fst p + start) w else w)
            (combine (seq 0 (List.length flags)) flags) ws.

Fixpoint insert_desc (x : Qc) (l : list Qc) : list Qc :=
  match l with
  | [] => [x]
  | y :: l' => if qc_leb y x then x :: l else y :: insert_desc x l'
  end.

Definition sort_desc (l : list Qc) : list Qc := fold_right insert_desc [] l.

Definition numbers (s : list cellv) : list Qc :=
  flat_map (fun c => match c with Some (VNum q) => [q] | _ => [] end) s.

Definition int_of (n : pyobj) : res Z :=
  match n with
  | PInt z => Ok z
  | PBool b => Ok (if b then 1 else 0)%Z
  | _ => Raise
  end.

(** [df.nlargest(n, column)[column].values] without its missing
    entries: pandas refuses a column of dtype object, whatever it
    holds. *)
Definition nlargest (n : pyobj) (dt : dtype) (s : list cellv) : res (list Qc) :=
  match dt with
  | Object => Raise
  | Numeric => k <- int_of n ;; Ok (firstn (Z.to_nat k) (sort_desc (numbers s)))
  end.

Definition nsmallest (n : pyobj) (dt : dtype) (s : list cellv) : res (list Qc) :=
  match dt with
  | Object => Raise
  | Numeric => k <- int_of n ;; Ok (firstn (Z.to_nat k) (rev (sort_desc (numbers s))))
  end.

(** [value in top_values] on a numpy array: a missing value equals
    nothing. *)
Definition in_values (c : cellv) (vals : list Qc) : bool :=
  match c with
  | Some (VNum q) => existsb (qc_eqb q) vals
  | _ => false
  end.

Definition highlight_rows_body (ws : worksheet) (df : DataFrame) (highlight_spec : pyobj)
  (data_start_row : nat) : res worksheet :=
  match highlight_spec with
  | PDict d =>
      let column := dict_get_default "column" PNone d in
      let condition := dict_get_default "condition" PNone d in
      let color := dict_get_default "color" (PStr "yellow") d in
      present <- (if truthy column then py_in_columns column df else Ok false) ;;
      if negb present then Ok ws
      else
        code <- color_code COLORS "FFFFFF00" color ;;
        let s := series (column_name column) df in
        let ncols := List.length (columns df) in
        operator_str <-
          match condition with
          | PDict c =>
              match dict_get_default "operator" (PStr "") c with
              | PStr o => Ok (remove_char "_" (upper rt o))
              | _ => Raise
              end
          | _ => Ok ""
          end ;;
        if String.eqb operator_str "TOPN" || String.eqb operator_str "BOTTOMN" then
          let n := match condition with
                   | PDict c => dict_get_default "value" (PInt 5) c
                   | _ => PInt 5
                   end in
          let dt := dtype_of (column_name column) df in
          top_values <- (if str_contains "TOP" operator_str
                         then nlargest n dt s else nsmallest n dt s) ;;
          Ok (fill_rows code ncols data_start_row
                        (map (fun v => in_values v top_values) s) ws)
        else
          Ok (fill_rows code ncols data_start_row
                        (map (fun v => Condition.matches rt v condition) s) ws)
  | _ => Raise
  end.

(** [_highlight_rows]: every exception is logged and swallowed; none can
    occur once the first fill is written. *)
Definition _highlight_rows (ws : worksheet) (df : DataFrame) (highlight_spec : pyobj)
  (data_start_row : nat) : worksheet :=
  match highlight_rows_body ws df highlight_spec data_start_row with
  | Ok ws' => ws'
  | Raise => ws
  end.

(** The inner loop [for rule in rules] on one cell: the fill of the first
    rule whose condition holds, [None] when no rule matches. *)
Fixpoint first_rule (value : cellv) (rules : list pyobj) : res (option string) :=
  match rules with
  | [] => Ok None
  | PDict r :: rules' =>
      let condition := dict_get_default "condition" PNone r in
      let color := dict_get_default "color" (PStr "yellow") r in
      if Condition.matches rt value condition
      then code <- color_code COLORS "FFFFFF00" color ;; Ok (Some code)
      else first_rule value rules'
  | _ :: _ => Raise
  end.

(** The objects a [for] loop over [rules] goes through. *)
Definition iterate (o : pyobj) : res (list pyobj) :=
  match o with
  | PList l => Ok l
  | PDict d => Ok (map (fun p => PStr (fst p)) d)
  | PStr s => Ok (map PStr (str_chars s))
  | _ => Raise
  end.

(** The outer loop over the cells of the column, from row [r] on: an
    exception ends it and leaves the fills already written. *)
Fixpoint format_cells (rules : pyobj) (col_idx r : nat) (s : list cellv) (ws : worksheet)
  : worksheet :=
  match s with
  | [] => ws
  | value :: s' =>
      match (rs <- iterate rules ;; first_rule value rs) with
      | Raise => ws
      | Ok None => format_cells rules col_idx (S r) s' ws
      | Ok (Some code) =>
          format_cells rules col_idx (S r) s' (ws_update (set_fill code) r col_idx ws)
      end
  end.

Definition _apply_conditional_formatting (ws : worksheet) (df : DataFrame)
  (format_spec : pyobj) (data_start_row : nat) : worksheet :=
  match format_spec with
  | PDict d =>
      let column := dict_get_default "column" PNone d in
      let rules := dict_get_default "rules" (PList []) d in
      match (if truthy column then py_in_columns column df else Ok false) with
      | Ok true =>
          match get_loc (column_name column) (columns df) with
          | Some i =>
              format_cells rules (i + 1) data_start_row
                           (series (column_name column) df) ws
          | None => ws
          end
      | _ => ws
      end
  | _ => ws
  end.

End Formatting.

(** ** Subtotal rows *)

Record group : Type := mkGroup {
  name : option wvalue;
  start_row : nat;
  end_row : nat;
  insert_at : nat
}.

Section Subtotals.

Variable rt : PyRuntime.

(** [a == b] on the values of two cells: NaN equals nothing. *)
Definition wvalue_eqb (a b : option wvalue) : bool :=
  match a, b with
  | Some (WStr s), Some (WStr t) => String.eqb s t
  | Some (WNum f), Some (WNum g) => fl_eqb f g
  | None, None => true
  | _, _ => false
  end.

(** One turn of the scan [for row_idx in range(2, ws.max_row + 1)]; the
    state is [(current_group, group_start_row, groups)].  The code takes
    [current_group is not None] for "a group is open". *)
Definition scan_step (ws : worksheet) (group_col_idx : nat)
  (st : option wvalue * nat * list group) (row_idx : nat)
  : option wvalue * nat * list group :=
  let '(current_group, group_start_row, groups) := st in
  let group_value := cvalue (ws_cell ws row_idx group_col_idx) in
  match current_group with
  | Some _ =>
      if negb (wvalue_eqb group_value current_group)
      then (group_value, row_idx,
            groups ++ [mkGroup current_group group_start_row (row_idx - 1) row_idx])
      else (group_value, group_start_row, groups)
  | None => (group_value, group_start_row, groups)
  end.

Definition find_groups (ws : worksheet) (group_col_idx : nat) : list group :=
  let '(current_group, group_start_row, groups) :=
    fold_left (scan_step ws group_col_idx) (seq 2 (max_row ws - 1)) (None, 2, []) in
  match current_group with
  | Some _ => groups ++ [mkGroup current_group group_start_row (max_row ws) (max_row ws + 1)]
  | None => groups
  end.

(** [float(value or 0)] on a worksheet cell: NaN is a true value. *)
Definition float_or_zero (c : option wvalue) : res pyfloat :=
  match c with
  | None => Ok (FNum (Z2Qc 0))
  | Some (WStr s) => if String.eqb s "" then Ok (FNum (Z2Qc 0))
                     else Condition.float_of_value rt (VStr s)
  | Some (WNum (FNum q)) => float_of_num rt q
  | Some (WNum f) => Ok f
  end.

(** [sum(values)]: 0 for no value. *)
Definition sum_floats (values : list pyfloat) : pyfloat :=
  match values with
  | [] => FNum (Z2Qc 0)
  | _ => py_sum rt values
  end.

Definition column_range (ws : worksheet) (col first last : nat) : list (option wvalue) :=
  map (fun r => cvalue (ws_cell ws r col)) (seq first (last + 1 - first)).

(** The value written into the subtotal row. *)
Definition calculated_value (function : string) (ws : worksheet)
  (agg_col_idx first last : nat) : res pyfloat :=
  let cells := column_range ws agg_col_idx first last in
  if String.eqb function "COUNT" then
    Ok (FNum (Z2Qc (Z.of_nat (List.length
           (filter (fun c : option wvalue =>
                      match c with Some _ => true | None => false end) cells)))))
  else if String.eqb function "SUM" then
    values <- Pandas.map_res float_or_zero cells ;; Ok (sum_floats values)
  else
    values <- Pandas.map_res float_or_zero cells ;;
    match values with
    | [] => Ok (FNum (Z2Qc 0))
    | _ => Ok (py_div rt (py_sum rt values) (List.length values))
    end.

(** [str(x)] for the value of a cell *)
Definition str_of_wvalue (v : option wvalue) : string :=
  match v with
  | Some (WStr s) => s
  | Some (WNum (FNum q)) => str_of_num rt q
  | Some (WNum (FInf false)) => "inf"
  | Some (WNum (FInf true)) => "-inf"
  | Some (WNum FNaN) => "nan"
  | None => "None"
  end.

Definition label_of (suffix : string) (group_name : option wvalue) : string :=
  String.append (str_of_wvalue group_name) suffix.

Definition style_subtotal (x : cell) : cell :=
  mkCell (cvalue x) (Some "FFE0E0E0") true (cnumfmt x).

(** The body of the loop [for group in reversed(groups)]; [false] when
    an exception leaves the body, with the worksheet as it then is. *)
Definition subtotal_step (suffix function : string) (group_col_idx agg_col_idx : nat)
  (g : group) (ws : worksheet) : worksheet * bool :=
  let insert_row := insert_at g in
  let ws1 := insert_rows insert_row ws in
  let ws2 := ws_update (set_value (Some (WStr (label_of suffix (name g)))))
                       insert_row group_col_idx ws1 in
  match calculated_value function ws2 agg_col_idx (start_row g) (end_row g) with
  | Raise => (ws2, false)
  | Ok v =>
      let fmt := if String.eqb function "COUNT" then "0" else "0.00" in
      let ws3 := ws_update (fun x => set_numfmt fmt (set_value (Some (WNum v)) x))
                           insert_row agg_col_idx ws2 in
      (fold_left (fun (w : worksheet) (col : nat) => ws_update style_subtotal insert_row col w)
                 (seq 1 (max_column ws3)) ws3, true)
  end.

Fixpoint subtotal_loop (suffix function : string) (group_col_idx agg_col_idx : nat)
  (gs : list group) (ws : worksheet) : worksheet * bool :=
  match gs with
  | [] => (ws, true)
  | g :: gs' =>
      let '(ws', ok) := subtotal_step suffix function group_col_idx agg_col_idx g ws in
      if ok then subtotal_loop suffix function group_col_idx agg_col_idx gs' ws'
      else (ws', false)
  end.

(** The statements shared by [ExcelOperations._apply_subtotals] and
    [_apply_subtotals_to_sheet] of the multi-sheet handler, which differ
    in the suffix of the label. *)
Definition subtotals_body (suffix : string) (ws : worksheet) (df : DataFrame)
  (subtotal_spec : pyobj) : worksheet * bool :=
  match subtotal_spec with
  | PDict d =>
      let group_by := dict_get_default "group_by" PNone d in
      let aggregate_column := dict_get_default "aggregate_column" PNone d in
      match dict_get_default "function" (PStr "count") d with
      | PStr f =>
          let function := upper rt f in
          match (if truthy group_by then py_in_columns group_by df else Ok false) with
          | Raise => (ws, false)
          | Ok false => (ws, true)
          | Ok true =>
              match (if truthy aggregate_column then py_in_columns aggregate_column df
                     else Ok false) with
              | Raise => (ws, false)
              | Ok false => (ws, true)
              | Ok true =>
                  match get_loc (column_name group_by) (columns df),
                        get_loc (column_name aggregate_column) (columns df) with
                  | Some gi, Some ai =>
                      subtotal_loop suffix function (gi + 1) (ai + 1)
                                    (rev (find_groups ws (gi + 1))) ws
                  | _, _ => (ws, false)
                  end
              end
          end
      | _ => (ws, false)
      end
  | _ => (ws, false)
  end.

(** [ExcelOperations._apply_subtotals]: the worksheet is changed in
    place, the caller saves it whatever happened. *)
Definition _apply_subtotals (ws : worksheet) (df : DataFrame) (subtotal_spec : pyobj)
  : worksheet :=
  fst (subtotals_body " Subtotal" ws df subtotal_spec).

End Subtotals.

End ExcelOperations.

(** ** Workbooks with several sheets: multi_sheet_handler.py *)

Module MultiSheet.

Import ExcelOperations.

Import Pandas.

Record sheet : Type := mkSheet {
  sheet_name : string;
  df : DataFrame
}.

(** A saved workbook: the worksheets by name, in tab order. *)
Definition workbook := list (string * worksheet).

Fixpoint wb_get (n : string) (wb : workbook) : option worksheet :=
  match wb with
  | [] => None
  | (n', ws) :: wb' => if String.eqb n n' then Some ws else wb_get n wb'
  end.

Fixpoint wb_set (n : string) (ws : worksheet) (wb : workbook) : workbook :=
  match wb with
  | [] => []
  | (n', ws') :: wb' =>
      if String.eqb n n' then (n', ws) :: wb' else (n', ws') :: wb_set n ws wb'
  end.

Fixpoint find_df (n : string) (sheets : list sheet) : option DataFrame :=
  match sheets with
  | [] => None
  | s :: sheets' => if String.eqb (sheet_name s) n then Some (df s) else find_df n sheets'
  end.

Section Operations.

Variable rt : PyRuntime.

(** [[r - 1 for r in row_numbers if 0 <= r - 1 < len(df_result)]] *)
Definition row_number_index (n : nat) (o : pyobj) : res (list nat) :=
  let of_int (z : Z) :=
    if ((0 <=? z - 1) && (z - 1 <? Z.of_nat n))%Z then Ok [Z.to_nat (z - 1)] else Ok [] in
  match o with
  | PInt z => of_int z
  | PBool b => of_int (if b then 1 else 0)%Z
  | PFloat f =>
      if fl_leb (FNum (Z2Qc 1)) f && fl_ltb f (FNum (Z2Qc (Z.of_nat n + 1))) then Raise
      else Ok []
  | _ => Raise
  end.

Definition indices_to_drop (n : nat) (row_numbers : pyobj) : res (list nat) :=
  match row_numbers with
  | PList l => ls <- map_res (row_number_index n) l ;; Ok (List.concat ls)
  | PStr s => if String.eqb s "" then Ok [] else Raise
  | PDict d => match d with [] => Ok [] | _ => Raise end
  | _ => Raise
  end.

Definition as_list (value : pyobj) : pyobj :=
  match value with
  | PList _ => value
  | _ => PList [value]
  end.

(** The mask of the chain of [if operator == ...], [None] when no branch
    assigns one. *)
Definition operator_mask (dt : dtype) (s : list cellv) (operator value : pyobj)
  : res (option (list bool)) :=
  if Condition.op_is operator "==" then m <- compare rt CEq dt s value ;; Ok (Some m)
  else if Condition.op_is operator "!=" then m <- compare rt CNe dt s value ;; Ok (Some m)
  else if Condition.op_is operator "in" then m <- isin rt s (as_list value) ;; Ok (Some m)
  else if Condition.op_is operator ">" then m <- compare rt CGt dt s value ;; Ok (Some m)
  else if Condition.op_is operator "<" then m <- compare rt CLt dt s value ;; Ok (Some m)
  else if Condition.op_is operator ">=" then m <- compare rt CGe dt s value ;; Ok (Some m)
  else if Condition.op_is operator "<=" then m <- compare rt CLe dt s value ;; Ok (Some m)
  else Ok None.

Definition step_delete_rows (operations : pydict) (t : DataFrame) : res DataFrame :=
  match dict_get "delete_rows" operations with
  | None => Ok t
  | Some delete_spec =>
      by_numbers <- ExcelOperations.py_has_key "row_numbers" delete_spec ;;
      if by_numbers then
        row_numbers <- ExcelOperations.py_getitem "row_numbers" delete_spec ;;
        idx <- indices_to_drop (len t) row_numbers ;;
        Ok (with_rows t (drop_positions idx 0 (rows t)))
      else
        has_col <- ExcelOperations.py_has_key "column" delete_spec ;;
        has_cond <- (if has_col then ExcelOperations.py_has_key "condition" delete_spec
                     else Ok false) ;;
        if has_cond then
          column <- ExcelOperations.py_getitem "column" delete_spec ;;
          condition <- ExcelOperations.py_getitem "condition" delete_spec ;;
          present <- ExcelOperations.py_in_columns column t ;;
          if present then
            match condition with
            | PDict c =>
                let operator := dict_get_default "operator" (PStr "==") c in
                let value := dict_get_default "value" PNone c in
                let s := series (ExcelOperations.column_name column) t in
                m <- operator_mask (dtype_of (ExcelOperations.column_name column) t)
                       s operator value ;;
                match m with
                | Some mask => Ok (df_select (map negb mask) t)
                | None => Ok (df_select (map negb (repeat false (List.length s))) t)
                end
            | _ => Raise
            end
          else Ok t
        else Ok t
  end.

Fixpoint filter_loop (items : pydict) (t : DataFrame) : res DataFrame :=
  match items with
  | [] => Ok t
  | (column, condition) :: items' =>
      if has_column column t then
        match condition with
        | PDict c =>
            let operator := dict_get_default "operator" (PStr "==") c in
            let value := dict_get_default "value" PNone c in
            m <- operator_mask (dtype_of column t) (series column t) operator value ;;
            match m with
            | Some mask => filter_loop items' (df_select mask t)
            | None => filter_loop items' t
            end
        | _ => filter_loop items' t
        end
      else filter_loop items' t
  end.

Definition step_filter (operations : pydict) (t : DataFrame) : res DataFrame :=
  match dict_get "filter" operations with
  | None => Ok t
  | Some (PDict filter_ops) => filter_loop filter_ops t
  | Some _ => Raise
  end.

Definition step_sort (operations : pydict) (t : DataFrame) : res DataFrame :=
  match dict_get "sort" operations with
  | None => Ok t
  | Some (PDict sort_spec) =>
      let by_columns := dict_get_default "by" (PList []) sort_spec in
      let ascending := dict_get_default "ascending" (PBool true) sort_spec in
      if truthy by_columns then
        cols <- ExcelOperations.iterate by_columns ;;
        keep <- map_res (fun c => ExcelOperations.py_in_columns c t) cols ;;
        match select keep cols with
        | [] => Ok t
        | valid_columns => sort_values rt (PList valid_columns) ascending t
        end
      else Ok t
  | Some _ => Raise
  end.

(** [_apply_operations_to_dataframe] *)
Definition _apply_operations_to_dataframe (t : DataFrame) (operations : pydict)
  : res DataFrame :=
  let t1 := ExcelOperations.step_remove_last_row operations t in
  t2 <- step_delete_rows operations t1 ;;
  t3 <- step_filter operations t2 ;;
  step_sort operations t3.

(** The test of the loop of [handle_multi_sheet_operation] that decides
    whether a sheet is processed. *)
Definition should_process (operations : pydict) (n : string) : res bool :=
  let target_sheet := dict_get_default "target_sheet" PNone operations in
  let apply_to_all_sheets := dict_get_default "apply_to_all_sheets" (PBool false) operations in
  if truthy apply_to_all_sheets then Ok true
  else if truthy target_sheet then
    match target_sheet with
    | PStr t => Ok (String.eqb (lower rt n) (lower rt t))
    | _ => Raise
    end
  else Ok true.

(** The loop [for sheet_info in sheets_data] that builds
    [processed_sheets]. *)
Fixpoint process_sheets (operations : pydict) (sheets_data : list sheet) : res (list sheet) :=
  match sheets_data with
  | [] => Ok []
  | s :: rest =>
      go <- should_process operations (sheet_name s) ;;
      df_processed <- (if go then _apply_operations_to_dataframe (df s) operations
                       else Ok (df s)) ;;
      out <- process_sheets operations rest ;;
      Ok (mkSheet (sheet_name s) df_processed :: out)
  end.

(** The sheet an operation of the saved workbook is aimed at: the value
    of [target_sheet], the first sheet without one. *)
Definition target_of (spec : pydict) (sheets : list sheet) : res pyobj :=
  let t := dict_get_default "target_sheet" PNone spec in
  if truthy t then Ok t
  else match sheets with
       | s :: _ => Ok (PStr (sheet_name s))
       | [] => Raise
       end.

(** [_apply_subtotals_to_sheet]: the workbook is saved at the end only, an
    exception leaves the file as it was. *)
Definition _apply_subtotals_to_sheet (wb : workbook) (subtotal_spec : pyobj)
  (sheets : list sheet) : workbook :=
  match subtotal_spec with
  | PDict d =>
      match target_of d sheets with
      | Ok (PStr target_sheet_name) =>
          match wb_get target_sheet_name wb, find_df target_sheet_name sheets with
          | Some ws, Some t =>
              match ExcelOperations.subtotals_body rt " Count" ws t subtotal_spec with
              | (ws', true) => wb_set target_sheet_name ws' wb
              | (_, false) => wb
              end
          | _, _ => wb
          end
      | _ => wb
      end
  | _ => wb
  end.

(** The colours of [_apply_conditional_format_to_sheet] *)
Definition color_map : list (string * string) :=
  [ ("red", "FFFF0000"); ("green", "FF00FF00"); ("yellow", "FFFFFF00");
    ("blue", "FF0000FF"); ("orange", "FFFFA500"); ("purple", "FF800080");
    ("amber", "FFFFBF00") ].

(** [cell_value == value] on a worksheet cell: an empty cell is [None]. *)
Definition cell_eq (c : option wvalue) (value : pyobj) : bool :=
  match c, value with
  | Some (WStr s), PStr t => String.eqb s t
  | Some (WNum f), PInt z => fl_eqb f (FNum (Z2Qc z))
  | Some (WNum f), PFloat g => fl_eqb f g
  | Some (WNum f), PBool b => fl_eqb f (FNum (Z2Qc (if b then 1 else 0)))
  | None, PNone => true
  | _, _ => false
  end.

(** [cell_value <op> value] of Python for a cell that is not empty: a
    text and a number do not compare. *)
Definition cell_order (op : cmpop) (v : wvalue) (value : pyobj) : res bool :=
  match v, value with
  | WStr a, PStr b => Ok (str_cmp op a b)
  | WNum f, PInt z => Ok (fl_cmp op f (FNum (Z2Qc z)))
  | WNum f, PFloat g => Ok (fl_cmp op f g)
  | WNum f, PBool b => Ok (fl_cmp op f (FNum (Z2Qc (if b then 1 else 0))))
  | _, _ => Raise
  end.

Definition cell_match (operator value : pyobj) (c : option wvalue) : res bool :=
  if Condition.op_is operator "==" then Ok (cell_eq c value)
  else if Condition.op_is operator "!=" then Ok (negb (cell_eq c value))
  else if Condition.op_is operator ">" then
    match c with Some v => cell_order CGt v value | None => Ok false end
  else if Condition.op_is operator "<" then
    match c with Some v => cell_order CLt v value | None => Ok false end
  else if Condition.op_is operator ">=" then
    match c with Some v => cell_order CGe v value | None => Ok false end
  else if Condition.op_is operator "<=" then
    match c with Some v => cell_order CLe v value | None => Ok false end
  else Ok false.

(** The loop [for row_idx in range(2, ws.max_row + 1)] of one rule. *)
Fixpoint rule_rows (operator value : pyobj) (code : string) (col_idx : nat)
  (row_idxs : list nat) (ws : worksheet) : res worksheet :=
  match row_idxs with
  | [] => Ok ws
  | r :: rest =>
      m <- cell_match operator value (cvalue (ExcelOperations.ws_cell ws r col_idx)) ;;
      rule_rows operator value code col_idx rest
        (if m then ExcelOperations.ws_update (ExcelOperations.set_fill code) r col_idx ws
         else ws)
  end.

(** The loop [for rule in rules]: every rule goes over all the rows. *)
Fixpoint apply_rules (rules : list pyobj) (col_idx : nat) (ws : worksheet) : res worksheet :=
  match rules with
  | [] => Ok ws
  | PDict r :: rules' =>
      match dict_get_default "condition" (PDict []) r with
      | PDict condition =>
          code <- ExcelOperations.color_code color_map "FFFFFF00"
                    (dict_get_default "color" (PStr "yellow") r) ;;
          let operator := dict_get_default "operator" (PStr "==") condition in
          let value := dict_get_default "value" PNone condition in
          ws' <- rule_rows operator value code col_idx
                   (seq 2 (ExcelOperations.max_row ws - 1)) ws ;;
          apply_rules rules' col_idx ws'
      | _ => Raise
      end
  | _ :: _ => Raise
  end.

(** One turn of [for fmt_spec in formats]. *)
Definition format_one (sheets : list sheet) (wb : workbook) (fmt_spec : pyobj) : res workbook :=
  match fmt_spec with
  | PDict d =>
      t <- target_of d sheets ;;
      match t with
      | PStr target_sheet_name =>
          match wb_get target_sheet_name wb, find_df target_sheet_name sheets with
          | Some ws, Some table =>
              let column := dict_get_default "column" PNone d in
              let rules := dict_get_default "rules" (PList []) d in
              present <- (if truthy column then ExcelOperations.py_in_columns column table
                          else Ok false) ;;
              if present then
                match get_loc (ExcelOperations.column_name column) (columns table) with
                | Some i =>
                    rs <- ExcelOperations.iterate rules ;;
                    ws' <- apply_rules rs (i + 1) ws ;;
                    Ok (wb_set target_sheet_name ws' wb)
                | None => Raise
                end
              else Ok wb
          | _, _ => Ok wb
          end
      | _ => Ok wb
      end
  | _ => Raise
  end.

Fixpoint format_all (sheets : list sheet) (formats : list pyobj) (wb : workbook) : res workbook :=
  match formats with
  | [] => Ok wb
  | f :: formats' => wb' <- format_one sheets wb f ;; format_all sheets formats' wb'
  end.

(** [_apply_conditional_format_to_sheet]: saved at the end only. *)
Definition _apply_conditional_format_to_sheet (wb : workbook) (cf_spec : pyobj)
  (sheets : list sheet) : workbook :=
  let formats := match cf_spec with PList l => l | _ => [cf_spec] end in
  match format_all sheets formats wb with
  | Ok wb' => wb'
  | Raise => wb
  end.

End Operations.

End MultiSheet.

(** ** Merging files into one workbook: full_data_agent.py *)

Module Merge.

Import ExcelOperations MultiSheet.

Record file_data : Type := mkFile {
  file_df : DataFrame;
  filename : string
}.

Definition invalid_chars : list ascii :=
  ["\"%char; "/"%char; "*"%char; "?"%char; ":"%char; "["%char; "]"%char].

(** The name of the sheet of an uploaded file, from the mapped name or
    the file name: cut to 31 characters, the characters Excel refuses
    replaced by an underscore, a trailing extension removed. *)
Definition clean_sheet_name (raw : string) : string :=
  let sheet_name := str_take 31 raw in
  let sheet_name := fold_left (fun s c => replace_char c "_"%char s) invalid_chars sheet_name in
  if endswith sheet_name ".xlsx" then str_drop_last 5 sheet_name
  else if endswith sheet_name ".xls" then str_drop_last 4 sheet_name
  else if endswith sheet_name ".csv" then str_drop_last 4 sheet_name
  else sheet_name.

Definition uploaded_sheet (sheet_name_mapping : list (string * string))
  (entry : string * file_data) : sheet :=
  let (file_id, fd) := entry in
  mkSheet (clean_sheet_name (match assoc file_id sheet_name_mapping with
                             | Some mapped => mapped
                             | None => filename fd
                             end))
          (file_df fd).

(** Whether the merge takes in the last generated file: only when the
    session has one, exactly one file is uploaded and the language model
    answers that the request refers to it. *)
Definition merge_with_last_file (last_generated_file : option (list sheet))
  (files : list (string * file_data)) (refers_to_last : bool) : bool :=
  match last_generated_file with
  | Some _ => Nat.eqb (List.length files) 1 && refers_to_last
  | None => false
  end.

(** [sheets_to_merge]: the sheets read from the last generated file (those
    that could be read, none when the merge does not take it in), then the
    uploaded files in the order of the session's dict. *)
Definition sheets_to_merge (last_generated_file : option (list sheet))
  (files : list (string * file_data)) (refers_to_last : bool)
  (sheet_name_mapping : list (string * string)) : list sheet :=
  (if merge_with_last_file last_generated_file files refers_to_last
   then match last_generated_file with Some l => l | None => [] end
   else [])
  ++ map (uploaded_sheet sheet_name_mapping) files.

(** The header row [to_excel] writes. *)
Definition excel_header (t : DataFrame) : list cell :=
  map (fun c => mkCell (Some (WStr c)) None true "General") (columns t).

Definition overlay_row (new old : list cell) : list cell :=
  new ++ skipn (List.length new) old.

Fixpoint overlay (new old : worksheet) : worksheet :=
  match new, old with
  | [], _ => old
  | _, [] => new
  | r :: new', o :: old' => overlay_row r o :: overlay new' old'
  end.

Section Writer.

Variable rt : PyRuntime.

(** [df.to_excel(writer, sheet_name=..., index=False)] on a writer opened
    for writing: when the writer has a sheet of that very name the cells
    are written over that sheet; otherwise a sheet is created at the end
    and openpyxl settles its title. *)
Definition to_excel (wb : workbook) (s : sheet) : res workbook :=
  let ws := saved_sheet (excel_header (df s)) (df s) in
  match wb_get (sheet_name s) wb with
  | Some old => Ok (wb_set (sheet_name s) (overlay ws old) wb)
  | None =>
      title <- assign_title rt (map fst wb) (sheet_name s) ;;
      Ok (wb ++ [(title, ws)])
  end.

Fixpoint write_sheets (sheets : list sheet) (wb : workbook) : res workbook :=
  match sheets with
  | [] => Ok wb
  | s :: sheets' => wb' <- to_excel wb s ;; write_sheets sheets' wb'
  end.

Definition write_workbook (sheets : list sheet) : res workbook :=
  write_sheets sheets [].

(** The workbook [_handle_merge_files_operation] saves; [Raise] stands
    for the answer without success: fewer than two files to merge, or an
    exception of the writer. *)
Definition merge_files (last_generated_file : option (list sheet))
  (files : list (string * file_data)) (refers_to_last : bool)
  (sheet_name_mapping : list (string * string)) : res workbook :=
  let total_files_to_merge :=
    List.length files
    + (if merge_with_last_file last_generated_file files refers_to_last then 1 else 0) in
  if total_files_to_merge <? 2 then Raise
  else write_workbook
         (sheets_to_merge last_generated_file files refers_to_last sheet_name_mapping).

End Writer.

End Merge.

(** ** A runtime for examples

    Numbers in text are unsigned decimal integers, a number prints as
    [<number>], a pattern is searched as plain text, no cell is a date,
    sorting and the comparisons left to the library are not provided
    (they raise), sums are exact on finite numbers, and a sheet keeps the
    name it is created under unless a sheet has that name up to ASCII
    case. *)

Fixpoint digits_value (s : string) (acc : Z) : option Z :=
  match s with
  | EmptyString => Some acc
  | String c s' =>
      let n := nat_of_ascii c in
      if (48 <=? n) && (n <=? 57) then digits_value s' (10 * acc + Z.of_nat (n - 48))%Z
      else None
  end.

Definition exact_add (a b : pyfloat) : pyfloat :=
  match a, b with
  | FNum p, FNum q => FNum (p + q)%Qc
  | FNaN, _ | _, FNaN => FNaN
  | FInf x, FInf y => if Bool.eqb x y then FInf x else FNaN
  | FInf x, _ | _, FInf x => FInf x
  end.

Definition example_runtime : PyRuntime := {|
  float_of_str := fun s =>
    match s with
    | EmptyString => None
    | _ => option_map (fun z => FNum (Z2Qc z)) (digits_value s 0%Z)
    end;
  float_round := fun q => Ok (FNum q);
  str_of_num := fun q => "<number>";
  str_of_obj := fun o => match o with PStr s => s | _ => "<object>" end;
  str_lower := string_map lower_ascii;
  str_upper := string_map upper_ascii;
  str_blank := fun s => forallb is_space (list_ascii_of_string s);
  check_date_in_month := fun _ _ => false;
  check_date_in_previous_month := fun _ _ => false;
  re_search_nocase := fun p s =>
    Ok (str_contains (string_map lower_ascii p) (string_map lower_ascii s));
  sort_values := fun _ _ _ => Raise;
  compare_listlike := fun _ _ _ _ => Raise;
  numpy_compare := fun _ _ _ => Raise;
  numpy_isin := fun _ _ => false;
  py_sum := fun l => fold_left exact_add l (FNum (Z2Qc 0));
  py_div := fun f n =>
    match f with
    | FNum q => FNum (q / Z2Qc (Z.of_nat n))%Qc
    | _ => f
    end;
  assign_title := fun names n =>
    if String.eqb n "" then Raise
    else if existsb (fun m => String.eqb (string_map lower_ascii m) (string_map lower_ascii n))
                    names
         then Ok (String.append n "1")
         else Ok n
|}.

(** ** Notions used in the statements, and sample inputs *)

Definition chars (s : string) : list ascii := list_ascii_of_string s.

(** The worksheet [to_excel] leaves in the file for a table: the header
    row with the column names in bold, then one row for every row of the
    table. *)
Definition written (t : DataFrame) : ExcelOperations.worksheet :=
  map (fun c => ExcelOperations.mkCell (Some (ExcelOperations.WStr c)) None true "General")
      (columns t)
  :: map (map (fun v => ExcelOperations.mkCell (ExcelOperations.saved_value v)
                          None false "General"))
         (rows t).

Definition two_files : list (string * Merge.file_data) :=
  [ ("f1", Merge.mkFile (mkDF ["x"] [Numeric] [[Some (VNum (Z2Qc 1))]; [Some (VNum (Z2Qc 2))]]) "jan.csv");
    ("f2", Merge.mkFile (mkDF ["y"] [Object] [[Some (VStr "a")]]) "feb.csv") ].

Definition same_stem_files : list (string * Merge.file_data) :=
  [ ("f1", Merge.mkFile (mkDF ["x"] [Numeric] [[Some (VNum (Z2Qc 1))]; [Some (VNum (Z2Qc 2))]]) "report.xlsx");
    ("f2", Merge.mkFile (mkDF ["y"] [Object] [[Some (VStr "a")]]) "report.csv") ].


(** A sheet of the result against the sheet it comes from: the name is
    kept, and the table is the processed one when the routing selects the
    sheet, the original one otherwise. *)
Definition routed (rt : PyRuntime) (operations : pydict) (s o : MultiSheet.sheet) : Prop :=
  MultiSheet.sheet_name o = MultiSheet.sheet_name s
  /\ exists go, MultiSheet.should_process rt operations (MultiSheet.sheet_name s) = Ok go
                /\ if go then MultiSheet._apply_operations_to_dataframe rt (MultiSheet.df s) operations
                             = Ok (MultiSheet.df o)
                   else MultiSheet.df o = MultiSheet.df s.

(** Two sheets, and the request to drop the last row of the sheet
    [jan]. *)
Definition jan_and_feb : list MultiSheet.sheet :=
  [ MultiSheet.mkSheet "Jan"
      (mkDF ["x"] [Numeric] [[Some (VNum (Z2Qc 1))]; [Some (VNum (Z2Qc 2))]]);
    MultiSheet.mkSheet "Feb" (mkDF ["y"] [Object] [[Some (VStr "a")]]) ].

Definition drop_last_of_jan : pydict :=
  [("target_sheet", PStr "jan"); ("remove_last_row", PBool true)].

(** A one-column table with the score 10, and two rules that both hold
    for it: the first paints red, the second green. *)
Definition score_table : DataFrame :=
  mkDF ["Score"] [Numeric] [[Some (VNum (Z2Qc 10))]].

Definition greater_than (z : Z) : pyobj :=
  PDict [("operator", PStr ">"); ("value", PInt z)].

Definition two_rules : pyobj :=
  PDict [ ("column", PStr "Score");
          ("rules", PList [ PDict [("condition", greater_than 5); ("color", PStr "red")];
                            PDict [("condition", greater_than 0); ("color", PStr "green")] ]) ].

Definition score_sheet : ExcelOperations.worksheet :=
  ExcelOperations.sheet_of (Merge.excel_header score_table) score_table.

(** A column of names and the condition [> 5] on it. *)
Definition names_table : DataFrame :=
  mkDF ["Name"] [Object] [[Some (VStr "ann")]; [Some (VStr "bob")]].

Definition delete_where (column : string) (condition : pyobj) : pydict :=
  [("delete_rows", PDict [("column", PStr column); ("condition", condition)])].

(** A column of three numbers, and a specification that asks for the
    first row of those greater than 1, its keys given in the other
    order. *)
Definition numbers_table : DataFrame :=
  mkDF ["x"] [Numeric]
       [[Some (VNum (Z2Qc 3))]; [Some (VNum (Z2Qc 1))]; [Some (VNum (Z2Qc 2))]].

Definition top_of_filtered : pydict :=
  [("top_n", PInt 1); ("filter", PDict [("x", greater_than 1)])].

Definition descending (a b : Qc) : Prop := qc_leb b a = true.
Definition ascending (a b : Qc) : Prop := qc_leb a b = true.


(** The number of entries of a list greater, or smaller, than a value. *)
Definition count_greater (q : Qc) (l : list Qc) : nat :=
  List.length (filter (fun x => qc_ltb q x) l).
Definition count_smaller (q : Qc) (l : list Qc) : nat :=
  List.length (filter (fun x => qc_ltb x q) l).


(** The data rows of a sheet with the flagged rows painted. *)
Definition paint_rows (code : string) (flags : list bool)
  (data : list (list ExcelOperations.cell)) : list (list ExcelOperations.cell) :=
  map (fun p : bool * list ExcelOperations.cell =>
         if fst p then map (ExcelOperations.set_fill code) (snd p) else snd p)
      (combine flags data).

(** A cell is among the [k] largest (smallest) values of a column when it
    holds a number that fewer than [k] numbers of the column exceed (fall
    below). *)
Definition among_largest (k : Z) (s : list cellv) (c : cellv) : bool :=
  match c with
  | Some (VNum q) => count_greater q (ExcelOperations.numbers s) <? Z.to_nat k
  | _ => false
  end.

Definition among_smallest (k : Z) (s : list cellv) (c : cellv) : bool :=
  match c with
  | Some (VNum q) => count_smaller q (ExcelOperations.numbers s) <? Z.to_nat k
  | _ => false
  end.

(** Amounts with one entry that is text, and the request to highlight
    the row of the largest one. *)
Definition amounts_table : DataFrame :=
  mkDF ["Amount"] [Object]
       [[Some (VNum (Z2Qc 10))]; [Some (VStr "n/a")]; [Some (VNum (Z2Qc 30))]].

Definition highlight_top (column : string) (k : Z) : pyobj :=
  PDict [ ("column", PStr column);
          ("condition", PDict [("operator", PStr "topN"); ("value", PInt k)]);
          ("color", PStr "green") ].

(** The table of the scenario: employers A, A, B with one trainer each,
    and the request to count the trainers of every employer. *)
Definition trainers : DataFrame :=
  mkDF ["Employer"; "Trainer"] [Object; Object]
       [ [Some (VStr "A"); Some (VStr "x")];
         [Some (VStr "A"); Some (VStr "y")];
         [Some (VStr "B"); Some (VStr "z")] ].

Definition count_trainers : pydict :=
  [ ("group_by", PStr "Employer"); ("aggregate_column", PStr "Trainer");
    ("function", PStr "count") ].

Definition trainers_sheet : ExcelOperations.worksheet :=
  ExcelOperations.sheet_of (ExcelOperations.plain_header trainers) trainers.

(** The workbook the multi-sheet handler has saved for that table
    before it inserts the subtotals. *)
Definition trainers_book : MultiSheet.workbook :=
  [("Data", ExcelOperations.saved_sheet (Merge.excel_header trainers) trainers)].

(** The worksheet of an uploaded file with a title in its first row, the
    header in its second, as [_create_excel_preserving_format] leaves it
    once the rows of the table are written from the third row on. *)
Definition titled_trainers_sheet : ExcelOperations.worksheet :=
  [ExcelOperations.value_cell (Some (VStr "Training report")); ExcelOperations.empty_cell]
  :: trainers_sheet.

(** The first two cells of every row. *)
Definition two_columns (ws : ExcelOperations.worksheet)
  : list (option ExcelOperations.wvalue * option ExcelOperations.wvalue) :=
  map (fun r => (ExcelOperations.cvalue (nth 0 r ExcelOperations.empty_cell),
                 ExcelOperations.cvalue (nth 1 r ExcelOperations.empty_cell))) ws.

(** A mask pandas computes from a list or dict operand has one entry
    for every cell of the column. *)
Definition masks_fit (rt : PyRuntime) : Prop :=
  forall (op : cmpop) (dt : dtype) (s : list cellv) (target : pyobj) (m : list bool),
    compare_listlike rt op dt s target = Ok m -> List.length m = List.length s.

(** ** Further notions for the properties of the row operations *)

(** [l1] is [l2] with some entries left out, the others in their order. *)
Inductive subseq {A : Type} : list A -> list A -> Prop :=
| subseq_nil : subseq [] []
| subseq_skip : forall x l1 l2, subseq l1 l2 -> subseq l1 (x :: l2)
| subseq_keep : forall x l1 l2, subseq l1 l2 -> subseq (x :: l1) (x :: l2).

(** The rows whose number, counted from 1, is not among [numbers]. *)
Definition rows_not_numbered {A : Type} (numbers : list Z) (l : list A) : list A :=
  map snd
      (filter (fun p : nat * A => negb (existsb (Z.eqb (Z.of_nat (S (fst p)))) numbers))
              (combine (seq 0 (List.length l)) l)).

(** A specification without any of the row operations. *)
Definition no_row_operation (operations : pydict) : Prop :=
  truthy (dict_get_default "remove_last_row" PNone operations) = false
  /\ dict_get "delete_rows" operations = None
  /\ dict_get "filter" operations = None
  /\ dict_get "sort" operations = None
  /\ dict_get "top_n" operations = None
  /\ dict_get "bottom_n" operations = None.

(** The position a row number stands for, when it is a row of a table of
    [n] rows. *)
Definition valid_index (n : nat) (z : Z) : list nat :=
  if ((0 <? z) && (z <=? Z.of_nat n))%Z then [Z.to_nat (z - 1)] else [].


(** The last [n] entries of a list. *)
Definition lastn {A : Type} (n : nat) (l : list A) : list A :=
  skipn (List.length l - n) l.

Definition keep_first {A : Type} (n : option Z) (l : list A) : list A :=
  match n with
  | Some z => firstn (Z.to_nat z) l
  | None => l
  end.

Definition keep_last {A : Type} (n : option Z) (l : list A) : list A :=
  match n with
  | Some z => lastn (Z.to_nat z) l
  | None => l
  end.

(** [t] has the columns of [df] and some of its rows, in their order. *)
Definition within (t df : DataFrame) : Prop :=
  columns t = columns df /\ subseq (rows t) (rows df).

(** A condition that [_highlight_rows] does not treat as topN or
    bottomN. *)
Definition ordinary_condition (rt : PyRuntime) (condition : pyobj) : Prop :=
  match condition with
  | PDict c =>
      match dict_get_default "operator" (PStr "") c with
      | PStr o =>
          String.eqb (remove_char "_" (upper rt o)) "TOPN"
          || String.eqb (remove_char "_" (upper rt o)) "BOTTOMN" = false
      | _ => False
      end
  | _ => True
  end.

(** The fill a rule of a conditional format paints. *)
Definition rule_fill (rule : pydict) : string :=
  match ExcelOperations.color_code ExcelOperations.COLORS "FFFFFF00"
          (dict_get_default "color" (PStr "yellow") rule) with
  | Ok code => code
  | Raise => "FFFFFF00"
  end.

Definition rule_matches (rt : PyRuntime) (value : cellv) (rule : pydict) : bool :=
  Condition.matches rt value (dict_get_default "condition" PNone rule).

Definition hashable (o : pyobj) : Prop :=
  match o with
  | PList _ | PDict _ => False
  | _ => True
  end.

(** A table on which a subtotal by [g] of [a] cannot be placed. *)
Definition lacks_column (g a : string) (t : DataFrame) : Prop :=
  has_column g t = false \/ has_column a t = false.

(** ** The names a merge request gives to the uploaded files:
    [_handle_merge_files_operation] of full_data_agent.py *)

Module SheetNames.

Import Merge.

Section Names.

Variable rt : PyRuntime.

(** [s.replace(old, '')] for a non-empty [old]: the occurrences are
    removed from the left, without overlap. *)
Fixpoint remove_sub_from (old : string) (skip : nat) (s : string) : string :=
  match s with
  | EmptyString => EmptyString
  | String c s' =>
      match skip with
      | S k => remove_sub_from old k s'
      | O => if String.prefix old s
             then remove_sub_from old (String.length old - 1) s'
             else String c (remove_sub_from old 0 s')
      end
  end.

Definition remove_sub (old s : string) : string := remove_sub_from old 0 s.

Definition base_filename (original_filename : string) : string :=
  remove_char " " (remove_char "_"
    (remove_sub ".csv" (remove_sub ".xls" (remove_sub ".xlsx"
       (remove_sub "output_" (lower rt original_filename)))))).

Definition base_sheet_name (sheet_name : string) : string :=
  remove_char " " (remove_char "_" (lower rt sheet_name)).

(** The test of the inner loop. *)
Definition name_matches (original_filename sheet_name : string) : bool :=
  str_contains (base_sheet_name sheet_name) (base_filename original_filename)
  || str_contains (base_filename original_filename) (base_sheet_name sheet_name).

(** [available_sheet_names.remove(sheet_name)] *)
Fixpoint remove_first (x : string) (l : list string) : list string :=
  match l with
  | [] => []
  | y :: l' => if String.eqb y x then l' else y :: remove_first x l'
  end.

(** [sheet_name_mapping[file_id] = sheet_name] *)
Fixpoint mapping_set (k v : string) (m : list (string * string)) : list (string * string) :=
  match m with
  | [] => [(k, v)]
  | (k', v') :: m' => if String.eqb k k' then (k, v) :: m' else (k', v') :: mapping_set k v m'
  end.

(** The loop over the files: the first name still available that
    matches the file name, else the first name still available. *)
Fixpoint assign_names (files : list (string * file_data)) (available_sheet_names : list string)
  (sheet_name_mapping : list (string * string)) : list (string * string) :=
  match files with
  | [] => sheet_name_mapping
  | (file_id, fd) :: files' =>
      match find (name_matches (filename fd)) available_sheet_names with
      | Some sheet_name =>
          assign_names files' (remove_first sheet_name available_sheet_names)
                       (mapping_set file_id sheet_name sheet_name_mapping)
      | None =>
          match available_sheet_names with
          | first :: rest => assign_names files' rest (mapping_set file_id first sheet_name_mapping)
          | [] => assign_names files' [] sheet_name_mapping
          end
      end
  end.

(** The mapping built from [operations['sheet_names']], [None] when the
    key is absent: names are used only when there is one per file. *)
Definition sheet_name_mapping (custom_sheet_names : option (list string))
  (files : list (string * file_data)) : list (string * string) :=
  match custom_sheet_names with
  | Some ((_ :: _) as names) =>
      if Nat.eqb (List.length names) (List.length files)
      then assign_names files names []
      else []
  | _ => []
  end.

End Names.

End SheetNames.

(** ** One operation of a multi-operation request: full_data_agent.py *)

Module FullDataAgent.

Section Operations.

Variable rt : PyRuntime.

(** [{k: v for k, v in operation.items()
      if k not in ['apply_to_all_sheets', 'target_sheet']}] *)
Definition routing_keys : list string := ["apply_to_all_sheets"; "target_sheet"].

Definition without_routing (operation : pydict) : pydict :=
  filter (fun p : string * pyobj => negb (existsb (String.eqb (fst p)) routing_keys))
         operation.

(** [_apply_single_operation_to_df]: after the routing keys are taken
    out, the statements are those of the multi-sheet handler's
    [_apply_operations_to_dataframe]. *)
Definition _apply_single_operation_to_df (t : DataFrame) (operation : pydict)
  : res DataFrame :=
  let op := without_routing operation in
  let t1 := ExcelOperations.step_remove_last_row op t in
  t2 <- MultiSheet.step_delete_rows rt op t1 ;;
  t3 <- MultiSheet.step_filter rt op t2 ;;
  MultiSheet.step_sort rt op t3.

End Operations.

End FullDataAgent.

(** ** Cell and null highlighting: excel_operations.py *)

Module Highlighting.

Import ExcelOperations.

Section Cells.

Variable rt : PyRuntime.

(** The loop over the column with the fill of the one cell of the column
    where the test holds, from row [r] on. *)
Fixpoint fill_cells (code : string) (col_idx r : nat) (flags : list bool) (ws : worksheet)
  : worksheet :=
  match flags with
  | [] => ws
  | b :: flags' =>
      fill_cells code col_idx (S r) flags'
                 (if b then ws_update (set_fill code) r col_idx ws else ws)
  end.

Definition highlight_cells_body (ws : worksheet) (df : DataFrame) (highlight_spec : pyobj)
  (data_start_row : nat) : res worksheet :=
  match highlight_spec with
  | PDict d =>
      let column := dict_get_default "column" PNone d in
      let condition := dict_get_default "condition" PNone d in
      let color := dict_get_default "color" (PStr "yellow") d in
      present <- (if truthy column then py_in_columns column df else Ok false) ;;
      if negb present then Ok ws
      else
        code <- color_code COLORS "FFFFFF00" color ;;
        match get_loc (column_name column) (columns df) with
        | None => Raise
        | Some i =>
            let col_idx := i + 1 in
            let s := series (column_name column) df in
            operator_str <-
              match condition with
              | PDict c =>
                  match dict_get_default "operator" (PStr "") c with
                  | PStr o => Ok (remove_char "_" (upper rt o))
                  | _ => Raise
                  end
              | _ => Ok ""
              end ;;
            if String.eqb operator_str "TOPN" || String.eqb operator_str "BOTTOMN" then
              let n := match condition with
                       | PDict c => dict_get_default "value" (PInt 5) c
                       | _ => PInt 5
                       end in
              let dt := dtype_of (column_name column) df in
              top_values <- (if str_contains "TOP" operator_str
                             then nlargest n dt s else nsmallest n dt s) ;;
              Ok (fill_cells code col_idx data_start_row
                             (map (fun v => in_values v top_values) s) ws)
            else
              Ok (fill_cells code col_idx data_start_row
                             (map (fun v => Condition.matches rt v condition) s) ws)
        end
  | _ => Raise
  end.

(** [_highlight_cells]: every exception is logged and swallowed. *)
Definition _highlight_cells (ws : worksheet) (df : DataFrame) (highlight_spec : pyobj)
  (data_start_row : nat) : worksheet :=
  match highlight_cells_body ws df highlight_spec data_start_row with
  | Ok ws' => ws'
  | Raise => ws
  end.

End Cells.

(** [pd.isna(value)] on a cell *)
Definition isna (c : cellv) : bool :=
  match c with
  | None => true
  | Some _ => false
  end.

(** The loop [for column in columns] of [_highlight_nulls]: a column the
    table does not have is skipped, an exception ends the loop and leaves
    the fills written so far.  The rows are counted from row 2. *)
Fixpoint nulls_loop (code : string) (cols : list pyobj) (df : DataFrame) (ws : worksheet)
  : worksheet :=
  match cols with
  | [] => ws
  | column :: cols' =>
      match py_in_columns column df with
      | Raise => ws
      | Ok false => nulls_loop code cols' df ws
      | Ok true =>
          match get_loc (column_name column) (columns df) with
          | None => ws
          | Some i =>
              nulls_loop code cols' df
                (fill_cells code (i + 1) 2 (map isna (series (column_name column) df)) ws)
          end
      end
  end.

Definition _highlight_nulls (ws : worksheet) (df : DataFrame) (null_spec : pyobj)
  : worksheet :=
  match null_spec with
  | PDict d =>
      let columns_spec := dict_get_default "columns" (PList []) d in
      let color := dict_get_default "color" (PStr "gray") d in
      match color_code COLORS "FFD3D3D3" color with
      | Raise => ws
      | Ok code =>
          match (if truthy columns_spec then iterate columns_spec
                 else Ok (map PStr (columns df))) with
          | Raise => ws
          | Ok cols => nulls_loop code cols df ws
          end
      end
  | _ => ws
  end.

End Highlighting.

(** The columns [_highlight_nulls] looks at: the listed ones, all of
    them when none is listed. *)
Definition null_columns (names : list string) (df : DataFrame) : list string :=
  match names with
  | [] => columns df
  | _ => names
  end.

(** A table with a missing cell in each column. *)
Definition gaps_table : DataFrame :=
  mkDF ["a"; "b"] [Numeric; Object]
       [ [Some (VNum (Z2Qc 1)); None];
         [None; Some (VStr "x")] ].

Definition gaps_sheet : ExcelOperations.worksheet :=
  ExcelOperations.sheet_of (ExcelOperations.plain_header gaps_table) gaps_table.

(** The test that decides whether the loop of [_highlight_nulls] fills
    the cell in row [r] and column [c] on behalf of the column [n]. *)
Definition null_hit (df : DataFrame) (r c : nat) (n : string) : bool :=
  match get_loc n (columns df) with
  | Some i => (c =? i + 1) && (2 <=? r)
              && nth (r - 2) (map Highlighting.isna (series n df)) false
  | None => false
  end.

(** ** Row highlighting on a saved workbook: multi_sheet_handler.py *)

Module MultiSheetHighlighting.

Import ExcelOperations MultiSheet.

(** The colours of [_apply_highlighting_to_sheet] *)
Definition color_map : list (string * string) :=
  [ ("red", "FFFF0000"); ("green", "FF00FF00"); ("yellow", "FFFFFF00");
    ("blue", "FF0000FF"); ("orange", "FFFFA500"); ("purple", "FF800080");
    ("pink", "FFFFC0CB"); ("cyan", "FF00FFFF"); ("light_green", "FF90EE90");
    ("light_blue", "FFADD8E6"); ("light_yellow", "FFFFFFE0");
    ("light_red", "FFFFCCCB"); ("gray", "FFD3D3D3") ].

(** The chain of [if operator == ...] that sets [match]: only [==], [!=]
    and [in] are looked at. *)
Definition highlight_match (operator value : pyobj) (c : option wvalue) : bool :=
  if Condition.op_is operator "==" then cell_eq c value
  else if Condition.op_is operator "!=" then negb (cell_eq c value)
  else if Condition.op_is operator "in" then
    existsb (cell_eq c) (match value with PList l => l | _ => [value] end)
  else false.

(** The loop [for row_idx in range(2, ws.max_row + 1)]: a row that
    matches is filled from column 1 to [ws.max_column]. *)
Fixpoint highlight_rows_loop (operator value : pyobj) (code : string) (col_idx : nat)
  (row_idxs : list nat) (ws : worksheet) : worksheet :=
  match row_idxs with
  | [] => ws
  | r :: rest =>
      highlight_rows_loop operator value code col_idx rest
        (if highlight_match operator value (cvalue (ws_cell ws r col_idx))
         then fill_row code (max_column ws) r ws
         else ws)
  end.

(** One turn of [for hl_spec in highlights]. *)
Definition highlight_one (sheets : list sheet) (wb : workbook) (hl_spec : pyobj)
  : res workbook :=
  match hl_spec with
  | PDict d =>
      t <- target_of d sheets ;;
      match t with
      | PStr target_sheet_name =>
          match wb_get target_sheet_name wb, find_df target_sheet_name sheets with
          | Some ws, Some table =>
              let column := dict_get_default "column" PNone d in
              let condition := dict_get_default "condition" (PDict []) d in
              let color := dict_get_default "color" (PStr "yellow") d in
              present <- (if truthy column then py_in_columns column table else Ok false) ;;
              if present then
                match get_loc (column_name column) (columns table) with
                | Some i =>
                    code <- color_code color_map "FFFFFF00" color ;;
                    match condition with
                    | PDict c =>
                        let operator := dict_get_default "operator" (PStr "==") c in
                        let value := dict_get_default "value" PNone c in
                        Ok (wb_set target_sheet_name
                              (highlight_rows_loop operator value code (i + 1)
                                 (seq 2 (max_row ws - 1)) ws) wb)
                    | _ => Raise
                    end
                | None => Raise
                end
              else Ok wb
          | _, _ => Ok wb
          end
      | _ => Ok wb
      end
  | _ => Raise
  end.

Fixpoint highlight_all (sheets : list sheet) (highlights : list pyobj) (wb : workbook)
  : res workbook :=
  match highlights with
  | [] => Ok wb
  | h :: highlights' => wb' <- highlight_one sheets wb h ;; highlight_all sheets highlights' wb'
  end.

(** [_apply_highlighting_to_sheet]: the workbook is saved at the end
    only, an exception leaves the file as it was. *)
Definition _apply_highlighting_to_sheet (wb : workbook) (highlight_spec : pyobj)
  (sheets : list sheet) : workbook :=
  let highlights := match highlight_spec with PList l => l | _ => [highlight_spec] end in
  match highlight_all sheets highlights wb with
  | Ok wb' => wb'
  | Raise => wb
  end.

End MultiSheetHighlighting.

(** A request to highlight the rows whose score is above 5. *)
Definition highlight_high_scores : pydict :=
  [ ("column", PStr "Score"); ("condition", greater_than 5); ("color", PStr "red") ].

(** ** Duplicates and the dispatch of the formatting operations:
    excel_operations.py *)

Module Formatting.

Import ExcelOperations Highlighting.

(** [df[column].duplicated(keep=False)]: the cells whose value occurs
    more than once in the column; missing values count as equal. *)
Definition duplicated (s : list cellv) : list bool :=
  map (fun v => 2 <=? List.length (filter (cellv_eqb v) s)) s.

Fixpoint duplicates_loop (code : string) (cols : list pyobj) (df : DataFrame) (ws : worksheet)
  : worksheet :=
  match cols with
  | [] => ws
  | column :: cols' =>
      match py_in_columns column df with
      | Raise => ws
      | Ok false => duplicates_loop code cols' df ws
      | Ok true =>
          match get_loc (column_name column) (columns df) with
          | None => ws
          | Some i =>
              duplicates_loop code cols' df
                (fill_cells code (i + 1) 2 (duplicated (series (column_name column) df)) ws)
          end
      end
  end.

Definition _highlight_duplicates (ws : worksheet) (df : DataFrame) (dup_spec : pyobj)
  : worksheet :=
  match dup_spec with
  | PDict d =>
      let columns_spec := dict_get_default "columns" (PList []) d in
      let color := dict_get_default "color" (PStr "light_red") d in
      match color_code COLORS "FFFFCCCB" color with
      | Raise => ws
      | Ok code =>
          match (if truthy columns_spec then iterate columns_spec
                 else Ok (map PStr (columns df))) with
          | Raise => ws
          | Ok cols => duplicates_loop code cols df ws
          end
      end
  | _ => ws
  end.

Section Dispatch.

Variable rt : PyRuntime.

(** [if isinstance(spec, list): for x in spec: f(x)  else: f(spec)] *)
Definition for_each (f : worksheet -> pyobj -> worksheet) (spec : pyobj) (ws : worksheet)
  : worksheet :=
  match spec with
  | PList l => fold_left f l ws
  | _ => f ws spec
  end.

(** [if key in operations: ...] *)
Definition when_present (key : string) (operations : pydict)
  (f : worksheet -> pyobj -> worksheet) (ws : worksheet) : worksheet :=
  match dict_get key operations with
  | Some spec => for_each f spec ws
  | None => ws
  end.

(** [_apply_formatting_operations]: the five kinds in the order of the
    code; none of the helpers lets an exception out. *)
Definition _apply_formatting_operations (ws : worksheet) (df : DataFrame)
  (operations : pydict) (data_start_row : nat) : worksheet :=
  let ws1 := when_present "highlight_rows" operations
               (fun w hl => _highlight_rows rt w df hl data_start_row) ws in
  let ws2 := when_present "highlight_cells" operations
               (fun w hl => _highlight_cells rt w df hl data_start_row) ws1 in
  let ws3 := when_present "conditional_format" operations
               (fun w cf => _apply_conditional_formatting rt w df cf data_start_row) ws2 in
  let ws4 := when_present "highlight_duplicates" operations
               (fun w ds => _highlight_duplicates w df ds) ws3 in
  when_present "highlight_nulls" operations
               (fun w ns => _highlight_nulls w df ns) ws4.

End Dispatch.

End Formatting.

(** Two worksheets that differ in fills at most: every cell has the same
    value, the same font weight and the same number format. *)
Definition fills_only (ws ws' : ExcelOperations.worksheet) : Prop :=
  forall r c : nat,
    ExcelOperations.cvalue (ExcelOperations.ws_cell ws' r c)
    = ExcelOperations.cvalue (ExcelOperations.ws_cell ws r c)
    /\ ExcelOperations.cbold (ExcelOperations.ws_cell ws' r c)
       = ExcelOperations.cbold (ExcelOperations.ws_cell ws r c)
    /\ ExcelOperations.cnumfmt (ExcelOperations.ws_cell ws' r c)
       = ExcelOperations.cnumfmt (ExcelOperations.ws_cell ws r c).

(** The condition [{"operator": op, "value": target}]. *)
Definition comparison (op : string) (target : pyobj) : pyobj :=
  PDict [("operator", PStr op); ("value", target)].

(** ** The header row of an uploaded sheet: full_data_agent.py *)

Module HeaderRow.

Section Detection.

Variable rt : PyRuntime.

(** [sum(1 for val in row if isinstance(val, str) and val.strip())] *)
Definition string_count (row : list cellv) : nat :=
  List.length (filter (fun c : cellv => match c with
                                        | Some (VStr s) => negb (blank rt s)
                                        | _ => false
                                        end) row).

(** [row.notna().sum()] *)
Definition non_null_count (row : list cellv) : nat :=
  List.length (filter (fun c : cellv => match c with
                                        | Some _ => true
                                        | None => false
                                        end) row).

Definition score (row : list cellv) : nat := string_count row * 2 + non_null_count row.

(** The loop [for idx in range(min(10, len(df_preview)))] from the row
    [idx] on. *)
Fixpoint scan (rows : list (list cellv)) (idx best_header_row best_score : nat) : nat * nat :=
  match rows with
  | [] => (best_header_row, best_score)
  | row :: rest =>
      if best_score <? score row then scan rest (S idx) idx (score row)
      else scan rest (S idx) best_header_row best_score
  end.

(** [_detect_header_row] on the preview read without a header. *)
Definition _detect_header_row (df_preview : list (list cellv)) : nat :=
  let (best_header_row, best_score) := scan (firstn 10 df_preview) 0 0 0 in
  if (0 <? best_score) && (0 <? best_header_row) then best_header_row else 0.

End Detection.

End HeaderRow.

(** A sheet with a title line above the header. *)
Definition titled_preview : list (list cellv) :=
  [ [Some (VStr "Report"); None; None];
    [Some (VStr "Name"); Some (VStr "Region"); Some (VStr "Amount")];
    [Some (VStr "ann"); Some (VStr "north"); Some (VNum (Z2Qc 3))] ].
(** * Properties *)

Unset Implicit Arguments.

(** ** Equality tests *)

Lemma qc_eqb_eq (a b : Qc) : qc_eqb a b = true <-> a = b.
Proof. unfold qc_eqb. split; [apply Qc_eq_bool_correct | intros ->].
  unfold Qc_eq_bool. destruct (Qc_eq_dec b b); congruence. Qed.

Lemma value_eqb_eq (a b : value) : value_eqb a b = true <-> a = b.
Proof.
  destruct a, b; simpl; try (split; congruence).
  - rewrite String.eqb_eq. split; congruence.
  - rewrite qc_eqb_eq. split; congruence.
Qed.


Lemma get_loc_lt (column : string) (cols : list string) (i : nat) :
  get_loc column cols = Some i -> i < List.length cols.
Proof.
  revert i. induction cols as [|c cols IH]; simpl; intros i H; [discriminate|].
  destruct (String.eqb column c).
  - inversion H. lia.
  - destruct (get_loc column cols) as [j|]; [|discriminate].
    inversion H. specialize (IH j eq_refl). lia.
Qed.

(** ** Conditions on a cell *)

Section ConditionFacts.

Variable rt : PyRuntime.

Lemma check_condition_null (d : pydict) :
  Condition._check_condition rt None (PDict d)
  = PBool (Condition.op_is (dict_get_default "operator" (PStr "==") d) "is_null").
Proof. reflexivity. Qed.

Lemma check_condition_raise (c : cellv) (condition : pyobj) :
  Condition.check_condition_body rt c condition = Raise ->
  Condition._check_condition rt c condition = PBool false.
Proof. unfold Condition._check_condition. intros ->. reflexivity. Qed.

Lemma float_compare_text cmp (s : string) (target : pyobj) :
  float_of_str rt s = None ->
  Condition.float_compare rt cmp (VStr s) target = Raise.
Proof. intros H. unfold Condition.float_compare. simpl. rewrite H. reflexivity. Qed.

Lemma ordering_raises_on_text (s : string) (d : pydict) (op : string) :
  In op [">"; "<"; ">="; "<="] ->
  dict_get_default "operator" (PStr "==") d = PStr op ->
  float_of_str rt s = None ->
  Condition.check_condition_body rt (Some (VStr s)) (PDict d) = Raise.
Proof.
  intros Hin Hop Hs. unfold Condition.check_condition_body. rewrite Hop.
  simpl in Hin.
  destruct Hin as [<- | [<- | [<- | [<- | []]]]]; simpl;
    apply float_compare_text; exact Hs.
Qed.

Lemma check_condition_total (c : cellv) (condition : pyobj) :
  exists r, Condition._check_condition rt c condition = r
            /\ (r = PNone \/ exists b, r = PBool b).
Proof.
  unfold Condition._check_condition.
  destruct (Condition.check_condition_body rt c condition) as [r|] eqn:E.
  2:{ eexists; split; [reflexivity | right; eauto]. }
  exists r. split; [reflexivity|].
  unfold Condition.check_condition_body in E.
  destruct condition as [ | | | | | |d];
    try (destruct c; inversion E; right; eauto; fail).
  destruct c as [v|]; [| inversion E; right; eauto].
  repeat match type of E with
         | (if ?b then _ else _) = _ => destruct b
         end;
    try (inversion E; (left; reflexivity) || (right; eauto); fail).
  all: unfold Condition.float_compare, bind in E;
    repeat match type of E with
           | match ?x with _ => _ end = _ => destruct x
           end; inversion E; right; eauto.
Qed.

End ConditionFacts.

(** C10.  [_check_condition] always answers, with a boolean or [None]
    and never with an exception; a missing cell matches a condition
    exactly when the operator of the condition is [is_null]; a condition
    whose evaluation raises is a non-match, as when a text that is not a
    number meets one of [>], [<], [>=], [<=]. *)
Theorem check_condition_null_safe :
  forall rt : PyRuntime,
    (forall c condition, exists r,
        Condition._check_condition rt c condition = r
        /\ (r = PNone \/ exists b, r = PBool b))
    /\ (forall d,
           Condition.matches rt None (PDict d) = true
           <-> dict_get_default "operator" (PStr "==") d = PStr "is_null")
    /\ (forall c condition,
           Condition.check_condition_body rt c condition = Raise ->
           Condition.matches rt c condition = false)
    /\ (forall s d op,
           In op [">"; "<"; ">="; "<="] ->
           dict_get_default "operator" (PStr "==") d = PStr op ->
           float_of_str rt s = None ->
           Condition.matches rt (Some (VStr s)) (PDict d) = false).
Proof.
  intros rt. repeat split.
  - apply check_condition_total.
  - unfold Condition.matches. rewrite check_condition_null. simpl.
    unfold Condition.op_is.
    destruct (dict_get_default "operator" (PStr "==") d); try discriminate.
    intros H. apply String.eqb_eq in H. congruence.
  - intros H. unfold Condition.matches. rewrite check_condition_null, H. reflexivity.
  - intros c condition H. unfold Condition.matches.
    rewrite (check_condition_raise _ _ _ H). reflexivity.
  - intros s d op Hin Hop Hs. unfold Condition.matches.
    rewrite (check_condition_raise _ _ _ (ordering_raises_on_text _ _ _ _ Hin Hop Hs)).
    reflexivity.
Qed.

(** ** Merged workbooks *)

Section MergeFacts.

Import ExcelOperations MultiSheet Merge.

Variable rt : PyRuntime.

Lemma wb_get_absent (n : string) (wb : workbook) :
  ~ In n (map fst wb) -> wb_get n wb = None.
Proof.
  induction wb as [|[n' ws] wb IH]; simpl; [reflexivity|].
  intros H. destruct (String.eqb n n') eqn:E.
  - apply String.eqb_eq in E. subst. tauto.
  - apply IH. tauto.
Qed.

Lemma saved_sheet_written (t : DataFrame) :
  saved_sheet (excel_header t) t = written t.
Proof. reflexivity. Qed.

(** Sheets under fresh names that openpyxl keeps are appended one after
    the other. *)
Lemma write_fresh (sheets : list sheet) :
  forall wb : workbook,
    NoDup (map fst wb ++ map sheet_name sheets) ->
    (forall before n after,
        map sheet_name sheets = before ++ n :: after ->
        assign_title rt (map fst wb ++ before) n = Ok n) ->
    write_sheets rt sheets wb
    = Ok (wb ++ map (fun s => (sheet_name s, written (df s))) sheets).
Proof.
  induction sheets as [|s sheets IH]; intros wb Hnd Htitle.
  - simpl. rewrite app_nil_r. reflexivity.
  - cbn [write_sheets]. unfold to_excel. rewrite wb_get_absent.
    + pose proof (Htitle [] (sheet_name s) (map sheet_name sheets) eq_refl) as H0.
      rewrite app_nil_r in H0. rewrite H0. cbn [bind]. rewrite saved_sheet_written.
      rewrite IH.
      * cbn [map]. rewrite <- app_assoc. reflexivity.
      * rewrite map_app, <- app_assoc. exact Hnd.
      * intros before n after E. rewrite map_app, <- app_assoc. cbn [map fst app].
        apply (Htitle (sheet_name s :: before) n after). cbn [map]. rewrite E. reflexivity.
    + cbn [map] in Hnd. apply NoDup_remove_2 in Hnd. intros Hin. apply Hnd.
      apply in_or_app. left. exact Hin.
Qed.

End MergeFacts.



(** C9, at the failing input.  Two uploaded files whose cleaned names
    coincide do not get two sheets: no suffix is added, the writer finds
    the sheet of the first file under the name of the second and writes
    the second table over it, so the merged workbook has a single sheet
    for the two tables and the cells of the first table are lost where
    the second has cells. *)
Theorem merge_same_name_one_sheet :
  forall (rt : PyRuntime) (id1 id2 : string) (fd1 fd2 : Merge.file_data)
         (sheet_name_mapping : list (string * string)) (name : string),
    MultiSheet.sheet_name (Merge.uploaded_sheet sheet_name_mapping (id1, fd1)) = name ->
    MultiSheet.sheet_name (Merge.uploaded_sheet sheet_name_mapping (id2, fd2)) = name ->
    assign_title rt [] name = Ok name ->
    Merge.merge_files rt None [(id1, fd1); (id2, fd2)] false sheet_name_mapping
    = Ok [(name, Merge.overlay (written (Merge.file_df fd2)) (written (Merge.file_df fd1)))].
Proof.
  intros rt id1 id2 fd1 fd2 mapping name H1 H2 Ht.
  unfold Merge.merge_files, Merge.write_workbook, Merge.sheets_to_merge.
  cbn [Merge.merge_with_last_file List.length Nat.add Nat.ltb Nat.leb app map
       Merge.write_sheets].
  unfold Merge.to_excel at 1. rewrite H1. cbn [MultiSheet.wb_get map]. rewrite Ht.
  cbn [bind app]. unfold Merge.to_excel. rewrite H2.
  cbn [MultiSheet.wb_get]. rewrite String.eqb_refl.
  cbn [bind MultiSheet.wb_set]. rewrite String.eqb_refl. reflexivity.
Qed.

Lemma merge_same_name_one_sheet_witness :
  exists wb : MultiSheet.workbook,
    Merge.merge_files example_runtime None same_stem_files false [] = Ok wb
    /\ map fst wb = ["report"]
    /\ map (map (map ExcelOperations.cvalue)) (map snd wb)
       = [ [ [Some (ExcelOperations.WStr "y")];
             [Some (ExcelOperations.WStr "a")];
             [Some (ExcelOperations.WNum (FNum (Z2Qc 2)))] ] ].
Proof.
  eexists. split.
  - apply (merge_same_name_one_sheet example_runtime "f1" "f2"
             (Merge.mkFile (mkDF ["x"] [Numeric] [[Some (VNum (Z2Qc 1))]; [Some (VNum (Z2Qc 2))]])
                           "report.xlsx")
             (Merge.mkFile (mkDF ["y"] [Object] [[Some (VStr "a")]]) "report.csv")
             [] "report"); reflexivity.
  - split; reflexivity.
Defined.

(** ** Routing of an operation to the sheets of a workbook *)

Section RoutingFacts.

Import MultiSheet.

Variable rt : PyRuntime.
Variable operations : pydict.

Lemma process_sheets_routed (sheets_data out : list sheet) :
  process_sheets rt operations sheets_data = Ok out <-> Forall2 (routed rt operations) sheets_data out.
Proof.
  revert out. induction sheets_data as [|s rest IH]; intros out; simpl.
  - split.
    + intros H. inversion H. constructor.
    + intros H. inversion H. reflexivity.
  - split.
    + intros H. unfold bind in H.
      destruct (should_process rt operations (sheet_name s)) as [go|] eqn:Ego; [|discriminate].
      destruct (if go then _ else _) as [t|] eqn:Et; [|discriminate].
      destruct (process_sheets rt operations rest) as [out'|] eqn:Er; [|discriminate].
      inversion H; subst. constructor.
      * split; [reflexivity|]. exists go. split; [exact Ego|]. simpl.
        destruct go; [exact Et | congruence].
      * apply IH. reflexivity.
    + intros H. inversion H as [|s' o l l' [Hn [go [Hgo Hdf]]] Hrest]; subst.
      apply IH in Hrest. unfold bind. rewrite Hgo, Hrest.
      destruct o as [on ot]. simpl in *. subst on.
      destruct go; [rewrite Hdf | subst ot]; reflexivity.
Qed.

Lemma process_sheets_no_target (sheets_data : list sheet) :
  Forall (fun s => should_process rt operations (sheet_name s) = Ok false) sheets_data ->
  process_sheets rt operations sheets_data = Ok sheets_data.
Proof.
  induction 1 as [|s rest Hs _ IH]; simpl; [reflexivity|].
  rewrite Hs. simpl. rewrite IH. destruct s. reflexivity.
Qed.

End RoutingFacts.

(** C7.  The data operations run on a sheet exactly when the routing
    selects it, and a sheet that is not selected keeps its table: a true
    [apply_to_all_sheets] selects every sheet; otherwise a [target_sheet]
    name selects the sheets whose name equals it up to case, and none,
    with a successful result, when no sheet has that name; with neither
    set every sheet is selected. *)
Theorem routing_selects_sheets :
  forall (rt : PyRuntime) (operations : pydict) (sheets_data : list MultiSheet.sheet),
    let target_sheet := dict_get_default "target_sheet" PNone operations in
    let apply_to_all_sheets :=
      dict_get_default "apply_to_all_sheets" (PBool false) operations in
    (forall out,
        MultiSheet.process_sheets rt operations sheets_data = Ok out
        <-> Forall2 (routed rt operations) sheets_data out)
    /\ (truthy apply_to_all_sheets = true ->
        forall n, MultiSheet.should_process rt operations n = Ok true)
    /\ (truthy apply_to_all_sheets = false ->
        forall t, target_sheet = PStr t -> t <> "" ->
          (forall n, MultiSheet.should_process rt operations n
                     = Ok (String.eqb (lower rt n) (lower rt t)))
          /\ (Forall (fun s => lower rt (MultiSheet.sheet_name s) <> lower rt t) sheets_data ->
              MultiSheet.process_sheets rt operations sheets_data = Ok sheets_data))
    /\ (truthy apply_to_all_sheets = false -> truthy target_sheet = false ->
        forall n, MultiSheet.should_process rt operations n = Ok true).
Proof.
  intros rt operations sheets_data target_sheet apply_to_all_sheets.
  split; [intros out; apply process_sheets_routed|].
  unfold MultiSheet.should_process.
  fold target_sheet. fold apply_to_all_sheets.
  repeat split.
  - intros H n. rewrite H. reflexivity.
  - rewrite H, H0. simpl.
    destruct (String.eqb t "") eqn:E; [apply String.eqb_eq in E; contradiction|].
    reflexivity.
  - intros Hall. apply process_sheets_no_target.
    eapply Forall_impl; [|exact Hall]. intros s Hs. simpl in Hs.
    unfold MultiSheet.should_process.
    fold target_sheet. fold apply_to_all_sheets. rewrite H, H0. simpl.
    destruct (String.eqb t "") eqn:E; [apply String.eqb_eq in E; contradiction|].
    simpl. f_equal. apply String.eqb_neq. exact Hs.
  - intros H H0 n. rewrite H, H0. reflexivity.
Qed.

Lemma routing_selects_sheets_witness :
  MultiSheet.should_process example_runtime drop_last_of_jan "Jan" = Ok true
  /\ MultiSheet.should_process example_runtime drop_last_of_jan "Feb" = Ok false
  /\ MultiSheet.process_sheets example_runtime drop_last_of_jan jan_and_feb
     = Ok [ MultiSheet.mkSheet "Jan" (mkDF ["x"] [Numeric] [[Some (VNum (Z2Qc 1))]]);
            MultiSheet.mkSheet "Feb" (mkDF ["y"] [Object] [[Some (VStr "a")]]) ].
Proof.
  destruct (routing_selects_sheets example_runtime drop_last_of_jan jan_and_feb)
    as [Hout [_ [Htarget _]]].
  destruct (Htarget eq_refl "jan" eq_refl ltac:(discriminate)) as [Hn _].
  split; [rewrite Hn; reflexivity|]. split; [rewrite Hn; reflexivity|].
  apply Hout. repeat constructor; simpl.
  - exists true. split; [rewrite Hn; reflexivity | reflexivity].
  - exists false. split; [rewrite Hn; reflexivity | reflexivity].
Defined.

(** ** Reading and writing worksheet cells *)

Section WorksheetFacts.

Import ExcelOperations.

Lemma nth_update_nth_same {A : Type} (d : A) (f : A -> A) (i : nat) (l : list A) :
  nth i (update_nth d f i l) d = f (nth i l d).
Proof.
  revert l. induction i as [|i IH]; intros [|x l]; simpl; auto.
  rewrite IH. destruct i; reflexivity.
Qed.

Lemma nth_update_nth_other {A : Type} (d : A) (f : A -> A) (i j : nat) (l : list A) :
  i <> j -> nth j (update_nth d f i l) d = nth j l d.
Proof.
  revert j l. induction i as [|i IH]; intros [|j] [|x l] H; simpl; auto; try congruence.
  - destruct j; reflexivity.
  - rewrite IH by congruence. destruct j; reflexivity.
Qed.

Lemma update_nth_length {A : Type} (d : A) (f : A -> A) (i : nat) (l : list A) :
  i < List.length l -> List.length (update_nth d f i l) = List.length l.
Proof.
  revert l. induction i as [|i IH]; intros [|x l] H; simpl in *; try lia.
  rewrite IH by lia. reflexivity.
Qed.

Lemma ws_cell_update_same (f : cell -> cell) (r c : nat) (ws : worksheet) :
  ws_cell (ws_update f r c ws) r c = f (ws_cell ws r c).
Proof.
  unfold ws_cell, ws_update. rewrite nth_update_nth_same. apply nth_update_nth_same.
Qed.

Lemma ws_cell_update_other (f : cell -> cell) (r c r' c' : nat) (ws : worksheet) :
  1 <= r -> 1 <= c -> 1 <= r' -> 1 <= c' -> (r', c') <> (r, c) ->
  ws_cell (ws_update f r c ws) r' c' = ws_cell ws r' c'.
Proof.
  intros Hr Hc Hr' Hc' Hne. unfold ws_cell, ws_update.
  destruct (Nat.eq_dec r r') as [<- | Hrr].
  - rewrite nth_update_nth_same. apply nth_update_nth_other.
    intros E. apply Hne. f_equal. lia.
  - rewrite nth_update_nth_other by lia. reflexivity.
Qed.

End WorksheetFacts.

(** ** Conditional formatting *)

Section ConditionalFormatFacts.

Import ExcelOperations.

Variable rt : PyRuntime.

Lemma format_cells_frame (rules : pyobj) (col r : nat) (s : list cellv) (ws : worksheet)
  (r' c' : nat) :
  1 <= col -> 1 <= r -> 1 <= r' -> 1 <= c' -> r' < r \/ c' <> col ->
  ws_cell (format_cells rt rules col r s ws) r' c' = ws_cell ws r' c'.
Proof.
  intros Hcol Hr Hr' Hc'. revert r ws Hr.
  induction s as [|v s IH]; intros r ws Hr H; simpl; [reflexivity|].
  destruct (bind (iterate rules) _) as [[code|]|]; try reflexivity.
  - rewrite IH by lia. apply ws_cell_update_other; try lia.
    intros E. inversion E. lia.
  - apply IH; lia.
Qed.

(** The single-workbook path: a cell of the column gets the fill of the
    first rule that matches it and keeps its fill when none does. *)
Lemma format_cells_first_match (rules : pyobj) (rs : list pyobj) (col r : nat)
  (s : list cellv) (ws : worksheet) (i : nat) :
  1 <= col -> 1 <= r ->
  iterate rules = Ok rs ->
  Forall (fun v => first_rule rt v rs <> Raise) s ->
  i < List.length s ->
  ws_cell (format_cells rt rules col r s ws) (r + i) col
  = match first_rule rt (nth i s None) rs with
    | Ok (Some code) => set_fill code (ws_cell ws (r + i) col)
    | _ => ws_cell ws (r + i) col
    end.
Proof.
  intros Hcol Hr Hit. revert r ws i Hr.
  induction s as [|v s IH]; intros r ws i Hr Hall Hi; simpl in Hi; [lia|].
  inversion Hall as [|v' s' Hv Hs]; subst. simpl format_cells. rewrite Hit. simpl bind.
  destruct i as [|i].
  - rewrite Nat.add_0_r. simpl nth.
    destruct (first_rule rt v rs) as [[code|]|] eqn:E; try contradiction.
    + rewrite format_cells_frame by lia. apply ws_cell_update_same.
    + apply format_cells_frame; lia.
  - replace (r + S i) with (S r + i) by lia. simpl nth.
    destruct (first_rule rt v rs) as [[code|]|] eqn:E.
    + rewrite IH by (auto; lia).
      rewrite ws_cell_update_other; try lia; [reflexivity|].
      intros E'. inversion E'. lia.
    + apply IH; auto; lia.
    + congruence.
Qed.

(** Rules after the first matching one are not looked at. *)
Lemma first_rule_stops (v : cellv) (pre post : list pydict) (r : pydict) (c : string) :
  Forall (fun p => Condition.matches rt v (dict_get_default "condition" PNone p) = false) pre ->
  Condition.matches rt v (dict_get_default "condition" PNone r) = true ->
  dict_get_default "color" (PStr "yellow") r = PStr c ->
  first_rule rt v (map PDict pre ++ PDict r :: map PDict post)
  = bind (color_code COLORS "FFFFFF00" (PStr c)) (fun code => Ok (Some code)).
Proof.
  intros Hpre Hr Hc. induction Hpre as [|p pre Hp _ IH]; simpl.
  - rewrite Hr, Hc. reflexivity.
  - rewrite Hp. exact IH.
Qed.

End ConditionalFormatFacts.

(** C5, at the failing input.  A score of 10 meets both rules, red for
    [> 5] first and green for [> 0] second.  The multi-sheet handler runs
    every rule over all rows and leaves the cell green, the fill of the
    last matching rule; [ExcelOperations._apply_conditional_formatting]
    stops at the first matching rule and leaves it red. *)
Theorem multi_sheet_format_last_rule_wins :
  forall rt : PyRuntime,
    ExcelOperations.cfill
      (ExcelOperations.ws_cell
         (match MultiSheet._apply_conditional_format_to_sheet
                  [("Data", score_sheet)] two_rules
                  [MultiSheet.mkSheet "Data" score_table] with
          | (_, ws) :: _ => ws
          | [] => []
          end) 2 1)
    = Some "FF00FF00"
    /\ ExcelOperations.cfill
         (ExcelOperations.ws_cell
            (ExcelOperations._apply_conditional_formatting rt score_sheet score_table two_rules 2)
            2 1)
       = Some "FFFF0000".
Proof. intros rt. split; vm_compute; reflexivity. Qed.

(** ** Filtering and deleting by a condition *)

Section FilterFacts.

Import Pandas ExcelOperations.

Variable rt : PyRuntime.

Lemma map_res_length {A B : Type} (f : A -> res B) (l : list A) (m : list B) :
  map_res f l = Ok m -> List.length m = List.length l.
Proof.
  revert m. induction l as [|x l IH]; simpl; intros m H.
  - inversion H. reflexivity.
  - unfold bind in H. destruct (f x); [|discriminate].
    destruct (map_res f l) as [ys|]; [|discriminate].
    inversion H. simpl. f_equal. apply IH. reflexivity.
Qed.

Hypothesis Hfit : masks_fit rt.

Lemma compare_length (op : cmpop) (dt : dtype) (s : list cellv) (target : pyobj)
  (m : list bool) :
  compare rt op dt s target = Ok m -> List.length m = List.length s.
Proof.
  unfold compare.
  assert (Hall : forall b : bool, Ok (map (fun _ : cellv => b) s) = Ok m ->
                                  List.length m = List.length s).
  { intros b H. inversion H. apply length_map. }
  destruct target as [ | | |f| | | ]; try apply map_res_length; try apply Hall;
    try apply Hfit.
  - destruct f; try apply map_res_length; apply Hall.
  - destruct dt; [|apply map_res_length].
    destruct (is_ordering op); [discriminate | apply Hall].
Qed.

Lemma isin_length (s : list cellv) (values : pyobj) (m : list bool) :
  isin rt s values = Ok m -> List.length m = List.length s.
Proof.
  unfold isin. destruct values; try discriminate;
    intros H; inversion H; apply length_map.
Qed.

Lemma condition_mask_length (dt : dtype) (s : list cellv) (condition : pyobj)
  (m : list bool) :
  condition_mask rt dt s condition = Ok (Some m) -> List.length m = List.length s.
Proof.
  unfold condition_mask. intros H.
  assert (Hc : forall op target,
             (x <- compare rt op dt s target ;; Ok (Some x)) = Ok (Some m) ->
             List.length m = List.length s).
  { intros op target E. unfold bind in E.
    destruct (compare rt op dt s target) eqn:E'; [|discriminate].
    inversion E; subst. eapply compare_length; eassumption. }
  destruct condition; eauto.
  repeat match type of H with
         | (if ?b then _ else _) = _ => destruct b; eauto
         end; try discriminate.
  - unfold bind in H.
    match type of H with
    | match ?x with _ => _ end = _ => destruct x eqn:E; [|discriminate]
    end.
    inversion H; subst. apply map_res_length in E. exact E.
  - unfold bind in H. destruct (isin rt s _) eqn:E; [|discriminate].
    inversion H; subst. eapply isin_length; eassumption.
Qed.

Lemma series_length (column : string) (df : DataFrame) :
  has_column column df = true -> List.length (series column df) = len df.
Proof.
  unfold has_column, series, len.
  destruct (get_loc column (columns df)); [|discriminate].
  intros _. apply length_map.
Qed.

Lemma select_complement_length {A : Type} (mask : list bool) (l : list A) :
  List.length mask = List.length l ->
  List.length (select mask l) + List.length (select (map negb mask) l) = List.length l.
Proof.
  revert l. induction mask as [|b mask IH]; intros [|x l] H; simpl in *; try lia.
  specialize (IH l). destruct b; simpl; lia.
Qed.

(** Row [i] is kept by the mask or by its complement, never by both. *)
Lemma mask_complement (mask : list bool) (i : nat) :
  i < List.length mask ->
  nth i (map negb mask) false = negb (nth i mask false).
Proof.
  intros H. rewrite <- (map_nth negb mask false).
  apply nth_indep. rewrite length_map. exact H.
Qed.

Lemma select_all {A : Type} (l : list A) :
  select (map negb (repeat false (List.length l))) l = l.
Proof. induction l as [|x l IH]; simpl; [reflexivity | rewrite IH; reflexivity]. Qed.

Lemma with_rows_same (df : DataFrame) : with_rows df (rows df) = df.
Proof. destruct df. reflexivity. Qed.

Lemma filter_by_mask (df : DataFrame) (column : string) (condition : pyobj)
  (mask : list bool) :
  condition_mask rt (dtype_of column df) (series column df) condition = Ok (Some mask) ->
  _apply_filter rt df column condition = Some (df_select mask df).
Proof. unfold _apply_filter. intros ->. reflexivity. Qed.

Lemma delete_by_mask (df : DataFrame) (column : string) (condition : pyobj)
  (mask : list bool) :
  has_column column df = true ->
  condition_mask rt (dtype_of column df) (series column df) condition = Ok (Some mask) ->
  step_delete_rows rt (delete_where column condition) df
  = Ok (df_select (map negb mask) df).
Proof.
  intros Hhas Hmask.
  unfold step_delete_rows, delete_where. simpl.
  rewrite Hhas. simpl.
  unfold _check_condition_mask. rewrite Hmask. reflexivity.
Qed.

Lemma filter_raise (df : DataFrame) (column : string) (condition : pyobj) :
  condition_mask rt (dtype_of column df) (series column df) condition = Raise ->
  _apply_filter rt df column condition = Some df.
Proof. unfold _apply_filter. intros ->. reflexivity. Qed.

Lemma delete_raise (df : DataFrame) (column : string) (condition : pyobj) :
  has_column column df = true ->
  condition_mask rt (dtype_of column df) (series column df) condition = Raise ->
  step_delete_rows rt (delete_where column condition) df = Ok df.
Proof.
  intros Hhas Hmask.
  unfold step_delete_rows, delete_where. simpl.
  rewrite Hhas. simpl.
  unfold _check_condition_mask. rewrite Hmask.
  unfold df_select. rewrite (series_length _ _ Hhas). unfold len.
  rewrite select_all. rewrite with_rows_same. reflexivity.
Qed.

End FilterFacts.


Lemma example_masks_fit : masks_fit example_runtime.
Proof. intros op dt s target m H. discriminate. Qed.



(** ** The order of the row-level operations *)

Section DataOperationFacts.

Variable rt : PyRuntime.

Lemma dict_get_perm (k : string) (d d' : pydict) :
  Permutation d d' -> NoDup (map fst d) -> dict_get k d = dict_get k d'.
Proof.
  induction 1 as [| [k1 v1] d d' _ IH | [k1 v1] [k2 v2] d | d d' d'' H1 IH1 H2 IH2];
    intros Hnd; simpl in *.
  - reflexivity.
  - inversion Hnd; subst. rewrite IH by assumption. reflexivity.
  - inversion Hnd as [|? ? Hin _]; subst.
    destruct (String.eqb k k2) eqn:E2, (String.eqb k k1) eqn:E1; try reflexivity.
    apply String.eqb_eq in E1, E2. subst. exfalso. apply Hin. left. reflexivity.
  - rewrite IH1 by assumption. apply IH2.
    eapply Permutation_NoDup; [|exact Hnd]. apply Permutation_map. exact H1.
Qed.

(** [_apply_data_operations] reads the specification through its keys
    only. *)
Lemma data_operations_by_key (df : DataFrame) (operations operations' : pydict) :
  (forall k, dict_get k operations = dict_get k operations') ->
  ExcelOperations._apply_data_operations rt df operations
  = ExcelOperations._apply_data_operations rt df operations'.
Proof.
  intros H.
  unfold ExcelOperations._apply_data_operations, ExcelOperations.step_remove_last_row,
    ExcelOperations.step_delete_rows, ExcelOperations.step_filter,
    ExcelOperations.step_sort, ExcelOperations.step_top_n,
    ExcelOperations.step_bottom_n, dict_get_default.
  rewrite !H. reflexivity.
Qed.

(** On a single table the order of the keys of the specification does
    not matter: the steps run as remove_last_row, delete_rows, filter,
    sort, top_n, bottom_n. *)
Lemma data_operations_key_order (df : DataFrame) (operations operations' : pydict) :
  Permutation operations operations' -> NoDup (map fst operations) ->
  ExcelOperations._apply_data_operations rt df operations
  = ExcelOperations._apply_data_operations rt df operations'
  /\ ExcelOperations._apply_data_operations rt df operations
     = bind (ExcelOperations.step_delete_rows rt operations
               (ExcelOperations.step_remove_last_row operations df))
         (fun df2 => bind (ExcelOperations.step_filter rt operations df2)
         (fun df3 => bind (ExcelOperations.step_sort rt operations df3)
         (fun df4 => bind (ExcelOperations.step_top_n operations df4)
         (fun df5 => ExcelOperations.step_bottom_n operations df5)))).
Proof.
  intros Hp Hnd. split; [|reflexivity].
  apply data_operations_by_key. intros k. apply dict_get_perm; assumption.
Qed.

(** The sort step hands the table to [sort_values] of pandas as it is:
    what happens to rows with equal keys is decided there. *)
Lemma sort_step_delegates (operations sort_ops : pydict) (t : DataFrame) :
  dict_get "sort" operations = Some (PDict sort_ops) ->
  truthy (dict_get_default "by" (PList []) sort_ops) = true ->
  ExcelOperations.step_sort rt operations (Some t)
  = bind (sort_values rt (dict_get_default "by" (PList []) sort_ops)
            (dict_get_default "ascending" (PBool true) sort_ops) t)
         (fun t' => Ok (Some t')).
Proof.
  intros Hs Hby. unfold ExcelOperations.step_sort. rewrite Hs, Hby. reflexivity.
Qed.

End DataOperationFacts.

(** C2, at the failing input.  For the table [x = 3, 1, 2] and the
    specification [{top_n: 1, filter: {x: > 1}}] the single-table engine
    filters first and then keeps the first row, [3]; the multi-sheet
    handler has no top_n or bottom_n step and returns both filtered rows,
    [3] and [2]. *)
Theorem multi_sheet_ignores_top_n :
  forall rt : PyRuntime,
    ExcelOperations._apply_data_operations rt numbers_table top_of_filtered
    = Ok (Some (mkDF ["x"] [Numeric] [[Some (VNum (Z2Qc 3))]]))
    /\ MultiSheet._apply_operations_to_dataframe rt numbers_table top_of_filtered
       = Ok (mkDF ["x"] [Numeric] [[Some (VNum (Z2Qc 3))]; [Some (VNum (Z2Qc 2))]]).
Proof. intros rt. split; vm_compute; reflexivity. Qed.

(** ** The values [nlargest] and [nsmallest] select *)

Lemma filter_none {A : Type} (f : A -> bool) (l : list A) :
  (forall z, In z l -> f z = false) -> filter f l = [].
Proof.
  induction l as [|x l IH]; simpl; intros H; [reflexivity|].
  rewrite (H x) by (left; reflexivity). apply IH. intros z Hz. apply H. right. exact Hz.
Qed.

Section SortedPrefix.

(** A total order on the numbers, as a boolean test. *)
Variable le_b : Qc -> Qc -> bool.
Hypothesis le_total : forall a b, le_b a b = true \/ le_b b a = true.
Hypothesis le_antisym : forall a b, le_b a b = true -> le_b b a = true -> a = b.

Let ordered (a b : Qc) : Prop := le_b a b = true.
Let before (q : Qc) (l : list Qc) : nat :=
  List.length (filter (fun x => negb (le_b q x)) l).

(** In a sorted list, the first [k] entries hold the values that fewer
    than [k] entries come strictly before. *)
Lemma sorted_prefix (l : list Qc) :
  StronglySorted ordered l ->
  forall (k : nat) (q : Qc), In q (firstn k l) <-> In q l /\ before q l < k.
Proof.
  induction 1 as [|y l Hs IH Hall]; intros k q.
  - rewrite firstn_nil. simpl. tauto.
  - destruct k as [|k].
    + simpl. split; [tauto | intros [_ H]; lia].
    + assert (Hy : forall z, In z l -> le_b y z = true).
      { intros z Hz. rewrite Forall_forall in Hall. apply Hall. exact Hz. }
      assert (Hyy : le_b y y = true) by (destruct (le_total y y); assumption).
      destruct (Qc_eq_dec q y) as [-> | Hne].
      * split; [|intros _; left; reflexivity].
        intros _. split; [left; reflexivity|].
        unfold before. simpl. rewrite Hyy. simpl.
        rewrite filter_none; [simpl; lia|].
        intros z Hz. rewrite (Hy z Hz). reflexivity.
      * assert (Hstep : In q l -> before q (y :: l) = S (before q l)).
        { intros Hq. unfold before. simpl.
          destruct (le_b q y) eqn:E; [|reflexivity].
          exfalso. apply Hne. apply le_antisym; [exact E | apply Hy; exact Hq]. }
        simpl firstn. simpl In. rewrite IH. split.
        -- intros [H | [Hq Hb]]; [congruence|].
           split; [right; exact Hq|]. rewrite Hstep by exact Hq. lia.
        -- intros [[H | Hq] Hb]; [congruence|]. right.
           split; [exact Hq|]. rewrite Hstep in Hb by exact Hq. lia.
Qed.

End SortedPrefix.

Section SortFacts.

Import ExcelOperations.

Lemma qc_compare_antisym (a b : Qc) : Qccompare b a = CompOpp (Qccompare a b).
Proof. unfold Qccompare. symmetry. apply Qcompare_antisym. Qed.

Lemma qc_leb_total (a b : Qc) : qc_leb a b = true \/ qc_leb b a = true.
Proof.
  unfold qc_leb. rewrite (qc_compare_antisym b a).
  destruct (Qccompare b a); simpl; auto.
Qed.

Lemma qc_leb_antisym (a b : Qc) : qc_leb a b = true -> qc_leb b a = true -> a = b.
Proof.
  unfold qc_leb. rewrite (qc_compare_antisym b a).
  destruct (Qccompare b a) eqn:E; simpl; try discriminate.
  intros _ _. symmetry. apply Qceq_alt. exact E.
Qed.

Lemma qc_leb_trans (a b c : Qc) : qc_leb a b = true -> qc_leb b c = true -> qc_leb a c = true.
Proof.
  assert (H : forall x y, qc_leb x y = true <-> (x <= y)%Qc).
  { intros x y. unfold qc_leb. rewrite Qcle_alt.
    destruct (Qccompare x y); split; congruence. }
  rewrite !H. apply Qcle_trans.
Qed.

Lemma qc_ltb_leb (a b : Qc) : qc_ltb a b = negb (qc_leb b a).
Proof.
  unfold qc_ltb, qc_leb. rewrite (qc_compare_antisym a b).
  destruct (Qccompare a b); reflexivity.
Qed.

Lemma insert_desc_perm (x : Qc) (l : list Qc) : Permutation (x :: l) (insert_desc x l).
Proof.
  induction l as [|y l IH]; simpl; [reflexivity|].
  destruct (qc_leb y x); [reflexivity|].
  rewrite perm_swap. constructor. exact IH.
Qed.

Lemma sort_desc_perm (l : list Qc) : Permutation l (sort_desc l).
Proof.
  induction l as [|x l IH]; simpl; [constructor|].
  rewrite <- insert_desc_perm. constructor. exact IH.
Qed.

Lemma insert_desc_sorted (x : Qc) (l : list Qc) :
  StronglySorted descending l -> StronglySorted descending (insert_desc x l).
Proof.
  induction 1 as [|y l Hs IH Hall]; simpl.
  - constructor; constructor.
  - destruct (qc_leb y x) eqn:E.
    + constructor; [constructor; assumption|].
      constructor; [exact E|].
      eapply Forall_impl; [|exact Hall]. intros z Hz. unfold descending in *.
      eapply qc_leb_trans; eassumption.
    + constructor; [exact IH|].
      apply (Permutation_Forall (insert_desc_perm x l)).
      constructor; [|exact Hall].
      unfold descending. destruct (qc_leb_total x y); congruence.
Qed.

Lemma sort_desc_sorted (l : list Qc) : StronglySorted descending (sort_desc l).
Proof.
  induction l as [|x l IH]; simpl; [constructor|].
  apply insert_desc_sorted. exact IH.
Qed.

Lemma sorted_app (R : Qc -> Qc -> Prop) (l1 l2 : list Qc) :
  StronglySorted R l1 -> StronglySorted R l2 ->
  (forall a b, In a l1 -> In b l2 -> R a b) ->
  StronglySorted R (l1 ++ l2).
Proof.
  induction 1 as [|x l1 Hs IH Hall]; intros H2 Hc; simpl; [exact H2|].
  constructor.
  - apply IH; [exact H2|]. intros a b Ha Hb. apply Hc; [right; exact Ha | exact Hb].
  - apply Forall_app. split; [exact Hall|].
    apply Forall_forall. intros b Hb. apply Hc; [left; reflexivity | exact Hb].
Qed.

Lemma sorted_rev (l : list Qc) :
  StronglySorted descending l -> StronglySorted ascending (rev l).
Proof.
  induction 1 as [|x l Hs IH Hall]; simpl; [constructor|].
  apply sorted_app; [exact IH | constructor; constructor |].
  intros a b Ha [<- | []]. apply in_rev in Ha.
  rewrite Forall_forall in Hall. apply (Hall a Ha).
Qed.

Lemma filter_length_perm (f : Qc -> bool) (l l' : list Qc) :
  Permutation l l' -> List.length (filter f l) = List.length (filter f l').
Proof.
  induction 1; simpl; try congruence.
  - destruct (f x); simpl; congruence.
  - destruct (f x), (f y); reflexivity.
Qed.

Lemma largest_values (k : nat) (l : list Qc) (q : Qc) :
  In q (firstn k (sort_desc l)) <-> In q l /\ count_greater q l < k.
Proof.
  assert (E : count_greater q l
              = List.length (filter (fun x => negb (qc_leb x q)) (sort_desc l))).
  { unfold count_greater. rewrite (filter_length_perm _ l (sort_desc l) (sort_desc_perm l)).
    f_equal. apply filter_ext. intros x. apply qc_ltb_leb. }
  rewrite E.
  rewrite (sorted_prefix (fun a b => qc_leb b a)
             (fun a b => qc_leb_total b a)
             (fun a b H1 H2 => qc_leb_antisym a b H2 H1)
             (sort_desc l) (sort_desc_sorted l)).
  cbv beta. split; intros [H1 H2]; (split; [|exact H2]).
  - eapply Permutation_in; [symmetry; apply sort_desc_perm | exact H1].
  - eapply Permutation_in; [apply sort_desc_perm | exact H1].
Qed.

Lemma smallest_values (k : nat) (l : list Qc) (q : Qc) :
  In q (firstn k (rev (sort_desc l))) <-> In q l /\ count_smaller q l < k.
Proof.
  assert (Hp : Permutation l (rev (sort_desc l))).
  { rewrite <- Permutation_rev. apply sort_desc_perm. }
  assert (E : count_smaller q l
              = List.length (filter (fun x => negb (qc_leb q x)) (rev (sort_desc l)))).
  { unfold count_smaller. rewrite (filter_length_perm _ l _ Hp).
    f_equal. apply filter_ext. intros x. apply qc_ltb_leb. }
  rewrite E.
  rewrite (sorted_prefix qc_leb qc_leb_total qc_leb_antisym
             (rev (sort_desc l)) (sorted_rev _ (sort_desc_sorted l))).
  split; intros [H1 H2]; (split; [|exact H2]).
  - eapply Permutation_in; [symmetry; exact Hp | exact H1].
  - eapply Permutation_in; [exact Hp | exact H1].
Qed.

End SortFacts.

(** ** Highlighting the rows of the largest and smallest values *)

Section HighlightFacts.

Import ExcelOperations.

Lemma update_nth_in_range {A : Type} (d : A) (f : A -> A) (i : nat) (l : list A) :
  i < List.length l ->
  update_nth d f i l = firstn i l ++ f (nth i l d) :: skipn (S i) l.
Proof.
  revert l. induction i as [|i IH]; intros [|x l] H; simpl in *; try lia.
  - reflexivity.
  - rewrite IH by lia. reflexivity.
Qed.

Lemma update_nth_middle {A : Type} (d : A) (f : A -> A) (pre post : list A) (x : A) :
  update_nth d f (List.length pre) (pre ++ x :: post) = pre ++ f x :: post.
Proof. induction pre as [|y pre IH]; simpl; [reflexivity | rewrite IH; reflexivity]. Qed.

(** Painting the cells of a row one column after the other. *)
Lemma paint_cells (f : cell -> cell) (rest pre : list cell) :
  fold_left (fun row c => update_nth empty_cell f (c - 1) row)
            (seq (S (List.length pre)) (List.length rest)) (pre ++ rest)
  = pre ++ map f rest.
Proof.
  revert pre. induction rest as [|x rest IH]; intros pre; simpl; [reflexivity|].
  rewrite Nat.sub_0_r, update_nth_middle.
  specialize (IH (pre ++ [f x])). rewrite length_app, Nat.add_1_r in IH.
  rewrite <- !app_assoc in IH. simpl in IH. exact IH.
Qed.

Lemma fold_ws_update_row (f : cell -> cell) (cols : list nat) (pre post : worksheet)
  (row : list cell) :
  fold_left (fun w c => ws_update f (S (List.length pre)) c w) cols (pre ++ row :: post)
  = pre ++ fold_left (fun r c => update_nth empty_cell f (c - 1) r) cols row :: post.
Proof.
  revert row. induction cols as [|c cols IH]; intros row; simpl; [reflexivity|].
  unfold ws_update at 2. simpl. rewrite Nat.sub_0_r, update_nth_middle. apply IH.
Qed.

Lemma fill_row_middle (code : string) (pre post : worksheet) (row : list cell) :
  fill_row code (List.length row) (S (List.length pre)) (pre ++ row :: post)
  = pre ++ map (set_fill code) row :: post.
Proof.
  unfold fill_row. rewrite fold_ws_update_row. do 2 f_equal.
  apply (paint_cells (set_fill code) row []).
Qed.

Lemma fill_rows_from (code : string) (ncols start : nat) (data : list (list cell)) :
  Forall (fun r => List.length r = ncols) data ->
  forall (flags : list bool) (pre : worksheet) (k : nat),
    List.length flags = List.length data ->
    k + start = S (List.length pre) ->
    fold_left (fun (w : worksheet) (p : nat * bool) =>
                 if snd p then fill_row code ncols (fst p + start) w else w)
              (combine (seq k (List.length flags)) flags) (pre ++ data)
    = pre ++ paint_rows code flags data.
Proof.
  induction 1 as [|row data Hrow _ IH]; intros [|b flags] pre k Hlen Hk;
    simpl in Hlen; try discriminate; [reflexivity|].
  simpl. rewrite Hk.
  assert (E : (if b then fill_row code ncols (S (List.length pre)) (pre ++ row :: data)
               else pre ++ row :: data)
              = (pre ++ [if b then map (set_fill code) row else row]) ++ data).
  { rewrite <- app_assoc. simpl. destruct b; [|reflexivity].
    rewrite <- Hrow. apply fill_row_middle. }
  rewrite E. rewrite (IH flags _ (S k)).
  - rewrite <- app_assoc. reflexivity.
  - lia.
  - rewrite length_app. simpl. lia.
Qed.

Lemma fill_rows_sheet (code : string) (ncols : nat) (header : list cell)
  (data : list (list cell)) (flags : list bool) :
  Forall (fun r => List.length r = ncols) data ->
  List.length flags = List.length data ->
  fill_rows code ncols 2 flags (header :: data) = header :: paint_rows code flags data.
Proof.
  intros Hd Hl. unfold fill_rows.
  apply (fill_rows_from code ncols 2 data Hd flags [header] 0 Hl). reflexivity.
Qed.

Lemma paint_rows_values (code : string) (flags : list bool) (data : list (list cell)) :
  List.length flags = List.length data ->
  map (map cvalue) (paint_rows code flags data) = map (map cvalue) data.
Proof.
  revert data. induction flags as [|b flags IH]; intros [|row data] H;
    simpl in *; try discriminate; [reflexivity|].
  unfold paint_rows in *. simpl. rewrite IH by lia. f_equal.
  destruct b; [|reflexivity]. rewrite map_map. reflexivity.
Qed.

Lemma existsb_qc (q : Qc) (l : list Qc) : existsb (qc_eqb q) l = true <-> In q l.
Proof.
  rewrite existsb_exists. split.
  - intros [x [Hx E]]. apply qc_eqb_eq in E. subst. exact Hx.
  - intros H. exists q. split; [exact H | apply qc_eqb_eq; reflexivity].
Qed.

Lemma in_numbers (s : list cellv) (q : Qc) : In (Some (VNum q)) s -> In q (numbers s).
Proof.
  intros H. unfold numbers. apply in_flat_map. exists (Some (VNum q)).
  split; [exact H | left; reflexivity].
Qed.

Lemma in_values_largest (k : Z) (s : list cellv) (c : cellv) :
  In c s ->
  in_values c (firstn (Z.to_nat k) (sort_desc (numbers s))) = among_largest k s c.
Proof.
  intros Hc. destruct c as [[t|q]|]; try reflexivity. simpl.
  apply eq_true_iff_eq. rewrite existsb_qc, largest_values, Nat.ltb_lt.
  pose proof (in_numbers s q Hc). tauto.
Qed.

Lemma in_values_smallest (k : Z) (s : list cellv) (c : cellv) :
  In c s ->
  in_values c (firstn (Z.to_nat k) (rev (sort_desc (numbers s)))) = among_smallest k s c.
Proof.
  intros Hc. destruct c as [[t|q]|]; try reflexivity. simpl.
  apply eq_true_iff_eq. rewrite existsb_qc, smallest_values, Nat.ltb_lt.
  pose proof (in_numbers s q Hc). tauto.
Qed.

End HighlightFacts.

(** C6 (amended).  For a topN (bottomN) condition with an integer N on
    an existing column, [_highlight_rows] changes nothing but fills.  On
    a column of a numeric dtype the header and the values, columns and
    order of all rows stay as they are; the rows whose cell in the column
    is among the N largest (smallest) values get the fill on every cell,
    the other rows keep their cells.  On a column of dtype object,
    whatever it holds, [nlargest] ([nsmallest]) raises, the exception is
    swallowed and the worksheet stays as it is: no row is filled. *)
Theorem highlight_top_n_only_fills :
  forall (rt : PyRuntime) (df : DataFrame) (header : list ExcelOperations.cell)
         (d c : pydict) (column o code : string) (k : Z) (top : bool),
    dict_get_default "column" PNone d = PStr column ->
    dict_get_default "condition" PNone d = PDict c ->
    dict_get_default "operator" (PStr "") c = PStr o ->
    dict_get_default "value" (PInt 5) c = PInt k ->
    remove_char "_" (upper rt o) = (if top then "TOPN" else "BOTTOMN") ->
    ExcelOperations.color_code ExcelOperations.COLORS "FFFFFF00"
      (dict_get_default "color" (PStr "yellow") d) = Ok code ->
    column <> "" ->
    has_column column df = true ->
    Forall (fun r => List.length r = List.length (columns df)) (rows df) ->
    let ws := ExcelOperations.sheet_of header df in
    let ws' := ExcelOperations._highlight_rows rt ws df (PDict d) 2 in
    let chosen :=
      map (if top then among_largest k (series column df)
           else among_smallest k (series column df)) (series column df) in
    (dtype_of column df = Numeric ->
     ws' = header :: paint_rows code chosen (map (map ExcelOperations.value_cell) (rows df))
     /\ map (map ExcelOperations.cvalue) ws' = map (map ExcelOperations.cvalue) ws
     /\ List.length chosen = len df)
    /\ (dtype_of column df = Object -> ws' = ws).
Proof.
  intros rt df header d c column o code k top Hcol Hcond Hop Hval Htop Hcode Hne Hhas
         Hrect ws ws' chosen.
  assert (Hlen : List.length chosen = len df).
  { unfold chosen. rewrite length_map. apply series_length. exact Hhas. }
  assert (Hdata : Forall (fun r => List.length r = List.length (columns df))
                         (map (map ExcelOperations.value_cell) (rows df))).
  { apply Forall_map. eapply Forall_impl; [|exact Hrect].
    intros r Hr. simpl. rewrite length_map. exact Hr. }
  assert (Hbody : ExcelOperations.highlight_rows_body rt ws df (PDict d) 2
                  = (top_values <- (if top
                                    then ExcelOperations.nlargest (PInt k)
                                           (dtype_of column df) (series column df)
                                    else ExcelOperations.nsmallest (PInt k)
                                           (dtype_of column df) (series column df)) ;;
                     Ok (ExcelOperations.fill_rows code (List.length (columns df)) 2
                           (map (fun v => ExcelOperations.in_values v top_values)
                                (series column df)) ws))).
  { unfold ExcelOperations.highlight_rows_body.
    rewrite Hcol, Hcond, Hcode, Hop, Hval. simpl.
    destruct (String.eqb column "") eqn:E; [apply String.eqb_eq in E; contradiction|].
    simpl. rewrite Hhas. simpl. rewrite Htop.
    destruct top; reflexivity. }
  split.
  - intros Hnum.
    assert (Hws : ws' = header :: paint_rows code chosen
                                     (map (map ExcelOperations.value_cell) (rows df))).
    { unfold ws', ExcelOperations._highlight_rows. rewrite Hbody, Hnum.
      unfold ExcelOperations.nlargest, ExcelOperations.nsmallest.
      destruct top; simpl.
      - rewrite (map_ext_in _ (among_largest k (series column df)))
          by (intros a Ha; apply in_values_largest; exact Ha).
        apply fill_rows_sheet; [exact Hdata|].
        fold chosen. rewrite Hlen, length_map. reflexivity.
      - rewrite (map_ext_in _ (among_smallest k (series column df)))
          by (intros a Ha; apply in_values_smallest; exact Ha).
        apply fill_rows_sheet; [exact Hdata|].
        fold chosen. rewrite Hlen, length_map. reflexivity. }
    split; [exact Hws|]. split; [|exact Hlen].
    rewrite Hws. unfold ws, ExcelOperations.sheet_of. simpl. f_equal.
    apply paint_rows_values. rewrite Hlen, length_map. reflexivity.
  - intros Hobj. unfold ws', ExcelOperations._highlight_rows.
    rewrite Hbody, Hobj. destruct top; reflexivity.
Qed.

Lemma highlight_top_n_only_fills_witness :
  map (map ExcelOperations.cfill)
      (ExcelOperations._highlight_rows example_runtime
         (ExcelOperations.sheet_of (ExcelOperations.plain_header numbers_table) numbers_table)
         numbers_table (highlight_top "x" 2) 2)
  = [[None]; [Some "FF00FF00"]; [None]; [Some "FF00FF00"]].
Proof.
  destruct (highlight_top_n_only_fills example_runtime numbers_table
              (ExcelOperations.plain_header numbers_table)
              [ ("column", PStr "x");
                ("condition", PDict [("operator", PStr "topN"); ("value", PInt 2)]);
                ("color", PStr "green") ]
              [("operator", PStr "topN"); ("value", PInt 2)]
              "x" "topN" "FF00FF00" 2 true
              eq_refl eq_refl eq_refl eq_refl eq_refl eq_refl
              ltac:(discriminate) eq_refl
              ltac:(repeat constructor)) as [H _].
  destruct (H eq_refl) as [H' _].
  unfold highlight_top. rewrite H'. vm_compute. reflexivity.
Defined.

(** C6, as stated, fails: one text entry makes the column of dtype
    object, [nlargest] raises, the exception is swallowed and no row is
    filled, although 30 is the largest amount. *)
Lemma highlight_top_n_text_column :
  ExcelOperations._highlight_rows example_runtime
    (ExcelOperations.sheet_of (ExcelOperations.plain_header amounts_table) amounts_table)
    amounts_table (highlight_top "Amount" 1) 2
  = ExcelOperations.sheet_of (ExcelOperations.plain_header amounts_table) amounts_table.
Proof. vm_compute. reflexivity. Qed.

(** ** Subtotal rows *)

(** C1, at the failing inputs.  For Employer = [A, A, B], Trainer =
    [x, y, z] and the function count, the multi-sheet handler inserts
    "A Count" = 2 after the rows of A and "B Count" = 1 after the row of
    B, as claimed.  [ExcelOperations._apply_subtotals] labels the same
    rows "A Subtotal" and "B Subtotal"; and on a worksheet that keeps a
    title row above the header it scans from row 2, takes the header for
    a group of its own and inserts a third subtotal row, "Employer
    Subtotal" = 1, between the header and the rows of the table. *)
Theorem subtotals_single_workbook_diverges :
  forall rt : PyRuntime,
    map (fun p => two_columns (snd p))
        (MultiSheet._apply_subtotals_to_sheet rt trainers_book (PDict count_trainers)
           [MultiSheet.mkSheet "Data" trainers])
    = [[ (Some (ExcelOperations.WStr "Employer"), Some (ExcelOperations.WStr "Trainer"));
         (Some (ExcelOperations.WStr "A"), Some (ExcelOperations.WStr "x"));
         (Some (ExcelOperations.WStr "A"), Some (ExcelOperations.WStr "y"));
         (Some (ExcelOperations.WStr "A Count"),
          Some (ExcelOperations.WNum (FNum (Z2Qc 2))));
         (Some (ExcelOperations.WStr "B"), Some (ExcelOperations.WStr "z"));
         (Some (ExcelOperations.WStr "B Count"),
          Some (ExcelOperations.WNum (FNum (Z2Qc 1)))) ]]
    /\ two_columns (ExcelOperations._apply_subtotals rt trainers_sheet trainers
                      (PDict count_trainers))
       = [ (Some (ExcelOperations.WStr "Employer"), Some (ExcelOperations.WStr "Trainer"));
           (Some (ExcelOperations.WStr "A"), Some (ExcelOperations.WStr "x"));
           (Some (ExcelOperations.WStr "A"), Some (ExcelOperations.WStr "y"));
           (Some (ExcelOperations.WStr "A Subtotal"),
            Some (ExcelOperations.WNum (FNum (Z2Qc 2))));
           (Some (ExcelOperations.WStr "B"), Some (ExcelOperations.WStr "z"));
           (Some (ExcelOperations.WStr "B Subtotal"),
            Some (ExcelOperations.WNum (FNum (Z2Qc 1)))) ]
    /\ two_columns (ExcelOperations._apply_subtotals rt titled_trainers_sheet trainers
                      (PDict count_trainers))
       = [ (Some (ExcelOperations.WStr "Training report"), None);
           (Some (ExcelOperations.WStr "Employer"), Some (ExcelOperations.WStr "Trainer"));
           (Some (ExcelOperations.WStr "Employer Subtotal"),
            Some (ExcelOperations.WNum (FNum (Z2Qc 1))));
           (Some (ExcelOperations.WStr "A"), Some (ExcelOperations.WStr "x"));
           (Some (ExcelOperations.WStr "A"), Some (ExcelOperations.WStr "y"));
           (Some (ExcelOperations.WStr "A Subtotal"),
            Some (ExcelOperations.WNum (FNum (Z2Qc 2))));
           (Some (ExcelOperations.WStr "B"), Some (ExcelOperations.WStr "z"));
           (Some (ExcelOperations.WStr "B Subtotal"),
            Some (ExcelOperations.WNum (FNum (Z2Qc 1)))) ].
Proof. intros rt. repeat split; vm_compute; reflexivity. Qed.

(** ** Edge behaviour of the row operations *)

Section RowOperationFacts.

Import Pandas.

Variable rt : PyRuntime.

Lemma subseq_refl {A : Type} (l : list A) : subseq l l.
Proof. induction l; constructor; assumption. Qed.

Lemma subseq_trans {A : Type} (l1 l2 l3 : list A) :
  subseq l1 l2 -> subseq l2 l3 -> subseq l1 l3.
Proof.
  intros H12 H23. revert l1 H12.
  induction H23 as [| x l2 l3 H IH | x l2 l3 H IH]; intros l1 H12.
  - exact H12.
  - constructor. apply IH. exact H12.
  - inversion H12; subst.
    + constructor. apply IH. assumption.
    + apply subseq_keep. apply IH. assumption.
Qed.

Lemma subseq_nil_l {A : Type} (l : list A) : subseq [] l.
Proof. induction l; constructor; assumption. Qed.

Lemma select_subseq {A : Type} (mask : list bool) (l : list A) : subseq (select mask l) l.
Proof.
  revert l. induction mask as [|b mask IH]; intros [|x l]; simpl;
    try apply subseq_nil_l.
  destruct b; constructor; apply IH.
Qed.

Lemma drop_positions_subseq {A : Type} (idx : list nat) (i : nat) (l : list A) :
  subseq (drop_positions idx i l) l.
Proof.
  revert i. induction l as [|x l IH]; intros i; simpl; [constructor|].
  destruct (existsb (Nat.eqb i) idx); constructor; apply IH.
Qed.

Lemma firstn_subseq {A : Type} (n : nat) (l : list A) : subseq (firstn n l) l.
Proof.
  revert l. induction n as [|n IH]; intros [|x l]; simpl; try apply subseq_nil_l.
  apply subseq_keep. apply IH.
Qed.

Lemma skipn_subseq {A : Type} (n : nat) (l : list A) : subseq (skipn n l) l.
Proof.
  revert l. induction n as [|n IH]; intros [|x l]; simpl;
    try apply subseq_refl; try constructor.
  apply IH.
Qed.

Lemma removelast_subseq {A : Type} (l : list A) : subseq (removelast l) l.
Proof.
  induction l as [|x l IH]; simpl; [constructor|].
  destruct l; [constructor; constructor | apply subseq_keep; exact IH].
Qed.

Lemma head_subseq {A : Type} (n : Z) (l : list A) : subseq (head n l) l.
Proof. unfold head. destruct (0 <=? n)%Z; apply firstn_subseq. Qed.

Lemma tail_subseq {A : Type} (n : Z) (l : list A) : subseq (tail n l) l.
Proof.
  unfold tail. destruct (n =? 0)%Z; [apply subseq_nil_l|].
  destruct (0 <? n)%Z; apply skipn_subseq.
Qed.

Lemma subseq_length {A : Type} (l1 l2 : list A) :
  subseq l1 l2 -> List.length l1 <= List.length l2.
Proof. induction 1; simpl; lia. Qed.

End RowOperationFacts.

(** X1.  A specification without remove_last_row, delete_rows, filter,
    sort, top_n and bottom_n leaves the table as it is on both paths,
    whatever else it asks for. *)
Theorem cosmetic_specification_keeps_table :
  forall (rt : PyRuntime) (df : DataFrame) (operations : pydict),
    no_row_operation operations ->
    ExcelOperations._apply_data_operations rt df operations = Ok (Some df)
    /\ MultiSheet._apply_operations_to_dataframe rt df operations = Ok df.
Proof.
  intros rt df operations (Hr & Hd & Hf & Hs & Ht & Hb).
  unfold ExcelOperations._apply_data_operations, MultiSheet._apply_operations_to_dataframe,
    ExcelOperations.step_remove_last_row, ExcelOperations.step_delete_rows,
    ExcelOperations.step_filter, ExcelOperations.step_sort, ExcelOperations.step_top_n,
    ExcelOperations.step_bottom_n, MultiSheet.step_delete_rows, MultiSheet.step_filter,
    MultiSheet.step_sort.
  rewrite Hr, Hd, Hf, Hs, Ht, Hb. split; reflexivity.
Qed.

Lemma cosmetic_specification_keeps_table_witness :
  ExcelOperations._apply_data_operations example_runtime numbers_table
    [("highlight_rows", highlight_top "x" 1); ("auto_filter", PBool true)]
  = Ok (Some numbers_table).
Proof.
  apply (cosmetic_specification_keeps_table example_runtime numbers_table
           [("highlight_rows", highlight_top "x" 1); ("auto_filter", PBool true)]).
  repeat split; reflexivity.
Defined.

Section RowNumberFacts.

Import Pandas.

Variable rt : PyRuntime.

Lemma indices_single (n : nat) (zs : list Z) :
  ExcelOperations.indices_to_drop n (PList (map PInt zs))
  = Ok (List.concat (map (valid_index n) zs)).
Proof.
  unfold ExcelOperations.indices_to_drop.
  assert (H : map_res (ExcelOperations.row_number_index n) (map PInt zs)
              = Ok (map (valid_index n) zs)).
  { induction zs as [|z zs IH]; [reflexivity|]. simpl. rewrite IH.
    unfold valid_index. destruct ((0 <? z) && (z <=? Z.of_nat n))%Z; reflexivity. }
  rewrite H. reflexivity.
Qed.

Lemma indices_multi (n : nat) (zs : list Z) :
  MultiSheet.indices_to_drop n (PList (map PInt zs))
  = Ok (List.concat (map (valid_index n) zs)).
Proof.
  unfold MultiSheet.indices_to_drop.
  assert (H : map_res (MultiSheet.row_number_index n) (map PInt zs)
              = Ok (map (valid_index n) zs)).
  { induction zs as [|z zs IH]; [reflexivity|]. simpl. rewrite IH.
    unfold valid_index.
    replace ((0 <=? z - 1) && (z - 1 <? Z.of_nat n))%Z
      with ((0 <? z) && (z <=? Z.of_nat n))%Z; [destruct (_ && _)%bool; reflexivity|].
    destruct (0 <? z)%Z eqn:E1, (z <=? Z.of_nat n)%Z eqn:E2,
             (0 <=? z - 1)%Z eqn:E3, (z - 1 <? Z.of_nat n)%Z eqn:E4; try reflexivity; lia. }
  rewrite H. reflexivity.
Qed.

Lemma drop_positions_filter {A : Type} (idx : list nat) (l : list A) (i : nat) :
  drop_positions idx i l
  = map snd (filter (fun p : nat * A => negb (existsb (Nat.eqb (fst p)) idx))
                    (combine (seq i (List.length l)) l)).
Proof.
  revert i. induction l as [|x l IH]; intros i; simpl; [reflexivity|].
  destruct (existsb (Nat.eqb i) idx); simpl; rewrite IH; reflexivity.
Qed.

Lemma valid_index_hit (n p : nat) (zs : list Z) :
  p < n ->
  existsb (Nat.eqb p) (List.concat (map (valid_index n) zs))
  = existsb (Z.eqb (Z.of_nat (S p))) zs.
Proof.
  intros Hp. induction zs as [|z zs IH]; [reflexivity|].
  cbn [map List.concat existsb]. rewrite existsb_app, IH. f_equal.
  unfold valid_index.
  destruct (0 <? z)%Z eqn:E1, (z <=? Z.of_nat n)%Z eqn:E2; cbn [andb existsb];
    try (symmetry; apply Z.eqb_neq; lia).
  rewrite orb_false_r.
  destruct (Nat.eqb p (Z.to_nat (z - 1))) eqn:E.
  - apply Nat.eqb_eq in E. symmetry. apply Z.eqb_eq. lia.
  - apply Nat.eqb_neq in E. symmetry. apply Z.eqb_neq. lia.
Qed.

Lemma drop_valid_positions {A : Type} (zs : list Z) (l : list A) :
  drop_positions (List.concat (map (valid_index (List.length l)) zs)) 0 l
  = rows_not_numbered zs l.
Proof.
  rewrite drop_positions_filter. unfold rows_not_numbered. f_equal.
  apply filter_ext_in. intros [p x] Hin. simpl. f_equal.
  apply valid_index_hit.
  apply in_combine_l in Hin. apply in_seq in Hin. lia.
Qed.

Lemma drop_no_position {A : Type} (i : nat) (l : list A) : drop_positions [] i l = l.
Proof. revert i. induction l as [|x l IH]; intros i; simpl; [|rewrite IH]; reflexivity. Qed.

End RowNumberFacts.

(** X2.  delete_rows with a list of whole numbers removes exactly the
    rows with these numbers, counted from 1: numbers outside the table are
    ignored, a number given twice counts once, and the other rows stay in
    their order.  The single-table engine and the multi-sheet handler
    give the same table. *)
Theorem delete_rows_by_number :
  forall (rt : PyRuntime) (df : DataFrame) (operations d : pydict) (numbers : list Z),
    dict_get "delete_rows" operations = Some (PDict d) ->
    dict_get "row_numbers" d = Some (PList (map PInt numbers)) ->
    ExcelOperations.step_delete_rows rt operations df
    = Ok (with_rows df (rows_not_numbered numbers (rows df)))
    /\ MultiSheet.step_delete_rows rt operations df
       = Ok (with_rows df (rows_not_numbered numbers (rows df))).
Proof.
  intros rt df operations d numbers Hd Hn.
  unfold ExcelOperations.step_delete_rows, MultiSheet.step_delete_rows.
  rewrite Hd. unfold ExcelOperations.py_has_key, ExcelOperations.py_getitem, dict_has.
  rewrite Hn. cbn [bind]. unfold len.
  rewrite indices_single, indices_multi. cbn [bind].
  rewrite <- drop_valid_positions. split; [|reflexivity].
  destruct (List.concat (map (valid_index (List.length (rows df))) numbers)) eqn:E;
    [|reflexivity].
  rewrite drop_no_position, with_rows_same. reflexivity.
Qed.

Lemma delete_rows_by_number_witness :
  ExcelOperations.step_delete_rows example_runtime
    [("delete_rows", PDict [("row_numbers", PList (map PInt [2; 7; 2; 0]%Z))])] numbers_table
  = Ok (mkDF ["x"] [Numeric] [[Some (VNum (Z2Qc 3))]; [Some (VNum (Z2Qc 2))]]).
Proof.
  destruct (delete_rows_by_number example_runtime numbers_table
              [("delete_rows", PDict [("row_numbers", PList (map PInt [2; 7; 2; 0]%Z))])]
              [("row_numbers", PList (map PInt [2; 7; 2; 0]%Z))] [2; 7; 2; 0]%Z
              eq_refl eq_refl) as [H _].
  rewrite H. reflexivity.
Defined.

(** ** What the row operations keep *)

(** X3.  remove_last_row alone drops the final row and nothing else, on
    both paths; on a table without rows it does nothing. *)
Theorem remove_last_row_drops_final_row :
  forall (rt : PyRuntime) (df : DataFrame) (operations : pydict),
    truthy (dict_get_default "remove_last_row" PNone operations) = true ->
    dict_get "delete_rows" operations = None ->
    dict_get "filter" operations = None ->
    dict_get "sort" operations = None ->
    dict_get "top_n" operations = None ->
    dict_get "bottom_n" operations = None ->
    exists t : DataFrame,
      ExcelOperations._apply_data_operations rt df operations = Ok (Some t)
      /\ MultiSheet._apply_operations_to_dataframe rt df operations = Ok t
      /\ columns t = columns df
      /\ (rows df = [] -> t = df)
      /\ (forall front last, rows df = front ++ [last] -> rows t = front).
Proof.
  intros rt df operations Hr Hd Hf Hs Ht Hb.
  exists (ExcelOperations.step_remove_last_row operations df).
  unfold ExcelOperations._apply_data_operations, MultiSheet._apply_operations_to_dataframe,
    ExcelOperations.step_delete_rows, ExcelOperations.step_filter,
    ExcelOperations.step_sort, ExcelOperations.step_top_n, ExcelOperations.step_bottom_n,
    MultiSheet.step_delete_rows, MultiSheet.step_filter, MultiSheet.step_sort.
  rewrite Hd, Hf, Hs, Ht, Hb. cbn [bind].
  split; [reflexivity|]. split; [reflexivity|].
  unfold ExcelOperations.step_remove_last_row, len. rewrite Hr.
  destruct (0 <? List.length (rows df)) eqn:E.
  - apply Nat.ltb_lt in E. cbn [columns rows]. repeat split.
    + intros H. rewrite H in E. simpl in E. lia.
    + intros front last H. rewrite H. apply removelast_last.
  - apply Nat.ltb_ge in E. repeat split.
    intros front last H. rewrite H, length_app in E. simpl in E. lia.
Qed.

Lemma remove_last_row_drops_final_row_witness :
  exists t : DataFrame,
    ExcelOperations._apply_data_operations example_runtime numbers_table
      [("remove_last_row", PBool true)] = Ok (Some t)
    /\ rows t = [[Some (VNum (Z2Qc 3))]; [Some (VNum (Z2Qc 1))]].
Proof.
  destruct (remove_last_row_drops_final_row example_runtime numbers_table
              [("remove_last_row", PBool true)] eq_refl eq_refl eq_refl eq_refl eq_refl eq_refl)
    as [t [H1 [_ [_ [_ H2]]]]].
  exists t. split; [exact H1|].
  apply (H2 [[Some (VNum (Z2Qc 3))]; [Some (VNum (Z2Qc 1))]] [Some (VNum (Z2Qc 2))]).
  reflexivity.
Defined.

Section TopBottomFacts.

Lemma head_nonneg {A : Type} (z : Z) (l : list A) :
  (0 <= z)%Z -> Pandas.head z l = firstn (Z.to_nat z) l.
Proof. intros H. unfold Pandas.head. destruct (0 <=? z)%Z eqn:E; [reflexivity | lia]. Qed.

Lemma tail_nonneg {A : Type} (z : Z) (l : list A) :
  (0 <= z)%Z -> Pandas.tail z l = lastn (Z.to_nat z) l.
Proof.
  intros H. unfold Pandas.tail, lastn.
  destruct (z =? 0)%Z eqn:E0.
  - apply Z.eqb_eq in E0. subst. simpl. rewrite Nat.sub_0_r, skipn_all. reflexivity.
  - destruct (0 <? z)%Z eqn:E1; [reflexivity | lia].
Qed.

Lemma lastn_all {A : Type} (n : nat) (l : list A) : List.length l <= n -> lastn n l = l.
Proof. intros H. unfold lastn. replace (List.length l - n) with 0 by lia. reflexivity. Qed.

End TopBottomFacts.

(** X4.  With whole numbers that are not negative, top_n keeps the first
    n rows and bottom_n the last n rows; when both are given top_n is
    applied first.  A number that is at least the number of rows changes
    nothing. *)
Theorem top_then_bottom_rows :
  forall (rt : PyRuntime) (df : DataFrame) (operations : pydict) (top bottom : option Z),
    truthy (dict_get_default "remove_last_row" PNone operations) = false ->
    dict_get "delete_rows" operations = None ->
    dict_get "filter" operations = None ->
    dict_get "sort" operations = None ->
    dict_get "top_n" operations = option_map PInt top ->
    dict_get "bottom_n" operations = option_map PInt bottom ->
    (forall z, top = Some z -> (0 <= z)%Z) ->
    (forall z, bottom = Some z -> (0 <= z)%Z) ->
    exists t : DataFrame,
      ExcelOperations._apply_data_operations rt df operations = Ok (Some t)
      /\ columns t = columns df
      /\ rows t = keep_last bottom (keep_first top (rows df))
      /\ ((forall z, top = Some z -> (Z.of_nat (len df) <= z)%Z) ->
          (forall z, bottom = Some z -> (Z.of_nat (len df) <= z)%Z) ->
          t = df).
Proof.
  intros rt df operations top bottom Hr Hd Hf Hs Ht Hb Htop Hbot.
  unfold ExcelOperations._apply_data_operations, ExcelOperations.step_remove_last_row,
    ExcelOperations.step_delete_rows, ExcelOperations.step_filter,
    ExcelOperations.step_sort, ExcelOperations.step_top_n, ExcelOperations.step_bottom_n.
  rewrite Hr, Hd, Hf, Hs, Ht, Hb. cbn [bind].
  exists (with_rows df (keep_last bottom (keep_first top (rows df)))).
  split.
  { destruct top as [a|], bottom as [b|];
      cbn [option_map bind keep_first keep_last columns rows with_rows dtypes].
    - rewrite head_nonneg by (apply Htop; reflexivity).
      rewrite tail_nonneg by (apply Hbot; reflexivity). reflexivity.
    - rewrite head_nonneg by (apply Htop; reflexivity). reflexivity.
    - rewrite tail_nonneg by (apply Hbot; reflexivity). reflexivity.
    - rewrite with_rows_same. reflexivity. }
  split; [reflexivity|]. split; [reflexivity|].
  intros Ha Hbb.
  assert (E1 : keep_first top (rows df) = rows df).
  { destruct top as [a|]; [|reflexivity]. cbn [keep_first].
    apply firstn_all2. specialize (Ha a eq_refl). unfold len in Ha. lia. }
  assert (E2 : keep_last bottom (rows df) = rows df).
  { destruct bottom as [b|]; [|reflexivity]. cbn [keep_last].
    apply lastn_all. specialize (Hbb b eq_refl). unfold len in Hbb. lia. }
  rewrite E1, E2. apply with_rows_same.
Qed.

Lemma top_then_bottom_rows_witness :
  exists t : DataFrame,
    ExcelOperations._apply_data_operations example_runtime numbers_table
      [("bottom_n", PInt 1); ("top_n", PInt 2)] = Ok (Some t)
    /\ rows t = [[Some (VNum (Z2Qc 1))]].
Proof.
  destruct (top_then_bottom_rows example_runtime numbers_table
              [("bottom_n", PInt 1); ("top_n", PInt 2)] (Some 2%Z) (Some 1%Z)
              eq_refl eq_refl eq_refl eq_refl eq_refl eq_refl
              ltac:(intros z H; inversion H; lia) ltac:(intros z H; inversion H; lia))
    as [t [H1 [_ [H2 _]]]].
  exists t. split; [exact H1 | rewrite H2; reflexivity].
Defined.

(** ** No row operation invents, repeats or moves a row *)

Section WithinFacts.

Import Pandas.

Variable rt : PyRuntime.

Lemma within_refl (df : DataFrame) : within df df.
Proof. split; [reflexivity | apply subseq_refl]. Qed.

Lemma within_trans (a b c : DataFrame) : within a b -> within b c -> within a c.
Proof.
  intros [H1 H2] [H3 H4]. split; [congruence | eapply subseq_trans; eassumption].
Qed.

Lemma within_select (mask : list bool) (df : DataFrame) : within (df_select mask df) df.
Proof. split; [reflexivity | apply select_subseq]. Qed.

Lemma within_remove_last (operations : pydict) (df : DataFrame) :
  within (ExcelOperations.step_remove_last_row operations df) df.
Proof.
  unfold ExcelOperations.step_remove_last_row.
  destruct (truthy _); [|apply within_refl].
  destruct (0 <? len df); [|apply within_refl].
  split; [reflexivity | apply removelast_subseq].
Qed.

Ltac split_result H :=
  repeat match type of H with
         | bind ?m _ = _ => let E := fresh "E" in destruct m eqn:E; cbn [bind] in H
         | (if ?b then _ else _) = _ => destruct b
         | match ?x with _ => _ end = _ => destruct x
         end;
  try discriminate.

Lemma within_delete_single (operations : pydict) (df t : DataFrame) :
  ExcelOperations.step_delete_rows rt operations df = Ok t -> within t df.
Proof.
  unfold ExcelOperations.step_delete_rows. intros H.
  split_result H;
    inversion H; subst;
    first [apply within_refl | apply within_select
          | split; [reflexivity | apply drop_positions_subseq]].
Qed.

Lemma within_delete_multi (operations : pydict) (df t : DataFrame) :
  MultiSheet.step_delete_rows rt operations df = Ok t -> within t df.
Proof.
  unfold MultiSheet.step_delete_rows. intros H.
  split_result H;
    inversion H; subst;
    first [apply within_refl | apply within_select
          | split; [reflexivity | apply drop_positions_subseq]].
Qed.

Lemma within_apply_filter (df t : DataFrame) (column : string) (condition : pyobj) :
  ExcelOperations._apply_filter rt df column condition = Some t -> within t df.
Proof.
  unfold ExcelOperations._apply_filter. intros H.
  destruct (ExcelOperations.condition_mask rt _ (series column df) condition) as [[m|]|];
    inversion H; subst; [apply within_select | apply within_refl].
Qed.

Lemma filter_loop_single (items : pydict) (d0 : option DataFrame) (t : DataFrame) :
  ExcelOperations.filter_loop rt items d0 = Ok (Some t) ->
  exists df, d0 = Some df /\ within t df.
Proof.
  revert d0. induction items as [|[column condition] items IH]; intros d0 H; simpl in H.
  - inversion H; subst. exists t. split; [reflexivity | apply within_refl].
  - destruct d0 as [df|]; [|discriminate]. exists df. split; [reflexivity|].
    destruct (has_column column df).
    + apply IH in H. destruct H as [df' [E Hw]].
      eapply within_trans; [exact Hw|]. eapply within_apply_filter. exact E.
    + apply IH in H. destruct H as [df' [E Hw]]. inversion E; subst. exact Hw.
Qed.

Lemma filter_loop_multi (items : pydict) (df t : DataFrame) :
  MultiSheet.filter_loop rt items df = Ok t -> within t df.
Proof.
  revert df. induction items as [|[column condition] items IH]; intros df H; simpl in H.
  - inversion H; subst. apply within_refl.
  - destruct (has_column column df); [|apply IH; exact H].
    destruct condition; try (apply IH; exact H).
    unfold bind in H.
    destruct (MultiSheet.operator_mask _ _ _) as [[m|]|]; try discriminate.
    + eapply within_trans; [apply IH; exact H | apply within_select].
    + apply IH. exact H.
Qed.

Lemma within_top_bottom (operations : pydict) (d0 : option DataFrame) (t : DataFrame) :
  (ExcelOperations.step_top_n operations d0 = Ok (Some t)
   \/ ExcelOperations.step_bottom_n operations d0 = Ok (Some t)) ->
  exists df, d0 = Some df /\ within t df.
Proof.
  unfold ExcelOperations.step_top_n, ExcelOperations.step_bottom_n.
  intros [H | H]; split_result H; inversion H; subst;
    eexists; (split; [reflexivity|]);
    first [apply within_refl
          | split; [reflexivity | apply head_subseq]
          | split; [reflexivity | apply tail_subseq]].
Qed.

End WithinFacts.



(** ** Highlighting by an ordinary condition, and the rules of a
    conditional format *)

Section OrdinaryHighlight.

Import ExcelOperations.

Variable rt : PyRuntime.

Lemma first_rule_find (value : cellv) (rules : list pydict) :
  Forall (fun r => hashable (dict_get_default "color" (PStr "yellow") r)) rules ->
  first_rule rt value (map PDict rules)
  = Ok (option_map rule_fill (find (rule_matches rt value) rules)).
Proof.
  induction 1 as [|r rules Hr _ IH]; [reflexivity|].
  cbn [map first_rule find]. unfold rule_matches at 1.
  destruct (Condition.matches rt value (dict_get_default "condition" PNone r)); [|exact IH].
  cbn [option_map]. unfold rule_fill, color_code.
  destruct (dict_get_default "color" (PStr "yellow") r); try contradiction; reflexivity.
Qed.

Lemma format_cells_frame_below (rules : pyobj) (col r : nat) (s : list cellv)
  (ws : worksheet) (r' c' : nat) :
  1 <= col -> 1 <= r -> 1 <= c' -> r + List.length s <= r' ->
  ws_cell (format_cells rt rules col r s ws) r' c' = ws_cell ws r' c'.
Proof.
  intros Hcol Hr Hc'. revert r ws Hr.
  induction s as [|v s IH]; intros r ws Hr H; simpl in *; [reflexivity|].
  destruct (bind (iterate rules) _) as [[code|]|]; try reflexivity.
  - rewrite IH by lia. apply ws_cell_update_other; try lia.
    intros E. inversion E. lia.
  - apply IH; lia.
Qed.

End OrdinaryHighlight.

(** X6.  For a condition that is not topN or bottomN on an existing
    column, [_highlight_rows] fills every cell of exactly the rows whose
    cell in that column passes [_check_condition]; the header, all values
    and the order of the rows stay as they are. *)
Theorem highlight_rows_by_condition :
  forall (rt : PyRuntime) (df : DataFrame) (header : list ExcelOperations.cell)
         (d : pydict) (column code : string) (condition : pyobj),
    dict_get_default "column" PNone d = PStr column ->
    dict_get_default "condition" PNone d = condition ->
    ordinary_condition rt condition ->
    ExcelOperations.color_code ExcelOperations.COLORS "FFFFFF00"
      (dict_get_default "color" (PStr "yellow") d) = Ok code ->
    column <> "" ->
    has_column column df = true ->
    Forall (fun r => List.length r = List.length (columns df)) (rows df) ->
    let ws := ExcelOperations.sheet_of header df in
    let ws' := ExcelOperations._highlight_rows rt ws df (PDict d) 2 in
    let chosen := map (fun v => Condition.matches rt v condition) (series column df) in
    ws' = header :: paint_rows code chosen (map (map ExcelOperations.value_cell) (rows df))
    /\ map (map ExcelOperations.cvalue) ws' = map (map ExcelOperations.cvalue) ws.
Proof.
  intros rt df header d column code condition Hcol Hcond Hord Hcode Hne Hhas Hrect
         ws ws' chosen.
  assert (Hlen : List.length chosen = List.length (rows df)).
  { unfold chosen. rewrite length_map. apply series_length. exact Hhas. }
  assert (Hdata : Forall (fun r => List.length r = List.length (columns df))
                         (map (map ExcelOperations.value_cell) (rows df))).
  { apply Forall_map. eapply Forall_impl; [|exact Hrect].
    intros r Hr. simpl. rewrite length_map. exact Hr. }
  assert (Hws : ws' = header :: paint_rows code chosen
                                   (map (map ExcelOperations.value_cell) (rows df))).
  { unfold ws', ExcelOperations._highlight_rows, ExcelOperations.highlight_rows_body.
    rewrite Hcol, Hcond, Hcode. cbn [truthy].
    destruct (String.eqb column "") eqn:E; [apply String.eqb_eq in E; contradiction|].
    cbn [negb ExcelOperations.py_in_columns bind]. rewrite Hhas. cbn [negb].
    unfold ordinary_condition in Hord.
    destruct condition as [ | | | | | |c];
      cbn [bind]; try (apply fill_rows_sheet; [exact Hdata | rewrite length_map; exact Hlen]).
    destruct (dict_get_default "operator" (PStr "") c) as [ | | | |o| | ]; try contradiction.
    cbn [bind]. rewrite Hord.
    apply fill_rows_sheet; [exact Hdata | rewrite length_map; exact Hlen]. }
  split; [exact Hws|].
  rewrite Hws. unfold ws, ExcelOperations.sheet_of. simpl. f_equal.
  apply paint_rows_values. rewrite length_map. exact Hlen.
Qed.

Lemma highlight_rows_by_condition_witness :
  map (map ExcelOperations.cfill)
      (ExcelOperations._highlight_rows example_runtime
         (ExcelOperations.sheet_of (ExcelOperations.plain_header numbers_table) numbers_table)
         numbers_table
         (PDict [("column", PStr "x"); ("condition", greater_than 1); ("color", PStr "red")]) 2)
  = [[None]; [Some "FFFF0000"]; [None]; [Some "FFFF0000"]].
Proof.
  destruct (highlight_rows_by_condition example_runtime numbers_table
              (ExcelOperations.plain_header numbers_table)
              [("column", PStr "x"); ("condition", greater_than 1); ("color", PStr "red")]
              "x" "FFFF0000" (greater_than 1)
              eq_refl eq_refl eq_refl eq_refl ltac:(discriminate) eq_refl
              ltac:(repeat constructor)) as [H _].
  rewrite H. vm_compute. reflexivity.
Defined.

(** X7.  [ExcelOperations._apply_conditional_formatting] with a list of
    rules whose colours are hashable: a data cell of the column gets the
    fill of the first rule, in the order of the list, whose condition it
    passes, and keeps its fill when no rule matches; no later rule
    overrides it.  No other cell of the sheet changes: not the rows
    above the data, not the other columns, not the cells of the column
    below the last row of the table. *)
Theorem conditional_format_first_rule :
  forall (rt : PyRuntime) (df : DataFrame) (ws : ExcelOperations.worksheet)
         (d : pydict) (column : string) (rules : list pydict) (i : nat),
    dict_get_default "column" PNone d = PStr column ->
    dict_get_default "rules" (PList []) d = PList (map PDict rules) ->
    Forall (fun r => hashable (dict_get_default "color" (PStr "yellow") r)) rules ->
    column <> "" ->
    get_loc column (columns df) = Some i ->
    let ws' := ExcelOperations._apply_conditional_formatting rt ws df (PDict d) 2 in
    (forall k, k < len df ->
       ExcelOperations.ws_cell ws' (2 + k) (i + 1)
       = match find (rule_matches rt (nth k (series column df) None)) rules with
         | Some r => ExcelOperations.set_fill (rule_fill r)
                       (ExcelOperations.ws_cell ws (2 + k) (i + 1))
         | None => ExcelOperations.ws_cell ws (2 + k) (i + 1)
         end)
    /\ (forall r c, 1 <= r -> 1 <= c -> r < 2 \/ c <> i + 1 \/ 2 + len df <= r ->
          ExcelOperations.ws_cell ws' r c = ExcelOperations.ws_cell ws r c).
Proof.
  intros rt df ws d column rules i Hcol Hrules Hhash Hne Hi ws'.
  assert (Hws : ws' = ExcelOperations.format_cells rt (PList (map PDict rules)) (i + 1) 2
                        (series column df) ws).
  { unfold ws', ExcelOperations._apply_conditional_formatting.
    rewrite Hcol, Hrules. cbn [truthy].
    destruct (String.eqb column "") eqn:E; [apply String.eqb_eq in E; contradiction|].
    cbn [negb ExcelOperations.py_in_columns ExcelOperations.column_name].
    unfold has_column. rewrite Hi. reflexivity. }
  rewrite Hws. split.
  - intros k Hk.
    rewrite (format_cells_first_match rt (PList (map PDict rules)) (map PDict rules));
      try lia; try reflexivity.
    + rewrite first_rule_find by exact Hhash.
      destruct (find _ rules); reflexivity.
    + apply Forall_forall. intros v _. rewrite first_rule_find by exact Hhash. discriminate.
    + unfold series. rewrite Hi. rewrite length_map. exact Hk.
  - intros r c Hr Hc [H | [H | H]].
    + apply format_cells_frame; lia.
    + apply format_cells_frame; lia.
    + apply format_cells_frame_below; try lia.
      unfold series. rewrite Hi, length_map. exact H.
Qed.

Lemma conditional_format_first_rule_witness :
  ExcelOperations.cfill
    (ExcelOperations.ws_cell
       (ExcelOperations._apply_conditional_formatting example_runtime score_sheet score_table
          two_rules 2) 2 1)
  = Some "FFFF0000".
Proof.
  destruct (conditional_format_first_rule example_runtime score_table score_sheet
              [ ("column", PStr "Score");
                ("rules", PList [ PDict [("condition", greater_than 5); ("color", PStr "red")];
                                  PDict [("condition", greater_than 0); ("color", PStr "green")] ]) ]
              "Score"
              [ [("condition", greater_than 5); ("color", PStr "red")];
                [("condition", greater_than 0); ("color", PStr "green")] ]
              0 eq_refl eq_refl ltac:(repeat constructor) ltac:(discriminate) eq_refl)
    as [H _].
  pose proof (H 0 ltac:(vm_compute; lia)) as H0.
  change (2 + 0) with 2 in H0. change (0 + 1) with 1 in H0.
  unfold two_rules. rewrite H0. reflexivity.
Defined.
(** ** Subtotals on unknown columns *)
(** ** Subtotals on tables that are not sorted, and on unknown columns *)

Lemma wb_set_get (n : string) (ws : ExcelOperations.worksheet) (wb : MultiSheet.workbook) :
  MultiSheet.wb_get n wb = Some ws -> MultiSheet.wb_set n ws wb = wb.
Proof.
  induction wb as [|[n' w] wb IH]; simpl; [reflexivity|].
  destruct (String.eqb n n') eqn:E.
  - intros H. inversion H. reflexivity.
  - intros H. rewrite IH by exact H. reflexivity.
Qed.

Lemma find_df_in (n : string) (sheets : list MultiSheet.sheet) (t : DataFrame) :
  MultiSheet.find_df n sheets = Some t -> exists s, In s sheets /\ MultiSheet.df s = t.
Proof.
  induction sheets as [|s sheets IH]; simpl; [discriminate|].
  destruct (String.eqb (MultiSheet.sheet_name s) n).
  - intros H. inversion H. exists s. split; [left; reflexivity | reflexivity].
  - intros H. destruct (IH H) as [s' [Hin Hs']]. exists s'. split; [right; exact Hin | exact Hs'].
Qed.

Lemma subtotals_body_lacking (rt : PyRuntime) (suffix : string)
  (ws : ExcelOperations.worksheet) (t : DataFrame) (d : pydict) (g a : string) :
  dict_get_default "group_by" PNone d = PStr g ->
  dict_get_default "aggregate_column" PNone d = PStr a ->
  lacks_column g a t ->
  fst (ExcelOperations.subtotals_body rt suffix ws t (PDict d)) = ws.
Proof.
  intros Hg Ha Hl. unfold ExcelOperations.subtotals_body. rewrite Hg, Ha.
  destruct (dict_get_default "function" (PStr "count") d); try reflexivity.
  cbn [truthy ExcelOperations.py_in_columns].
  destruct (negb (String.eqb g "")); [|reflexivity].
  destruct (has_column g t) eqn:Eg; [|reflexivity].
  destruct (negb (String.eqb a "")); [|reflexivity].
  destruct (has_column a t) eqn:Ea; [|reflexivity].
  destruct Hl; congruence.
Qed.

(** X9.  A subtotal request that names a group column or an aggregate
    column the table does not have changes nothing: the worksheet of
    [ExcelOperations._apply_subtotals] and the workbook of the
    multi-sheet handler are left exactly as they were, whatever the
    function asked for. *)
Theorem subtotals_unknown_column_no_change :
  forall (rt : PyRuntime) (d : pydict) (g a : string),
    dict_get_default "group_by" PNone d = PStr g ->
    dict_get_default "aggregate_column" PNone d = PStr a ->
    (forall (ws : ExcelOperations.worksheet) (t : DataFrame),
        lacks_column g a t ->
        ExcelOperations._apply_subtotals rt ws t (PDict d) = ws)
    /\ (forall (wb : MultiSheet.workbook) (sheets : list MultiSheet.sheet),
          Forall (fun s => lacks_column g a (MultiSheet.df s)) sheets ->
          MultiSheet._apply_subtotals_to_sheet rt wb (PDict d) sheets = wb).
Proof.
  intros rt d g a Hg Ha. split.
  - intros ws t Hl. unfold ExcelOperations._apply_subtotals.
    eapply subtotals_body_lacking; eassumption.
  - intros wb sheets Hall. unfold MultiSheet._apply_subtotals_to_sheet.
    destruct (MultiSheet.target_of d sheets) as [[ | | | |n| | ]|]; try reflexivity.
    destruct (MultiSheet.wb_get n wb) as [ws|] eqn:Ews; [|reflexivity].
    destruct (MultiSheet.find_df n sheets) as [t|] eqn:Et; [|reflexivity].
    destruct (find_df_in _ _ _ Et) as [s [Hin Hs]].
    rewrite Forall_forall in Hall. specialize (Hall s Hin). rewrite Hs in Hall.
    pose proof (subtotals_body_lacking rt " Count" ws t d g a Hg Ha Hall) as Hb.
    destruct (ExcelOperations.subtotals_body rt " Count" ws t (PDict d)) as [ws' ok].
    simpl in Hb. subst ws'. destruct ok; [apply wb_set_get; exact Ews | reflexivity].
Qed.

Lemma subtotals_unknown_column_no_change_witness :
  ExcelOperations._apply_subtotals example_runtime trainers_sheet trainers
    (PDict [("group_by", PStr "Region"); ("aggregate_column", PStr "Trainer")])
  = trainers_sheet.
Proof.
  destruct (subtotals_unknown_column_no_change example_runtime
              [("group_by", PStr "Region"); ("aggregate_column", PStr "Trainer")]
              "Region" "Trainer" eq_refl eq_refl) as [H _].
  apply H. left. reflexivity.
Defined.

(** ** Custom sheet names of a merge *)

Lemma remove_first_perm (x : string) (l : list string) :
  In x l -> Permutation l (x :: SheetNames.remove_first x l).
Proof.
  induction l as [|y l IH]; simpl; [tauto|].
  destruct (String.eqb y x) eqn:E.
  - apply String.eqb_eq in E. subst. intros _. apply Permutation_refl.
  - intros [H | H]; [subst; rewrite String.eqb_refl in E; discriminate|].
    eapply Permutation_trans; [apply perm_skip; apply IH; exact H | apply perm_swap].
Qed.

Lemma mapping_set_fresh (k v : string) (m : list (string * string)) :
  ~ In k (map fst m) -> SheetNames.mapping_set k v m = m ++ [(k, v)].
Proof.
  induction m as [|[k' v'] m IH]; simpl; [reflexivity|].
  intros H. destruct (String.eqb k k') eqn:E.
  - apply String.eqb_eq in E. subst. tauto.
  - rewrite IH by tauto. reflexivity.
Qed.

Lemma assign_names_all (rt : PyRuntime) (files : list (string * Merge.file_data)) :
  forall (available : list string) (mapping : list (string * string)),
    NoDup (map fst mapping ++ map fst files) ->
    List.length available = List.length files ->
    map fst (SheetNames.assign_names rt files available mapping)
    = map fst mapping ++ map fst files
    /\ Permutation (map snd (SheetNames.assign_names rt files available mapping))
                   (map snd mapping ++ available).
Proof.
  induction files as [|[file_id fd] files IH]; intros available mapping Hnd Hlen.
  - destruct available; [|discriminate]. simpl. rewrite !app_nil_r.
    split; [reflexivity | apply Permutation_refl].
  - assert (Hfresh : ~ In file_id (map fst mapping)).
    { simpl in Hnd. apply NoDup_remove_2 in Hnd. rewrite in_app_iff in Hnd. tauto. }
    assert (Hnd' : forall v, NoDup (map fst (mapping ++ [(file_id, v)]) ++ map fst files)).
    { intros v. rewrite map_app. simpl. rewrite <- app_assoc. exact Hnd. }
    assert (Hstep : forall (n : string) (rest : list string),
               Permutation available (n :: rest) ->
               map fst (SheetNames.assign_names rt files rest
                          (SheetNames.mapping_set file_id n mapping))
               = map fst mapping ++ map fst ((file_id, fd) :: files)
               /\ Permutation
                    (map snd (SheetNames.assign_names rt files rest
                                (SheetNames.mapping_set file_id n mapping)))
                    (map snd mapping ++ available)).
    { intros n rest Hp. rewrite mapping_set_fresh by exact Hfresh.
      destruct (IH rest (mapping ++ [(file_id, n)]) (Hnd' n)) as [H1 H2].
      { apply Permutation_length in Hp. simpl in Hp, Hlen. lia. }
      split.
      - rewrite H1, map_app, <- app_assoc. reflexivity.
      - eapply Permutation_trans; [exact H2|].
        rewrite map_app, <- app_assoc. apply Permutation_app_head.
        simpl. apply Permutation_sym. exact Hp. }
    cbn [SheetNames.assign_names].
    destruct (find (SheetNames.name_matches rt (Merge.filename fd)) available) as [n|] eqn:E.
    + apply Hstep. apply remove_first_perm. apply find_some in E. tauto.
    + destruct available as [|first rest]; [discriminate|].
      apply Hstep. apply Permutation_refl.
Qed.

(** X11.  When a merge request gives as many sheet names as there are
    uploaded files, every file is given one of them and every name is
    used exactly once: the mapping has the files in their order as keys,
    and its names are a rearrangement of the requested names, whichever
    of them match a file name. *)
Theorem custom_sheet_names_all_used :
  forall (rt : PyRuntime) (names : list string) (files : list (string * Merge.file_data)),
    NoDup (map fst files) ->
    names <> [] ->
    List.length names = List.length files ->
    let mapping := SheetNames.sheet_name_mapping rt (Some names) files in
    map fst mapping = map fst files
    /\ Permutation (map snd mapping) names.
Proof.
  intros rt names files Hnd Hne Hlen mapping.
  unfold mapping, SheetNames.sheet_name_mapping.
  destruct names as [|n names]; [contradiction|].
  rewrite (proj2 (Nat.eqb_eq _ _) Hlen).
  apply (assign_names_all rt files (n :: names) []); [exact Hnd | exact Hlen].
Qed.

Lemma custom_sheet_names_all_used_witness :
  SheetNames.sheet_name_mapping example_runtime (Some ["February"; "Jan"]) two_files
  = [("f1", "Jan"); ("f2", "February")]
  /\ Permutation ["Jan"; "February"] ["February"; "Jan"].
Proof.
  destruct (custom_sheet_names_all_used example_runtime ["February"; "Jan"] two_files
              ltac:(repeat constructor; simpl; intuition discriminate)
              ltac:(discriminate) eq_refl) as [_ H].
  split; [reflexivity | exact H].
Defined.

(** ** The operations of a multi-operation request *)

Lemma dict_get_without_routing (k : string) (operation : pydict) :
  ~ In k FullDataAgent.routing_keys ->
  dict_get k (FullDataAgent.without_routing operation) = dict_get k operation.
Proof.
  intros Hk. induction operation as [|[k' v] operation IH]; [reflexivity|].
  unfold FullDataAgent.without_routing in *. cbn [filter fst].
  destruct (existsb (String.eqb k') FullDataAgent.routing_keys) eqn:E; cbn [negb dict_get].
  - rewrite IH. destruct (String.eqb k k') eqn:Ek; [|reflexivity].
    apply String.eqb_eq in Ek. subst k'. exfalso. apply Hk.
    apply existsb_exists in E. destruct E as [x [Hx Hxe]].
    apply String.eqb_eq in Hxe. subst x. exact Hx.
  - rewrite IH. reflexivity.
Qed.

(** X12.  [FullDataAgent._apply_single_operation_to_df] gives, for every
    table and every operation, what the multi-sheet handler's
    [_apply_operations_to_dataframe] gives for the same operation: the
    routing keys [apply_to_all_sheets] and [target_sheet] it removes
    first have no effect on the rows, and an exception of one is an
    exception of the other. *)
Theorem single_operation_as_multi_sheet :
  forall (rt : PyRuntime) (t : DataFrame) (operation : pydict),
    FullDataAgent._apply_single_operation_to_df rt t operation
    = MultiSheet._apply_operations_to_dataframe rt t operation.
Proof.
  intros rt t operation.
  assert (Hget : forall k, ~ In k FullDataAgent.routing_keys ->
                   dict_get k (FullDataAgent.without_routing operation)
                   = dict_get k operation)
    by (intros k Hk; apply dict_get_without_routing; exact Hk).
  assert (Hkey : forall k, String.eqb k "apply_to_all_sheets" = false ->
                           String.eqb k "target_sheet" = false ->
                           ~ In k FullDataAgent.routing_keys).
  { intros k H1 H2 [H | [H | []]]; subst k; discriminate. }
  unfold FullDataAgent._apply_single_operation_to_df,
    MultiSheet._apply_operations_to_dataframe.
  assert (E1 : forall x, ExcelOperations.step_remove_last_row
                           (FullDataAgent.without_routing operation) x
                         = ExcelOperations.step_remove_last_row operation x).
  { intros x. unfold ExcelOperations.step_remove_last_row, dict_get_default.
    rewrite Hget by (apply Hkey; reflexivity). reflexivity. }
  assert (E2 : forall x, MultiSheet.step_delete_rows rt
                           (FullDataAgent.without_routing operation) x
                         = MultiSheet.step_delete_rows rt operation x).
  { intros x. unfold MultiSheet.step_delete_rows.
    rewrite Hget by (apply Hkey; reflexivity). reflexivity. }
  assert (E3 : forall x, MultiSheet.step_filter rt
                           (FullDataAgent.without_routing operation) x
                         = MultiSheet.step_filter rt operation x).
  { intros x. unfold MultiSheet.step_filter.
    rewrite Hget by (apply Hkey; reflexivity). reflexivity. }
  assert (E4 : forall x, MultiSheet.step_sort rt
                           (FullDataAgent.without_routing operation) x
                         = MultiSheet.step_sort rt operation x).
  { intros x. unfold MultiSheet.step_sort.
    rewrite Hget by (apply Hkey; reflexivity). reflexivity. }
  rewrite E1, E2.
  destruct (MultiSheet.step_delete_rows rt operation _) as [t2|]; [|reflexivity].
  cbn [bind]. rewrite E3.
  destruct (MultiSheet.step_filter rt operation t2) as [t3|]; [|reflexivity].
  cbn [bind]. apply E4.
Qed.

(** ** The fill of single cells *)

Section CellFacts.

Import ExcelOperations Highlighting.

Lemma set_fill_twice (code : string) (x : cell) :
  set_fill code (set_fill code x) = set_fill code x.
Proof. reflexivity. Qed.

Lemma fill_row_cell (code : string) (ncols r : nat) (ws : worksheet) (r' c' : nat) :
  1 <= r -> 1 <= r' -> 1 <= c' ->
  ws_cell (fill_row code ncols r ws) r' c'
  = if (r' =? r) && (c' <=? ncols) then set_fill code (ws_cell ws r' c')
    else ws_cell ws r' c'.
Proof.
  intros Hr Hr' Hc'. unfold fill_row.
  induction ncols as [|n IH].
  - simpl. replace (c' <=? 0) with false by (symmetry; apply Nat.leb_gt; lia).
    rewrite andb_false_r. reflexivity.
  - rewrite seq_S, fold_left_app. cbn [fold_left]. change (1 + n) with (S n).
    destruct (Nat.eq_dec r' r) as [-> | Hne].
    + rewrite Nat.eqb_refl in *. cbn [andb] in *.
      destruct (Nat.eq_dec c' (S n)) as [-> | Hc].
      * rewrite ws_cell_update_same, IH.
        replace (S n <=? n) with false by (symmetry; apply Nat.leb_gt; lia).
        rewrite Nat.leb_refl. reflexivity.
      * rewrite ws_cell_update_other by (try lia; intros E; inversion E; lia).
        rewrite IH.
        destruct (Nat.leb_spec c' n), (Nat.leb_spec c' (S n)); try reflexivity; lia.
    + rewrite ws_cell_update_other by (try lia; intros E; inversion E; lia).
      rewrite IH. apply Nat.eqb_neq in Hne. rewrite Hne. reflexivity.
Qed.

Lemma fill_rows_cell_from (code : string) (ncols start : nat) (flags : list bool) :
  forall (k : nat) (ws : worksheet) (r' c' : nat),
    1 <= start -> 1 <= r' -> 1 <= c' ->
    ws_cell (fold_left (fun (w : worksheet) (p : nat * bool) =>
                          if snd p then fill_row code ncols (fst p + start) w else w)
                       (combine (seq k (List.length flags)) flags) ws) r' c'
    = if (k + start <=? r') && nth (r' - (k + start)) flags false && (c' <=? ncols)
      then set_fill code (ws_cell ws r' c')
      else ws_cell ws r' c'.
Proof.
  induction flags as [|b flags IH]; intros k ws r' c' Hs Hr' Hc'.
  - simpl. destruct (r' - (k + start)); rewrite andb_false_r; reflexivity.
  - cbn [List.length seq combine fold_left fst snd].
    rewrite IH by assumption.
    assert (Hcell : ws_cell (if b then fill_row code ncols (k + start) ws else ws) r' c'
                    = if b && (r' =? k + start) && (c' <=? ncols)
                      then set_fill code (ws_cell ws r' c') else ws_cell ws r' c').
    { destruct b; [|reflexivity]. rewrite fill_row_cell by lia. reflexivity. }
    rewrite Hcell.
    destruct (Nat.leb_spec (S k + start) r') as [H1 | H1].
    + replace (r' =? k + start) with false by (symmetry; apply Nat.eqb_neq; lia).
      rewrite andb_false_r. cbn [andb].
      replace (k + start <=? r') with true by (symmetry; apply Nat.leb_le; lia).
      replace (r' - (k + start)) with (S (r' - (S k + start))) by lia.
      reflexivity.
    + cbn [andb]. destruct (Nat.leb_spec (k + start) r') as [H2 | H2].
      * assert (r' = k + start) as -> by lia.
        rewrite Nat.sub_diag, Nat.eqb_refl. cbn [nth andb]. rewrite andb_true_r. reflexivity.
      * replace (r' =? k + start) with false by (symmetry; apply Nat.eqb_neq; lia).
        rewrite andb_false_r. reflexivity.
Qed.

Lemma fill_rows_cell (code : string) (ncols start : nat) (flags : list bool)
  (ws : worksheet) (r' c' : nat) :
  1 <= start -> 1 <= r' -> 1 <= c' ->
  ws_cell (fill_rows code ncols start flags ws) r' c'
  = if (start <=? r') && nth (r' - start) flags false && (c' <=? ncols)
    then set_fill code (ws_cell ws r' c')
    else ws_cell ws r' c'.
Proof.
  intros. unfold fill_rows. rewrite fill_rows_cell_from by assumption. reflexivity.
Qed.

Lemma fill_cells_cell (code : string) (col : nat) (flags : list bool) :
  forall (r : nat) (ws : worksheet) (r' c' : nat),
    1 <= col -> 1 <= r -> 1 <= r' -> 1 <= c' ->
    ws_cell (fill_cells code col r flags ws) r' c'
    = if (c' =? col) && (r <=? r') && nth (r' - r) flags false
      then set_fill code (ws_cell ws r' c')
      else ws_cell ws r' c'.
Proof.
  induction flags as [|b flags IH]; intros r ws r' c' Hcol Hr Hr' Hc'.
  - simpl. destruct (r' - r); rewrite andb_false_r; reflexivity.
  - cbn [fill_cells]. rewrite IH by lia.
    assert (Hcell : ws_cell (if b then ws_update (set_fill code) r col ws else ws) r' c'
                    = if b && (c' =? col) && (r' =? r)
                      then set_fill code (ws_cell ws r' c') else ws_cell ws r' c').
    { destruct b; [|reflexivity]. cbn [andb].
      destruct (Nat.eq_dec c' col) as [-> | Hc], (Nat.eq_dec r' r) as [-> | Hrr].
      - rewrite !Nat.eqb_refl. apply ws_cell_update_same.
      - rewrite ws_cell_update_other by (try lia; intros E; inversion E; lia).
        apply Nat.eqb_neq in Hrr. rewrite Hrr, andb_false_r. reflexivity.
      - rewrite ws_cell_update_other by (try lia; intros E; inversion E; lia).
        apply Nat.eqb_neq in Hc. rewrite Hc. reflexivity.
      - rewrite ws_cell_update_other by (try lia; intros E; inversion E; lia).
        apply Nat.eqb_neq in Hc. rewrite Hc. reflexivity. }
    rewrite Hcell.
    destruct (c' =? col); [|rewrite andb_false_r; reflexivity].
    cbn [andb]. rewrite andb_true_r.
    destruct (Nat.leb_spec (S r) r') as [H1 | H1].
    + replace (r' =? r) with false by (symmetry; apply Nat.eqb_neq; lia).
      rewrite andb_false_r.
      replace (r <=? r') with true by (symmetry; apply Nat.leb_le; lia).
      replace (r' - r) with (S (r' - S r)) by lia. reflexivity.
    + destruct (Nat.leb_spec r r') as [H2 | H2].
      * assert (r' = r) as -> by lia.
        rewrite Nat.sub_diag, Nat.eqb_refl. cbn [nth andb]. rewrite andb_true_r. reflexivity.
      * replace (r' =? r) with false by (symmetry; apply Nat.eqb_neq; lia).
        rewrite andb_false_r. reflexivity.
Qed.

End CellFacts.

Lemma highlight_rows_and_cells (rt : PyRuntime) (ws : ExcelOperations.worksheet)
  (df : DataFrame) (d : pydict) (column : string) (i start : nat) :
  dict_get_default "column" PNone d = PStr column ->
  get_loc column (columns df) = Some i ->
  (ExcelOperations._highlight_rows rt ws df (PDict d) start = ws
   /\ Highlighting._highlight_cells rt ws df (PDict d) start = ws)
  \/ exists (code : string) (flags : list bool),
       ExcelOperations._highlight_rows rt ws df (PDict d) start
       = ExcelOperations.fill_rows code (List.length (columns df)) start flags ws
       /\ Highlighting._highlight_cells rt ws df (PDict d) start
          = Highlighting.fill_cells code (i + 1) start flags ws.
Proof.
  intros Hcol Hi.
  unfold ExcelOperations._highlight_rows, Highlighting._highlight_cells,
    ExcelOperations.highlight_rows_body, Highlighting.highlight_cells_body.
  rewrite Hcol. cbn [truthy ExcelOperations.py_in_columns ExcelOperations.column_name].
  rewrite Hi.
  destruct (negb (String.eqb column "")); cbn [bind negb]; [|left; split; reflexivity].
  unfold has_column. rewrite Hi. cbn [bind negb].
  destruct (ExcelOperations.color_code ExcelOperations.COLORS "FFFFFF00"
              (dict_get_default "color" (PStr "yellow") d)) as [code|];
    cbn [bind]; [|left; split; reflexivity].
  set (condition := dict_get_default "condition" PNone d).
  destruct (match condition with
            | PDict c =>
                match dict_get_default "operator" (PStr "") c with
                | PStr o => Ok (remove_char "_" (upper rt o))
                | _ => Raise
                end
            | _ => Ok ""
            end) as [operator_str|]; cbn [bind]; [|left; split; reflexivity].
  destruct (String.eqb operator_str "TOPN" || String.eqb operator_str "BOTTOMN").
  - destruct (if str_contains "TOP" operator_str then _ else _) as [top_values|];
      cbn [bind]; [|left; split; reflexivity].
    right. eexists. eexists. split; reflexivity.
  - right. eexists. eexists. split; reflexivity.
Qed.

(** X13.  [_highlight_cells] is [_highlight_rows] restricted to the named
    column: for every request, topN and bottomN included, the cells of
    that column end up exactly as [_highlight_rows] leaves them, and every
    cell of any other column is left as it was. *)
Theorem highlight_cells_column_of_rows :
  forall (rt : PyRuntime) (ws : ExcelOperations.worksheet) (df : DataFrame)
         (d : pydict) (column : string) (i start : nat),
    dict_get_default "column" PNone d = PStr column ->
    get_loc column (columns df) = Some i ->
    1 <= start ->
    let rows_ws := ExcelOperations._highlight_rows rt ws df (PDict d) start in
    let cells_ws := Highlighting._highlight_cells rt ws df (PDict d) start in
    (forall r, 1 <= r ->
       ExcelOperations.ws_cell cells_ws r (i + 1) = ExcelOperations.ws_cell rows_ws r (i + 1))
    /\ (forall r c, 1 <= r -> 1 <= c -> c <> i + 1 ->
          ExcelOperations.ws_cell cells_ws r c = ExcelOperations.ws_cell ws r c).
Proof.
  intros rt ws df d column i start Hcol Hi Hstart rows_ws cells_ws.
  destruct (highlight_rows_and_cells rt ws df d column i start Hcol Hi)
    as [[Hr Hc] | [code [flags [Hr Hc]]]];
    unfold rows_ws, cells_ws; rewrite Hr, Hc.
  - split; reflexivity.
  - pose proof (get_loc_lt _ _ _ Hi) as Hlt. split.
    + intros r H1. rewrite fill_rows_cell, fill_cells_cell by lia.
      rewrite Nat.eqb_refl. cbn [andb].
      replace (i + 1 <=? List.length (columns df)) with true
        by (symmetry; apply Nat.leb_le; lia).
      rewrite andb_true_r. reflexivity.
    + intros r c H1 H2 Hne. rewrite fill_cells_cell by lia.
      apply Nat.eqb_neq in Hne. rewrite Hne. reflexivity.
Qed.

Lemma highlight_cells_column_of_rows_witness :
  map (map ExcelOperations.cfill)
      (Highlighting._highlight_cells example_runtime trainers_sheet trainers
         (PDict [("column", PStr "Trainer");
                 ("condition", PDict [("operator", PStr "=="); ("value", PStr "y")])]) 2)
  = [ [None; None]; [None; None]; [None; Some "FFFFFF00"]; [None; None] ]
  /\ ExcelOperations.ws_cell
       (Highlighting._highlight_cells example_runtime trainers_sheet trainers
          (PDict [("column", PStr "Trainer");
                  ("condition", PDict [("operator", PStr "=="); ("value", PStr "y")])]) 2)
       3 1
     = ExcelOperations.ws_cell trainers_sheet 3 1.
Proof.
  destruct (highlight_cells_column_of_rows example_runtime trainers_sheet trainers
              [("column", PStr "Trainer");
               ("condition", PDict [("operator", PStr "=="); ("value", PStr "y")])]
              "Trainer" 1 2 eq_refl eq_refl ltac:(lia)) as [_ H].
  split; [vm_compute; reflexivity|].
  apply (H 3 1); [lia | lia | discriminate].
Defined.

(** ** Missing values *)

Section NullFacts.

Import ExcelOperations Highlighting.

Lemma get_loc_name (a b : string) (cols : list string) (j : nat) :
  get_loc a cols = Some j -> get_loc b cols = Some j -> a = b.
Proof.
  revert j. induction cols as [|c cols IH]; intros j; simpl; [discriminate|].
  destruct (String.eqb a c) eqn:Ea, (String.eqb b c) eqn:Eb.
  - intros _ _. apply String.eqb_eq in Ea, Eb. congruence.
  - intros H. inversion H. subst j.
    destruct (get_loc b cols); discriminate.
  - intros H1 H2. inversion H2. subst j.
    destruct (get_loc a cols); discriminate.
  - destruct (get_loc a cols) as [ia|]; [|discriminate].
    destruct (get_loc b cols) as [ib|]; [|discriminate].
    simpl. intros H1 H2. inversion H1. inversion H2. subst j.
    apply (IH ia); [reflexivity | f_equal; lia].
Qed.

Lemma existsb_pointwise {A : Type} (f g : A -> bool) (l : list A) :
  (forall x, In x l -> f x = g x) -> existsb f l = existsb g l.
Proof.
  induction l as [|x l IH]; intros H; simpl; [reflexivity|].
  rewrite (H x) by (left; reflexivity). rewrite IH; [reflexivity|].
  intros y Hy. apply H. right. exact Hy.
Qed.

Lemma existsb_and_const {A : Type} (f : A -> bool) (b : bool) (l : list A) :
  existsb (fun x => f x && b) l = existsb f l && b.
Proof.
  induction l as [|x l IH]; simpl; [reflexivity|].
  rewrite IH. destruct (f x), b, (existsb f l); reflexivity.
Qed.

Lemma nulls_loop_cell (code : string) (df : DataFrame) (names : list string) :
  forall (ws : worksheet) (r c : nat),
    1 <= r -> 1 <= c ->
    ws_cell (nulls_loop code (map PStr names) df ws) r c
    = if existsb (null_hit df r c) names then set_fill code (ws_cell ws r c)
      else ws_cell ws r c.
Proof.
  induction names as [|n names IH]; intros ws r c Hr Hc; [reflexivity|].
  cbn [map nulls_loop py_in_columns column_name existsb].
  unfold has_column, null_hit at 1.
  destruct (get_loc n (columns df)) as [i|] eqn:Hi.
  - rewrite IH by assumption. rewrite fill_cells_cell by lia.
    destruct ((c =? i + 1) && (2 <=? r) && nth (r - 2) (map isna (series n df)) false);
      cbn [orb]; [|reflexivity].
    destruct (existsb (null_hit df r c) names); reflexivity.
  - cbn [orb]. apply IH; assumption.
Qed.

Lemma series_nth (column : string) (df : DataFrame) (j k : nat) :
  get_loc column (columns df) = Some j -> k < len df ->
  nth k (map isna (series column df)) false = isna (row_get j (nth k (rows df) [])).
Proof.
  intros Hj Hk. unfold series. rewrite Hj.
  rewrite map_map.
  rewrite (nth_indep _ false (isna (row_get j []))) by (rewrite length_map; exact Hk).
  apply (map_nth (fun row => isna (row_get j row))).
Qed.

Lemma null_hit_outside (df : DataFrame) (r c : nat) (n : string) :
  r < 2 \/ 2 + len df <= r \/ List.length (columns df) < c ->
  null_hit df r c n = false.
Proof.
  intros H. unfold null_hit.
  destruct (get_loc n (columns df)) as [i|] eqn:Hi; [|reflexivity].
  pose proof (get_loc_lt _ _ _ Hi) as Hlt.
  destruct H as [H | [H | H]].
  - replace (2 <=? r) with false by (symmetry; apply Nat.leb_gt; lia).
    rewrite andb_false_r. reflexivity.
  - rewrite nth_overflow; [apply andb_false_r|].
    rewrite length_map. unfold series. rewrite Hi, length_map. unfold len in H. lia.
  - replace (c =? i + 1) with false by (symmetry; apply Nat.eqb_neq; lia). reflexivity.
Qed.

End NullFacts.

(** X14.  [_highlight_nulls] with a list of column names (all columns
    when the list is empty or absent): a cell of the table gets the fill
    exactly when its column is among those looked at and the table has no
    value there, with the rows counted from row 2; the header, the rows
    below the table and the columns to its right are left as they are. *)
Theorem highlight_nulls_marks_missing :
  forall (ws : ExcelOperations.worksheet) (df : DataFrame) (d : pydict)
         (names : list string) (code : string),
    dict_get_default "columns" (PList []) d = PList (map PStr names) ->
    ExcelOperations.color_code ExcelOperations.COLORS "FFD3D3D3"
      (dict_get_default "color" (PStr "gray") d) = Ok code ->
    let ws' := Highlighting._highlight_nulls ws df (PDict d) in
    (forall (column : string) (j k : nat),
        get_loc column (columns df) = Some j -> k < len df ->
        ExcelOperations.ws_cell ws' (2 + k) (j + 1)
        = if existsb (String.eqb column) (null_columns names df)
             && Highlighting.isna (row_get j (nth k (rows df) []))
          then ExcelOperations.set_fill code (ExcelOperations.ws_cell ws (2 + k) (j + 1))
          else ExcelOperations.ws_cell ws (2 + k) (j + 1))
    /\ (forall r c, 1 <= r -> 1 <= c ->
          r < 2 \/ 2 + len df <= r \/ List.length (columns df) < c ->
          ExcelOperations.ws_cell ws' r c = ExcelOperations.ws_cell ws r c).
Proof.
  intros ws df d names code Hcols Hcode ws'.
  assert (Hws : ws' = Highlighting.nulls_loop code (map PStr (null_columns names df)) df ws).
  { unfold ws', Highlighting._highlight_nulls. rewrite Hcols, Hcode.
    destruct names; reflexivity. }
  rewrite Hws. split.
  - intros column j k Hj Hk. rewrite nulls_loop_cell by lia.
    replace (existsb (null_hit df (2 + k) (j + 1)) (null_columns names df))
      with (existsb (String.eqb column) (null_columns names df)
            && Highlighting.isna (row_get j (nth k (rows df) []))); [reflexivity|].
    rewrite <- existsb_and_const. apply existsb_pointwise. intros n _.
    unfold null_hit. destruct (String.eqb column n) eqn:E.
    + apply String.eqb_eq in E. subst n. rewrite Hj, Nat.eqb_refl.
      cbn [andb Nat.leb]. replace (2 + k - 2) with k by lia.
      symmetry. apply series_nth; assumption.
    + destruct (get_loc n (columns df)) as [i|] eqn:Hi; [|reflexivity].
      replace (j + 1 =? i + 1) with false; [reflexivity|].
      symmetry. apply Nat.eqb_neq. intros Heq.
      assert (i = j) by lia. subst i.
      rewrite (get_loc_name _ _ _ _ Hj Hi) in E. rewrite String.eqb_refl in E. discriminate.
  - intros r c Hr Hc Hout. rewrite nulls_loop_cell by assumption.
    replace (existsb (null_hit df r c) (null_columns names df)) with false; [reflexivity|].
    symmetry. clear Hws. induction (null_columns names df) as [|n l IH]; [reflexivity|].
    simpl. rewrite null_hit_outside by exact Hout. exact IH.
Qed.

Lemma highlight_nulls_marks_missing_witness :
  map (map ExcelOperations.cfill)
      (Highlighting._highlight_nulls gaps_sheet gaps_table (PDict [("columns", PList [PStr "b"])]))
  = [ [None; None]; [None; Some "FFD3D3D3"]; [None; None] ]
  /\ ExcelOperations.cfill
       (ExcelOperations.ws_cell
          (Highlighting._highlight_nulls gaps_sheet gaps_table
             (PDict [("columns", PList [PStr "b"])])) 3 1) = None.
Proof.
  destruct (highlight_nulls_marks_missing gaps_sheet gaps_table
              [("columns", PList [PStr "b"])] ["b"] "FFD3D3D3" eq_refl eq_refl) as [H _].
  split; [vm_compute; reflexivity|].
  pose proof (H "a" 0 1 eq_refl ltac:(vm_compute; lia)) as H1.
  change (2 + 1) with 3 in H1. change (0 + 1) with 1 in H1.
  rewrite H1. reflexivity.
Defined.

(** ** Row highlighting in the multi-sheet handler *)

Lemma highlight_rows_loop_no_match (operator value : pyobj) (code : string) (col_idx : nat)
  (row_idxs : list nat) (ws : ExcelOperations.worksheet) :
  (forall c, MultiSheetHighlighting.highlight_match operator value c = false) ->
  MultiSheetHighlighting.highlight_rows_loop operator value code col_idx row_idxs ws = ws.
Proof.
  intros H. induction row_idxs as [|r rest IH]; simpl; [reflexivity|].
  rewrite H. exact IH.
Qed.

(** X15.  The multi-sheet handler's [_apply_highlighting_to_sheet] looks
    at the operators [==], [!=] and [in] only: a request with any other
    operator ([>], [<], [>=], [<=], [contains], [topN], ...) fills no
    cell, and the workbook stays exactly as it was, whatever the sheets
    hold. *)
Theorem multi_sheet_highlight_other_operators :
  forall (wb : MultiSheet.workbook) (sheets : list MultiSheet.sheet)
         (d c : pydict) (o : string),
    dict_get_default "condition" (PDict []) d = PDict c ->
    dict_get_default "operator" (PStr "==") c = PStr o ->
    o <> "==" -> o <> "!=" -> o <> "in" ->
    MultiSheetHighlighting._apply_highlighting_to_sheet wb (PDict d) sheets = wb.
Proof.
  intros wb sheets d c o Hcond Hop H1 H2 H3.
  unfold MultiSheetHighlighting._apply_highlighting_to_sheet.
  cbn [MultiSheetHighlighting.highlight_all MultiSheetHighlighting.highlight_one].
  destruct (MultiSheet.target_of d sheets) as [[ | | | |n| | ]|]; try reflexivity.
  cbn [bind].
  destruct (MultiSheet.wb_get n wb) as [ws|] eqn:Ews; [|reflexivity].
  destruct (MultiSheet.find_df n sheets) as [t|]; [|reflexivity].
  destruct (if truthy (dict_get_default "column" PNone d) then _ else _) as [[|]|];
    try reflexivity.
  cbn [bind].
  destruct (get_loc _ (columns t)) as [i|]; [|reflexivity].
  destruct (ExcelOperations.color_code _ _ _) as [code|]; [|reflexivity].
  cbn [bind]. rewrite Hcond, Hop.
  rewrite highlight_rows_loop_no_match.
  - rewrite wb_set_get by exact Ews. reflexivity.
  - intros x. unfold MultiSheetHighlighting.highlight_match, Condition.op_is.
    apply String.eqb_neq in H1, H2, H3. rewrite H1, H2, H3. reflexivity.
Qed.

Lemma multi_sheet_highlight_other_operators_witness :
  MultiSheetHighlighting._apply_highlighting_to_sheet [("Data", score_sheet)]
    (PDict highlight_high_scores) [MultiSheet.mkSheet "Data" score_table]
  = [("Data", score_sheet)]
  /\ ExcelOperations.cfill
       (ExcelOperations.ws_cell
          (ExcelOperations._highlight_rows example_runtime score_sheet score_table
             (PDict highlight_high_scores) 2) 2 1)
     = Some "FFFF0000".
Proof.
  split.
  - apply (multi_sheet_highlight_other_operators [("Data", score_sheet)]
             [MultiSheet.mkSheet "Data" score_table] highlight_high_scores
             [("operator", PStr ">"); ("value", PInt 5)] ">" eq_refl eq_refl);
      discriminate.
  - vm_compute. reflexivity.
Defined.

(** ** Formatting changes fills only *)

Section FillFacts.

Import ExcelOperations Highlighting Formatting.

Variable rt : PyRuntime.

Lemma fills_only_refl (ws : worksheet) : fills_only ws ws.
Proof. intros r c. repeat split. Qed.

Lemma fills_only_trans (a b c : worksheet) :
  fills_only a b -> fills_only b c -> fills_only a c.
Proof.
  intros H1 H2 r k. destruct (H1 r k) as [A1 [A2 A3]], (H2 r k) as [B1 [B2 B3]].
  repeat split; congruence.
Qed.

Lemma fills_only_update (code : string) (r c : nat) (ws : worksheet) :
  fills_only ws (ws_update (set_fill code) r c ws).
Proof.
  intros r' c'. unfold ws_cell, ws_update.
  destruct (Nat.eq_dec (r - 1) (r' - 1)) as [E | E].
  - rewrite <- E. rewrite nth_update_nth_same.
    destruct (Nat.eq_dec (c - 1) (c' - 1)) as [E' | E'].
    + rewrite <- E'. rewrite nth_update_nth_same. repeat split.
    + rewrite nth_update_nth_other by exact E'. repeat split.
  - rewrite nth_update_nth_other by exact E. repeat split.
Qed.

Lemma fills_only_fold {A : Type} (f : worksheet -> A -> worksheet) (l : list A) :
  (forall w x, fills_only w (f w x)) ->
  forall ws, fills_only ws (fold_left f l ws).
Proof.
  intros H. induction l as [|x l IH]; intros ws; simpl; [apply fills_only_refl|].
  eapply fills_only_trans; [apply H | apply IH].
Qed.

Lemma fills_only_fill_row (code : string) (ncols r : nat) (ws : worksheet) :
  fills_only ws (fill_row code ncols r ws).
Proof.
  unfold fill_row. apply fills_only_fold. intros w c. apply fills_only_update.
Qed.

Lemma fills_only_fill_rows (code : string) (ncols start : nat) (flags : list bool)
  (ws : worksheet) :
  fills_only ws (fill_rows code ncols start flags ws).
Proof.
  unfold fill_rows. apply fills_only_fold. intros w [k b]. simpl.
  destruct b; [apply fills_only_fill_row | apply fills_only_refl].
Qed.

Lemma fills_only_fill_cells (code : string) (col : nat) (flags : list bool) :
  forall (r : nat) (ws : worksheet), fills_only ws (fill_cells code col r flags ws).
Proof.
  induction flags as [|b flags IH]; intros r ws; simpl; [apply fills_only_refl|].
  eapply fills_only_trans; [|apply IH].
  destruct b; [apply fills_only_update | apply fills_only_refl].
Qed.

Lemma fills_only_format_cells (rules : pyobj) (col : nat) (s : list cellv) :
  forall (r : nat) (ws : worksheet), fills_only ws (format_cells rt rules col r s ws).
Proof.
  induction s as [|v s IH]; intros r ws; simpl; [apply fills_only_refl|].
  destruct (bind (iterate rules) _) as [[code|]|].
  - eapply fills_only_trans; [apply fills_only_update | apply IH].
  - apply IH.
  - apply fills_only_refl.
Qed.

Lemma fills_only_nulls_loop (code : string) (df : DataFrame) (cols : list pyobj) :
  forall ws : worksheet, fills_only ws (nulls_loop code cols df ws).
Proof.
  induction cols as [|c cols IH]; intros ws; simpl; [apply fills_only_refl|].
  destruct (py_in_columns c df) as [[|]|]; try apply fills_only_refl; [|apply IH].
  destruct (get_loc _ _); [|apply fills_only_refl].
  eapply fills_only_trans; [apply fills_only_fill_cells | apply IH].
Qed.

Lemma fills_only_duplicates_loop (code : string) (df : DataFrame) (cols : list pyobj) :
  forall ws : worksheet, fills_only ws (duplicates_loop code cols df ws).
Proof.
  induction cols as [|c cols IH]; intros ws; simpl; [apply fills_only_refl|].
  destruct (py_in_columns c df) as [[|]|]; try apply fills_only_refl; [|apply IH].
  destruct (get_loc _ _); [|apply fills_only_refl].
  eapply fills_only_trans; [apply fills_only_fill_cells | apply IH].
Qed.

Ltac split_cases :=
  repeat match goal with
         | |- fills_only ?ws ?ws => apply fills_only_refl
         | |- fills_only _ (fill_rows _ _ _ _ _) => apply fills_only_fill_rows
         | |- fills_only _ (fill_cells _ _ _ _ _) => apply fills_only_fill_cells
         | |- fills_only _ (format_cells _ _ _ _ _ _) => apply fills_only_format_cells
         | |- fills_only _ (nulls_loop _ _ _ _) => apply fills_only_nulls_loop
         | |- fills_only _ (duplicates_loop _ _ _ _) => apply fills_only_duplicates_loop
         | |- context [match ?x with _ => _ end] =>
             lazymatch x with
             | context [match _ with _ => _ end] => fail
             | _ => destruct x
             end
         end.

Lemma fills_only_highlight_rows (ws : worksheet) (df : DataFrame) (spec : pyobj)
  (start : nat) :
  fills_only ws (_highlight_rows rt ws df spec start).
Proof.
  unfold _highlight_rows, highlight_rows_body, bind. split_cases.
Qed.

Lemma fills_only_highlight_cells (ws : worksheet) (df : DataFrame) (spec : pyobj)
  (start : nat) :
  fills_only ws (_highlight_cells rt ws df spec start).
Proof.
  unfold _highlight_cells, highlight_cells_body, bind. split_cases.
Qed.

Lemma fills_only_conditional_formatting (ws : worksheet) (df : DataFrame) (spec : pyobj)
  (start : nat) :
  fills_only ws (_apply_conditional_formatting rt ws df spec start).
Proof. unfold _apply_conditional_formatting, bind. split_cases. Qed.

Lemma fills_only_highlight_duplicates (ws : worksheet) (df : DataFrame) (spec : pyobj) :
  fills_only ws (_highlight_duplicates ws df spec).
Proof. unfold _highlight_duplicates, bind. split_cases. Qed.

Lemma fills_only_highlight_nulls (ws : worksheet) (df : DataFrame) (spec : pyobj) :
  fills_only ws (_highlight_nulls ws df spec).
Proof. unfold _highlight_nulls, bind. split_cases. Qed.

Lemma fills_only_when_present (key : string) (operations : pydict)
  (f : worksheet -> pyobj -> worksheet) (ws : worksheet) :
  (forall w x, fills_only w (f w x)) ->
  fills_only ws (when_present key operations f ws).
Proof.
  intros H. unfold when_present, for_each.
  destruct (dict_get key operations) as [spec|]; [|apply fills_only_refl].
  destruct spec; try apply H. apply fills_only_fold. exact H.
Qed.

End FillFacts.

(** X16.  Whatever the request, [_apply_formatting_operations] (row and
    cell highlighting, conditional formats, duplicates and nulls, single
    or in lists) changes fills only: every cell of the worksheet keeps
    its value, its font weight and its number format. *)
Theorem formatting_changes_fills_only :
  forall (rt : PyRuntime) (ws : ExcelOperations.worksheet) (df : DataFrame)
         (operations : pydict) (data_start_row : nat),
    fills_only ws (Formatting._apply_formatting_operations rt ws df operations data_start_row).
Proof.
  intros rt ws df operations data_start_row.
  unfold Formatting._apply_formatting_operations.
  eapply fills_only_trans; [|apply fills_only_when_present;
                              intros w x; apply fills_only_highlight_nulls].
  eapply fills_only_trans; [|apply fills_only_when_present;
                              intros w x; apply fills_only_highlight_duplicates].
  eapply fills_only_trans; [|apply fills_only_when_present;
                              intros w x; apply fills_only_conditional_formatting].
  eapply fills_only_trans; [|apply fills_only_when_present;
                              intros w x; apply fills_only_highlight_cells].
  apply fills_only_when_present. intros w x. apply fills_only_highlight_rows.
Qed.
(** ** Ordering conditions on a cell *)

Lemma qc_compare_refl (q : Qc) : Qccompare q q = Eq.
Proof. apply Qceq_alt. reflexivity. Qed.

Lemma qc_leb_ltb_eqb (p q : Qc) : qc_ltb p q || qc_eqb p q = negb (qc_ltb q p).
Proof.
  unfold qc_eqb, Qc_eq_bool.
  destruct (Qc_eq_dec p q) as [-> | Hne].
  - unfold qc_ltb. rewrite qc_compare_refl. reflexivity.
  - rewrite orb_false_r. rewrite (qc_ltb_leb p q). f_equal.
    unfold qc_leb, qc_ltb. destruct (Qccompare q p) eqn:E; try reflexivity.
    apply Qceq_alt in E. congruence.
Qed.

Lemma fl_leb_not_ltb (a b : pyfloat) :
  fl_isnan a = false -> fl_isnan b = false -> fl_leb a b = negb (fl_ltb b a).
Proof.
  unfold fl_leb.
  destruct a as [p|[|]|], b as [q|[|]|]; cbn; intros Ha Hb;
    try discriminate; try reflexivity.
  apply qc_leb_ltb_eqb.
Qed.

Lemma fl_nan_unordered (a b : pyfloat) :
  fl_isnan a = true \/ fl_isnan b = true ->
  fl_ltb a b = false /\ fl_leb a b = false /\ fl_ltb b a = false /\ fl_leb b a = false.
Proof.
  unfold fl_leb.
  destruct a as [p|[|]|], b as [q|[|]|]; cbn; intros [H | H];
    try discriminate; repeat split; reflexivity.
Qed.

(** X17.  The ordering operators of [_check_condition] compare the cell
    and the operand as floats, also text that reads as a number.  When
    both convert and neither is NaN, [>] and [<=] are complementary and
    so are [<] and [>=]; when one of them is NaN, or the cell or the
    operand does not convert, none of the four matches. *)
Theorem ordering_conditions_compare_floats :
  forall (rt : PyRuntime) (v : value) (target : pyobj),
    (forall a b : pyfloat,
        Condition.float_of_value rt v = Ok a ->
        Condition.float_of_obj rt target = Ok b ->
        Condition.matches rt (Some v) (comparison ">" target) = fl_ltb b a
        /\ Condition.matches rt (Some v) (comparison "<" target) = fl_ltb a b
        /\ (fl_isnan a = false -> fl_isnan b = false ->
            Condition.matches rt (Some v) (comparison "<=" target) = negb (fl_ltb b a)
            /\ Condition.matches rt (Some v) (comparison ">=" target) = negb (fl_ltb a b))
        /\ (fl_isnan a = true \/ fl_isnan b = true ->
            forall op, In op [">"; "<"; ">="; "<="] ->
                       Condition.matches rt (Some v) (comparison op target) = false))
    /\ (Condition.float_of_value rt v = Raise \/ Condition.float_of_obj rt target = Raise ->
        forall op, In op [">"; "<"; ">="; "<="] ->
                   Condition.matches rt (Some v) (comparison op target) = false).
Proof.
  intros rt v target. split.
  - intros a b Ha Hb.
    assert (Hgt : Condition.matches rt (Some v) (comparison ">" target) = fl_ltb b a).
    { unfold Condition.matches, Condition._check_condition, Condition.check_condition_body,
        comparison.
      cbn [dict_get_default dict_get String.eqb Ascii.eqb Bool.eqb Condition.op_is].
      unfold Condition.float_compare. rewrite Ha, Hb. reflexivity. }
    assert (Hlt : Condition.matches rt (Some v) (comparison "<" target) = fl_ltb a b).
    { unfold Condition.matches, Condition._check_condition, Condition.check_condition_body,
        comparison.
      cbn [dict_get_default dict_get String.eqb Ascii.eqb Bool.eqb Condition.op_is].
      unfold Condition.float_compare. rewrite Ha, Hb. reflexivity. }
    assert (Hle : Condition.matches rt (Some v) (comparison "<=" target) = fl_leb a b).
    { unfold Condition.matches, Condition._check_condition, Condition.check_condition_body,
        comparison.
      cbn [dict_get_default dict_get String.eqb Ascii.eqb Bool.eqb Condition.op_is].
      unfold Condition.float_compare. rewrite Ha, Hb. reflexivity. }
    assert (Hge : Condition.matches rt (Some v) (comparison ">=" target) = fl_leb b a).
    { unfold Condition.matches, Condition._check_condition, Condition.check_condition_body,
        comparison.
      cbn [dict_get_default dict_get String.eqb Ascii.eqb Bool.eqb Condition.op_is].
      unfold Condition.float_compare. rewrite Ha, Hb. reflexivity. }
    split; [exact Hgt|]. split; [exact Hlt|]. split.
    + intros Hna Hnb. rewrite Hle, Hge. split; apply fl_leb_not_ltb; assumption.
    + intros Hnan op Hop.
      destruct (fl_nan_unordered a b Hnan) as [H1 [H2 [H3 H4]]].
      simpl in Hop. destruct Hop as [<- | [<- | [<- | [<- | []]]]]; congruence.
  - intros Hfail op Hop.
    unfold Condition.matches, Condition._check_condition, Condition.check_condition_body,
      comparison.
    simpl in Hop.
    destruct Hop as [<- | [<- | [<- | [<- | []]]]];
      cbn [dict_get_default dict_get String.eqb Ascii.eqb Bool.eqb Condition.op_is];
      unfold Condition.float_compare;
      (destruct Hfail as [H | H]; rewrite H;
       [reflexivity | destruct (Condition.float_of_value rt v); reflexivity]).
Qed.

Lemma ordering_conditions_compare_floats_witness :
  Condition.matches example_runtime (Some (VStr "10")) (comparison ">" (PStr "9")) = true
  /\ Condition.matches example_runtime (Some (VStr "10")) (comparison "<=" (PStr "9")) = false
  /\ Condition.matches example_runtime (Some (VNum (Z2Qc 3))) (comparison "<=" (PFloat FNaN))
     = false
  /\ Condition.matches example_runtime (Some (VStr "ten")) (comparison "<=" (PInt 9)) = false.
Proof.
  destruct (ordering_conditions_compare_floats example_runtime (VStr "10") (PStr "9"))
    as [H _].
  destruct (H (FNum (Z2Qc 10)) (FNum (Z2Qc 9)) eq_refl eq_refl) as [Hgt [_ [Hle _]]].
  destruct (Hle eq_refl eq_refl) as [Hle' _].
  destruct (ordering_conditions_compare_floats example_runtime (VNum (Z2Qc 3)) (PFloat FNaN))
    as [Hn _].
  destruct (Hn (FNum (Z2Qc 3)) FNaN eq_refl eq_refl) as [_ [_ [_ Hnan]]].
  destruct (ordering_conditions_compare_floats example_runtime (VStr "ten") (PInt 9))
    as [_ H'].
  split; [rewrite Hgt; vm_compute; reflexivity|].
  split; [rewrite Hle'; vm_compute; reflexivity|].
  split.
  - apply Hnan; [right; reflexivity | simpl; tauto].
  - apply H'; [left; reflexivity | simpl; tauto].
Defined.

(** ** Detection of the header row *)

Section HeaderFacts.

Import HeaderRow.

Variable rt : PyRuntime.

Lemma scan_best (todo : list (list cellv)) :
  forall (done : list (list cellv)) (b s : nat),
    (forall i, i < List.length done -> score rt (nth i done []) <= s) ->
    (forall i, i < b -> score rt (nth i done []) < s) ->
    (b < List.length done /\ s = score rt (nth b done [])) \/ (b = 0 /\ s = 0) ->
    let r := scan rt todo (List.length done) b s in
    (forall i, i < List.length (done ++ todo) -> score rt (nth i (done ++ todo) []) <= snd r)
    /\ (forall i, i < fst r -> score rt (nth i (done ++ todo) []) < snd r)
    /\ ((fst r < List.length (done ++ todo) /\ snd r = score rt (nth (fst r) (done ++ todo) []))
        \/ (fst r = 0 /\ snd r = 0)).
Proof.
  induction todo as [|row todo IH]; intros done b s Hmax Hfirst Hbest.
  - simpl. rewrite app_nil_r. auto.
  - cbn [scan].
    assert (Hlen : List.length (done ++ [row]) = S (List.length done))
      by (rewrite length_app; simpl; lia).
    assert (Hold : forall i, i < List.length done ->
                             nth i (done ++ [row]) [] = nth i done [])
      by (intros i Hi; apply app_nth1; exact Hi).
    assert (Hnew : nth (List.length done) (done ++ [row]) [] = row)
      by (rewrite app_nth2, Nat.sub_diag by lia; reflexivity).
    replace (done ++ row :: todo) with ((done ++ [row]) ++ todo)
      by (rewrite <- app_assoc; reflexivity).
    specialize (IH (done ++ [row])). rewrite Hlen in IH.
    destruct (Nat.ltb_spec s (score rt row)) as [Hlt | Hge].
    + apply (IH (List.length done) (score rt row)).
      * intros i Hi.
        destruct (Nat.eq_dec i (List.length done)) as [-> | Hne].
        -- rewrite Hnew. lia.
        -- rewrite Hold by lia. specialize (Hmax i ltac:(lia)). lia.
      * intros i Hi. rewrite Hold by lia. specialize (Hmax i Hi). lia.
      * left. rewrite Hnew. split; [lia | reflexivity].
    + apply (IH b s).
      * intros i Hi.
        destruct (Nat.eq_dec i (List.length done)) as [-> | Hne].
        -- rewrite Hnew. exact Hge.
        -- rewrite Hold by lia. apply Hmax. lia.
      * intros i Hi.
        destruct Hbest as [[Hb _] | [Hb _]]; [|lia].
        rewrite Hold by lia. apply Hfirst. exact Hi.
      * destruct Hbest as [[Hb Hs] | [Hb Hs]]; [left | right; auto].
        rewrite Hold by exact Hb. split; [lia | exact Hs].
Qed.

End HeaderFacts.

(** X18.  [_detect_header_row] returns the position, among the first ten
    rows of the preview, of the first row with the greatest score (two
    points for every text cell that [strip] does not empty, one for
    every filled cell): no
    row of the ten scores higher, every earlier row scores strictly
    lower, and the answer is 0 when no row has a filled cell. *)
Theorem detect_header_row_first_best :
  forall (rt : PyRuntime) (df_preview : list (list cellv)),
    let rows := firstn 10 df_preview in
    let n := HeaderRow._detect_header_row rt df_preview in
    (rows <> [] -> n < List.length rows)
    /\ (forall i, i < List.length rows ->
          HeaderRow.score rt (nth i rows []) <= HeaderRow.score rt (nth n rows []))
    /\ (forall i, i < n -> HeaderRow.score rt (nth i rows []) < HeaderRow.score rt (nth n rows [])).
Proof.
  intros rt df_preview rows n.
  assert (Hn : n = let (b, s) := HeaderRow.scan rt rows 0 0 0 in
                   if (0 <? s) && (0 <? b) then b else 0) by reflexivity.
  clearbody n rows.
  destruct (scan_best rt rows [] 0 0) as [Hmax [Hfirst Hbest]];
    [simpl; intros; lia | intros; lia | right; auto |].
  cbn [List.length app] in Hmax, Hfirst, Hbest.
  destruct (HeaderRow.scan rt rows 0 0 0) as [b s]. cbn [fst snd] in *.
  assert (Hb : n = b).
  { rewrite Hn.
    destruct (Nat.ltb_spec 0 s), (Nat.ltb_spec 0 b); cbn [andb]; try reflexivity; try lia.
    specialize (Hfirst 0 ltac:(lia)). lia. }
  clear Hn. subst n.
  assert (Hs : s = HeaderRow.score rt (nth b rows [])).
  { destruct Hbest as [[_ Hs] | [Hb Hs]]; [exact Hs|].
    subst b s. destruct rows as [|row rest]; [reflexivity|].
    specialize (Hmax 0 ltac:(simpl; lia)). cbn [nth] in *. lia. }
  split; [|split].
  - intros Hne. destruct Hbest as [[Hb _] | [Hb _]]; [exact Hb|].
    rewrite Hb. destruct rows; [contradiction | simpl; lia].
  - intros i Hi. rewrite <- Hs. apply Hmax. exact Hi.
  - intros i Hi. rewrite <- Hs. apply Hfirst. exact Hi.
Qed.

Lemma detect_header_row_first_best_witness :
  HeaderRow._detect_header_row example_runtime titled_preview = 1
  /\ HeaderRow.score example_runtime (nth 0 titled_preview [])
     < HeaderRow.score example_runtime (nth (HeaderRow._detect_header_row example_runtime titled_preview) titled_preview []).
Proof.
  destruct (detect_header_row_first_best example_runtime titled_preview) as [_ [_ H]].
  split; [reflexivity|].
  apply (H 0). vm_compute. lia.
Defined.
